(** * Phone-number fraud-risk analysis: the scorer and the evidence pipeline

    A shallow embedding of [backend/app/services/risk_scorer.py],
    [backend/app/services/phone_analyzer.py], the two API clients of
    [backend/app/services/osint_modules_real.py] that feed the rich-metadata
    step, and the [/api/analyze] handler of [backend/app/routes/analysis.py].

    Python [float]s are IEEE 754 binary64 values and are held here as
    [spec_float] with the operations of [SpecFloat] at precision 53:
    every product, sum, comparison and rounding below is computed bit for
    bit as CPython computes it.  Python [int]s are [Z], [str]s are
    [string], a [dict] read with [.get(key, default)] is a record of
    [option] fields ([None] = key absent). *)

From Stdlib Require Import ZArith List Bool String Ascii Lia QArith Qminmax Permutation.
From Stdlib Require Import DecimalString.
From Stdlib Require Import Floats.SpecFloat.
Import ListNotations.

Local Open Scope string_scope.
Local Open Scope Z_scope.

(** ** Python floats *)

Module PyFloat.

Definition float : Type := spec_float.

Definition prec : Z := 53.
Definition emax : Z := 1024.

Definition fadd : float -> float -> float := SFadd prec emax.
Definition fmul : float -> float -> float := SFmul prec emax.
Definition fdiv : float -> float -> float := SFdiv prec emax.

(** [x < y], [x <= y], [x >= y]; every comparison with a NaN is [false]. *)
Definition flt (x y : float) : bool := SFltb x y.
Definition fle (x y : float) : bool := SFleb x y.
Definition fge (x y : float) : bool := SFleb y x.

(** [float(n)]: the binary64 value nearest to the integer [n]. *)
Definition of_int (n : Z) : float := binary_normalize prec emax n 0 false.

(** An integer of any size as an exact (unnormalised) operand of [fdiv]. *)
Definition int_exact (n : Z) : float :=
  match n with
  | Z0 => S754_zero false
  | Zpos p => S754_finite false p 0
  | Zneg p => S754_finite true p 0
  end.

(** [a / b] on two ints: the correctly rounded quotient; [None] is
    [ZeroDivisionError].  (CPython reports a quotient of magnitude 2^1024
    or more as [OverflowError]; [fdiv] gives the infinity there.  Day
    counts, the only operands in this program, stay far below.) *)
Definition int_truediv (a b : Z) : option float :=
  if b =? 0 then None else Some (fdiv (int_exact a) (int_exact b)).

(** The literal of the decimal [n / scale], e.g. [decimal 30 100] for
    [0.30]: the nearest binary64 value. *)
Definition decimal (n scale : Z) : float := fdiv (int_exact n) (int_exact scale).

(** [max(a, b)] and [min(a, b)] of two arguments: the builtin keeps the
    first argument unless the second is strictly larger (smaller). *)
Definition pymax (a b : float) : float := if flt a b then b else a.
Definition pymin (a b : float) : float := if flt b a then b else a.

(** Nearest integer to [num / den] ([den > 0]), ties to even. *)
Definition half_even (num den : Z) : Z :=
  let q := num / den in
  let r := num mod den in
  match 2 * r ?= den with
  | Lt => q
  | Gt => q + 1
  | Eq => if Z.even q then q else q + 1
  end.

(** [round(x, ndigits)] for [ndigits >= 0] (CPython's [double_round]): the
    exact binary value of [x] is rounded, ties to even, to [ndigits]
    decimals, and the decimal obtained is converted back to the nearest
    binary64 value; zeros, infinities and NaN round to themselves. *)
Definition py_round (x : float) (ndigits : nat) : float :=
  match x with
  | S754_finite s m e =>
      let scale := 10 ^ Z.of_nat ndigits in
      let n := match e with
               | Zneg p => half_even (Zpos m * scale) (2 ^ Zpos p)
               | _ => Zpos m * scale * 2 ^ e
               end in
      match n with
      | Zpos k => fdiv (S754_finite s k 0) (int_exact scale)
      | _ => S754_zero s
      end
  | _ => x
  end.

(** Equality of representations. *)
Definition float_eqb (a b : float) : bool :=
  match a, b with
  | S754_zero s, S754_zero s' => Bool.eqb s s'
  | S754_infinity s, S754_infinity s' => Bool.eqb s s'
  | S754_nan, S754_nan => true
  | S754_finite s m e, S754_finite s' m' e' =>
      Bool.eqb s s' && Pos.eqb m m' && Z.eqb e e'
  | _, _ => false
  end.

(** The rational a finite float stands for. *)
Definition F2Q (x : float) : Q :=
  match x with
  | S754_finite s m e =>
      let mz := if s then Zneg m else Zpos m in
      match e with
      | Zneg p => Qmake mz (2 ^ p)%positive
      | _ => Qmake (mz * 2 ^ e) 1
      end
  | _ => Qmake 0 1
  end.

(** The binary64 value nearest to a rational. *)
Definition Q2F (q : Q) : float := fdiv (int_exact (Qnum q)) (int_exact (Zpos (Qden q))).

End PyFloat.
Import PyFloat.

(** ** Evidence payloads *)

(** Payload parts the analysis stores and never reads. *)
#[local] Set Warnings "-register-all".
Inductive json : Type :=
| JNull
| JBool (b : bool)
| JInt (n : Z)
| JStr (s : string)
| JList (l : list json)
| JDict (kv : list (string * json)).

(** [d.get(key, default)] on an optional field. *)
Definition get {A : Type} (field : option A) (default : A) : A :=
  match field with
  | Some v => v
  | None => default
  end.

(** Truth value of [d.get(key)] for a boolean entry. *)
Definition truthy (field : option bool) : bool := get field false.

(** Truth value of a string: non-empty. *)
Definition nonempty (s : string) : bool :=
  match s with
  | EmptyString => false
  | _ => true
  end.

(** An entry of [accounts_found]. *)
Record account : Type := { account_age_days : option Z }.

(** What [SocialMediaScanner.scan] returns. *)
Module Social.
Record t : Type := {
  anomaly_detected : option bool;
  accounts_found : option (list account);
  severity : option string;
  anomaly_description : option string
}.
(** The empty dict [{}]. *)
Definition empty : t := Build_t None None None None.
End Social.

(** What [SpamDatabaseChecker.check] returns. *)
Module Spam.
Record t : Type := {
  total_reports : option Z;
  details : option (list json);
  sources : option (list string);
  categories : option (list string)
}.
End Spam.

(** What [FraudForumScanner.scan] returns. *)
Module Fraud.
Record t : Type := {
  mentions_count : option Z;
  mentions : option (list json);
  risk_level : option string;
  sources_checked : option (list string)
}.
End Fraud.

(** What [TelegramScanner.scan] returns; [other] holds the keys the
    analysis does not read. *)
Module Telegram.
Record t : Type := {
  suspicious_groups : option (list string);
  other : list (string * json)
}.
End Telegram.

(** What [IPQualityScoreChecker.check_fraud] returns. *)
Module Ipqs.
Record t : Type := {
  error : option string;
  fraud_score : option Z;
  recent_abuse : option bool;
  VOIP : option bool;
  prepaid : option bool;
  risky : option bool;
  active : option bool;
  carrier : option string;
  line_type : option string;
  country : option string;
  city : option string;
  region : option string;
  spam_score : option Z;
  do_not_call : option bool
}.
End Ipqs.

(** What [NumverifyValidator.validate] returns. *)
Module Numverify.
Record t : Type := {
  error : option string;
  valid : option bool;
  number : option string;
  local_format : option string;
  country_code : option string;
  country_name : option string;
  location : option string;
  carrier : option string;
  line_type : option string
}.
End Numverify.

(** The [rich_metadata] dict built by [_get_rich_metadata]. *)
Module RichMetadata.
Record CarrierDetails : Type := {
  current_carrier : string;
  original_carrier : string;
  porting_detected : bool;
  line_type : string;
  is_voip : bool;
  is_prepaid : option bool;
  (* entries are [(carrier, status)] *)
  porting_history : option (list (string * string))
}.
Record GeographicData : Type := {
  country : string;
  country_name : string;
  city : option string;
  region : string;
  location_formatted : string;
  timezone : string;
  all_timezones : list string
}.
Record NumberStatus : Type := {
  active : bool;
  valid : bool;
  risky : bool;
  do_not_call : bool
}.
Record ReputationIndicators : Type := {
  fraud_score : Z;
  spam_score : Z;
  recent_abuse : bool;
  leak_detected : bool
}.
Record t : Type := {
  carrier_details : CarrierDetails;
  geographic_data : GeographicData;
  number_status : NumberStatus;
  reputation_indicators : ReputationIndicators;
  estimated_age : string
}.
End RichMetadata.

(** A risk factor dict. *)
Module Factor.
Inductive evidence_t : Type :=
| EvVoip (is_voip : bool)
| EvPorting (porting_history : list (string * string))
| EvDoNotCall (do_not_call : bool)
| EvSocial (social_results : Social.t)
| EvSpam (spam_results : Spam.t)
| EvFraud (fraud_results : Fraud.t)
| EvTelegram (telegram_results : Telegram.t).
Record t : Type := {
  category : option string;
  factor_type : option string;
  severity : option string;
  weight : option float;
  description : option string;
  evidence : option evidence_t;
  source : option string;
  score_contribution : option float
}.
Definition set_score_contribution (v : float) (f : t) : t :=
  Build_t (category f) (factor_type f) (severity f) (weight f)
          (description f) (evidence f) (source f) (Some v).
End Factor.

(** ** The working result

    The dict [self.results] that [PhoneAnalyzer] fills step by step and
    [RiskScorer] reads; a key not yet written is [None]. *)

Module Results.
Record t : Type := {
  phone_number : string;
  data_sources_used : list string;
  risk_factors : list Factor.t;
  country_code : option string;
  carrier : option string;
  line_type : option Z;
  location : option string;
  timezones : option (list string);
  basic_info_error : option string;
  rich_metadata : option RichMetadata.t;
  rich_metadata_error : option string;
  social_media_presence : option Social.t;
  social_media_error : option string;
  spam_reports_count : option Z;
  spam_details : option (list json);
  spam_check_error : option string;
  fraud_mentions_count : option Z;
  fraud_details : option (list json);
  fraud_scan_error : option string;
  telegram_presence : option Telegram.t;
  whatsapp_presence : option json;
  messaging_apps_error : option string;
  risk_score : option float;
  risk_level : option string
}.

(** [PhoneAnalyzer.__init__]. *)
Definition init (phone : string) : t :=
  Build_t phone [] [] None None None None None None None None None None None
          None None None None None None None None None None.

(** [results[key] = v], one function per key. *)
Definition set_phone_number (v : string) (r : t) : t :=
  Build_t v (data_sources_used r) (risk_factors r) (country_code r)
          (carrier r) (line_type r) (location r) (timezones r)
          (basic_info_error r) (rich_metadata r) (rich_metadata_error r)
          (social_media_presence r) (social_media_error r)
          (spam_reports_count r) (spam_details r) (spam_check_error r)
          (fraud_mentions_count r) (fraud_details r) (fraud_scan_error r)
          (telegram_presence r) (whatsapp_presence r)
          (messaging_apps_error r) (risk_score r) (risk_level r).
Definition set_data_sources_used (v : list string) (r : t) : t :=
  Build_t (phone_number r) v (risk_factors r) (country_code r) (carrier r)
          (line_type r) (location r) (timezones r) (basic_info_error r)
          (rich_metadata r) (rich_metadata_error r)
          (social_media_presence r) (social_media_error r)
          (spam_reports_count r) (spam_details r) (spam_check_error r)
          (fraud_mentions_count r) (fraud_details r) (fraud_scan_error r)
          (telegram_presence r) (whatsapp_presence r)
          (messaging_apps_error r) (risk_score r) (risk_level r).
Definition set_risk_factors (v : list Factor.t) (r : t) : t :=
  Build_t (phone_number r) (data_sources_used r) v (country_code r)
          (carrier r) (line_type r) (location r) (timezones r)
          (basic_info_error r) (rich_metadata r) (rich_metadata_error r)
          (social_media_presence r) (social_media_error r)
          (spam_reports_count r) (spam_details r) (spam_check_error r)
          (fraud_mentions_count r) (fraud_details r) (fraud_scan_error r)
          (telegram_presence r) (whatsapp_presence r)
          (messaging_apps_error r) (risk_score r) (risk_level r).
Definition set_country_code (v : string) (r : t) : t :=
  Build_t (phone_number r) (data_sources_used r) (risk_factors r) (Some v)
          (carrier r) (line_type r) (location r) (timezones r)
          (basic_info_error r) (rich_metadata r) (rich_metadata_error r)
          (social_media_presence r) (social_media_error r)
          (spam_reports_count r) (spam_details r) (spam_check_error r)
          (fraud_mentions_count r) (fraud_details r) (fraud_scan_error r)
          (telegram_presence r) (whatsapp_presence r)
          (messaging_apps_error r) (risk_score r) (risk_level r).
Definition set_carrier (v : string) (r : t) : t :=
  Build_t (phone_number r) (data_sources_used r) (risk_factors r)
          (country_code r) (Some v) (line_type r) (location r) (timezones r)
          (basic_info_error r) (rich_metadata r) (rich_metadata_error r)
          (social_media_presence r) (social_media_error r)
          (spam_reports_count r) (spam_details r) (spam_check_error r)
          (fraud_mentions_count r) (fraud_details r) (fraud_scan_error r)
          (telegram_presence r) (whatsapp_presence r)
          (messaging_apps_error r) (risk_score r) (risk_level r).
Definition set_line_type (v : Z) (r : t) : t :=
  Build_t (phone_number r) (data_sources_used r) (risk_factors r)
          (country_code r) (carrier r) (Some v) (location r) (timezones r)
          (basic_info_error r) (rich_metadata r) (rich_metadata_error r)
          (social_media_presence r) (social_media_error r)
          (spam_reports_count r) (spam_details r) (spam_check_error r)
          (fraud_mentions_count r) (fraud_details r) (fraud_scan_error r)
          (telegram_presence r) (whatsapp_presence r)
          (messaging_apps_error r) (risk_score r) (risk_level r).
Definition set_location (v : string) (r : t) : t :=
  Build_t (phone_number r) (data_sources_used r) (risk_factors r)
          (country_code r) (carrier r) (line_type r) (Some v) (timezones r)
          (basic_info_error r) (rich_metadata r) (rich_metadata_error r)
          (social_media_presence r) (social_media_error r)
          (spam_reports_count r) (spam_details r) (spam_check_error r)
          (fraud_mentions_count r) (fraud_details r) (fraud_scan_error r)
          (telegram_presence r) (whatsapp_presence r)
          (messaging_apps_error r) (risk_score r) (risk_level r).
Definition set_timezones (v : list string) (r : t) : t :=
  Build_t (phone_number r) (data_sources_used r) (risk_factors r)
          (country_code r) (carrier r) (line_type r) (location r) (Some v)
          (basic_info_error r) (rich_metadata r) (rich_metadata_error r)
          (social_media_presence r) (social_media_error r)
          (spam_reports_count r) (spam_details r) (spam_check_error r)
          (fraud_mentions_count r) (fraud_details r) (fraud_scan_error r)
          (telegram_presence r) (whatsapp_presence r)
          (messaging_apps_error r) (risk_score r) (risk_level r).
Definition set_basic_info_error (v : string) (r : t) : t :=
  Build_t (phone_number r) (data_sources_used r) (risk_factors r)
          (country_code r) (carrier r) (line_type r) (location r)
          (timezones r) (Some v) (rich_metadata r) (rich_metadata_error r)
          (social_media_presence r) (social_media_error r)
          (spam_reports_count r) (spam_details r) (spam_check_error r)
          (fraud_mentions_count r) (fraud_details r) (fraud_scan_error r)
          (telegram_presence r) (whatsapp_presence r)
          (messaging_apps_error r) (risk_score r) (risk_level r).
Definition set_rich_metadata (v : RichMetadata.t) (r : t) : t :=
  Build_t (phone_number r) (data_sources_used r) (risk_factors r)
          (country_code r) (carrier r) (line_type r) (location r)
          (timezones r) (basic_info_error r) (Some v)
          (rich_metadata_error r) (social_media_presence r)
          (social_media_error r) (spam_reports_count r) (spam_details r)
          (spam_check_error r) (fraud_mentions_count r) (fraud_details r)
          (fraud_scan_error r) (telegram_presence r) (whatsapp_presence r)
          (messaging_apps_error r) (risk_score r) (risk_level r).
Definition set_rich_metadata_error (v : string) (r : t) : t :=
  Build_t (phone_number r) (data_sources_used r) (risk_factors r)
          (country_code r) (carrier r) (line_type r) (location r)
          (timezones r) (basic_info_error r) (rich_metadata r) (Some v)
          (social_media_presence r) (social_media_error r)
          (spam_reports_count r) (spam_details r) (spam_check_error r)
          (fraud_mentions_count r) (fraud_details r) (fraud_scan_error r)
          (telegram_presence r) (whatsapp_presence r)
          (messaging_apps_error r) (risk_score r) (risk_level r).
Definition set_social_media_presence (v : Social.t) (r : t) : t :=
  Build_t (phone_number r) (data_sources_used r) (risk_factors r)
          (country_code r) (carrier r) (line_type r) (location r)
          (timezones r) (basic_info_error r) (rich_metadata r)
          (rich_metadata_error r) (Some v) (social_media_error r)
          (spam_reports_count r) (spam_details r) (spam_check_error r)
          (fraud_mentions_count r) (fraud_details r) (fraud_scan_error r)
          (telegram_presence r) (whatsapp_presence r)
          (messaging_apps_error r) (risk_score r) (risk_level r).
Definition set_social_media_error (v : string) (r : t) : t :=
  Build_t (phone_number r) (data_sources_used r) (risk_factors r)
          (country_code r) (carrier r) (line_type r) (location r)
          (timezones r) (basic_info_error r) (rich_metadata r)
          (rich_metadata_error r) (social_media_presence r) (Some v)
          (spam_reports_count r) (spam_details r) (spam_check_error r)
          (fraud_mentions_count r) (fraud_details r) (fraud_scan_error r)
          (telegram_presence r) (whatsapp_presence r)
          (messaging_apps_error r) (risk_score r) (risk_level r).
Definition set_spam_reports_count (v : Z) (r : t) : t :=
  Build_t (phone_number r) (data_sources_used r) (risk_factors r)
          (country_code r) (carrier r) (line_type r) (location r)
          (timezones r) (basic_info_error r) (rich_metadata r)
          (rich_metadata_error r) (social_media_presence r)
          (social_media_error r) (Some v) (spam_details r)
          (spam_check_error r) (fraud_mentions_count r) (fraud_details r)
          (fraud_scan_error r) (telegram_presence r) (whatsapp_presence r)
          (messaging_apps_error r) (risk_score r) (risk_level r).
Definition set_spam_details (v : list json) (r : t) : t :=
  Build_t (phone_number r) (data_sources_used r) (risk_factors r)
          (country_code r) (carrier r) (line_type r) (location r)
          (timezones r) (basic_info_error r) (rich_metadata r)
          (rich_metadata_error r) (social_media_presence r)
          (social_media_error r) (spam_reports_count r) (Some v)
          (spam_check_error r) (fraud_mentions_count r) (fraud_details r)
          (fraud_scan_error r) (telegram_presence r) (whatsapp_presence r)
          (messaging_apps_error r) (risk_score r) (risk_level r).
Definition set_spam_check_error (v : string) (r : t) : t :=
  Build_t (phone_number r) (data_sources_used r) (risk_factors r)
          (country_code r) (carrier r) (line_type r) (location r)
          (timezones r) (basic_info_error r) (rich_metadata r)
          (rich_metadata_error r) (social_media_presence r)
          (social_media_error r) (spam_reports_count r) (spam_details r)
          (Some v) (fraud_mentions_count r) (fraud_details r)
          (fraud_scan_error r) (telegram_presence r) (whatsapp_presence r)
          (messaging_apps_error r) (risk_score r) (risk_level r).
Definition set_fraud_mentions_count (v : Z) (r : t) : t :=
  Build_t (phone_number r) (data_sources_used r) (risk_factors r)
          (country_code r) (carrier r) (line_type r) (location r)
          (timezones r) (basic_info_error r) (rich_metadata r)
          (rich_metadata_error r) (social_media_presence r)
          (social_media_error r) (spam_reports_count r) (spam_details r)
          (spam_check_error r) (Some v) (fraud_details r)
          (fraud_scan_error r) (telegram_presence r) (whatsapp_presence r)
          (messaging_apps_error r) (risk_score r) (risk_level r).
Definition set_fraud_details (v : list json) (r : t) : t :=
  Build_t (phone_number r) (data_sources_used r) (risk_factors r)
          (country_code r) (carrier r) (line_type r) (location r)
          (timezones r) (basic_info_error r) (rich_metadata r)
          (rich_metadata_error r) (social_media_presence r)
          (social_media_error r) (spam_reports_count r) (spam_details r)
          (spam_check_error r) (fraud_mentions_count r) (Some v)
          (fraud_scan_error r) (telegram_presence r) (whatsapp_presence r)
          (messaging_apps_error r) (risk_score r) (risk_level r).
Definition set_fraud_scan_error (v : string) (r : t) : t :=
  Build_t (phone_number r) (data_sources_used r) (risk_factors r)
          (country_code r) (carrier r) (line_type r) (location r)
          (timezones r) (basic_info_error r) (rich_metadata r)
          (rich_metadata_error r) (social_media_presence r)
          (social_media_error r) (spam_reports_count r) (spam_details r)
          (spam_check_error r) (fraud_mentions_count r) (fraud_details r)
          (Some v) (telegram_presence r) (whatsapp_presence r)
          (messaging_apps_error r) (risk_score r) (risk_level r).
Definition set_telegram_presence (v : Telegram.t) (r : t) : t :=
  Build_t (phone_number r) (data_sources_used r) (risk_factors r)
          (country_code r) (carrier r) (line_type r) (location r)
          (timezones r) (basic_info_error r) (rich_metadata r)
          (rich_metadata_error r) (social_media_presence r)
          (social_media_error r) (spam_reports_count r) (spam_details r)
          (spam_check_error r) (fraud_mentions_count r) (fraud_details r)
          (fraud_scan_error r) (Some v) (whatsapp_presence r)
          (messaging_apps_error r) (risk_score r) (risk_level r).
Definition set_whatsapp_presence (v : json) (r : t) : t :=
  Build_t (phone_number r) (data_sources_used r) (risk_factors r)
          (country_code r) (carrier r) (line_type r) (location r)
          (timezones r) (basic_info_error r) (rich_metadata r)
          (rich_metadata_error r) (social_media_presence r)
          (social_media_error r) (spam_reports_count r) (spam_details r)
          (spam_check_error r) (fraud_mentions_count r) (fraud_details r)
          (fraud_scan_error r) (telegram_presence r) (Some v)
          (messaging_apps_error r) (risk_score r) (risk_level r).
Definition set_messaging_apps_error (v : string) (r : t) : t :=
  Build_t (phone_number r) (data_sources_used r) (risk_factors r)
          (country_code r) (carrier r) (line_type r) (location r)
          (timezones r) (basic_info_error r) (rich_metadata r)
          (rich_metadata_error r) (social_media_presence r)
          (social_media_error r) (spam_reports_count r) (spam_details r)
          (spam_check_error r) (fraud_mentions_count r) (fraud_details r)
          (fraud_scan_error r) (telegram_presence r) (whatsapp_presence r)
          (Some v) (risk_score r) (risk_level r).
Definition set_risk_score (v : float) (r : t) : t :=
  Build_t (phone_number r) (data_sources_used r) (risk_factors r)
          (country_code r) (carrier r) (line_type r) (location r)
          (timezones r) (basic_info_error r) (rich_metadata r)
          (rich_metadata_error r) (social_media_presence r)
          (social_media_error r) (spam_reports_count r) (spam_details r)
          (spam_check_error r) (fraud_mentions_count r) (fraud_details r)
          (fraud_scan_error r) (telegram_presence r) (whatsapp_presence r)
          (messaging_apps_error r) (Some v) (risk_level r).
Definition set_risk_level (v : string) (r : t) : t :=
  Build_t (phone_number r) (data_sources_used r) (risk_factors r)
          (country_code r) (carrier r) (line_type r) (location r)
          (timezones r) (basic_info_error r) (rich_metadata r)
          (rich_metadata_error r) (social_media_presence r)
          (social_media_error r) (spam_reports_count r) (spam_details r)
          (spam_check_error r) (fraud_mentions_count r) (fraud_details r)
          (fraud_scan_error r) (telegram_presence r) (whatsapp_presence r)
          (messaging_apps_error r) (risk_score r) (Some v).
End Results.

(** ** risk_scorer.py *)

Module RiskScorer.

(** The risk-level vocabulary of the data model ([PhoneAnalysis.risk_level]
    and the reports); the scorer returns the names as strings. *)
Inductive risk_level : Type := MINIMAL | LOW | MEDIUM | HIGH | CRITICAL.

Definition level_name (l : risk_level) : string :=
  match l with
  | MINIMAL => "MINIMAL"
  | LOW => "LOW"
  | MEDIUM => "MEDIUM"
  | HIGH => "HIGH"
  | CRITICAL => "CRITICAL"
  end.

(** [self.weights]. *)
Definition weight_social_media_anomalies : float := decimal 30 100.
Definition weight_spam_reports : float := decimal 25 100.
Definition weight_fraud_forum_mentions : float := decimal 25 100.
Definition weight_account_age : float := decimal 10 100.
Definition weight_geographic_anomalies : float := decimal 10 100.

(** [self.results.get('social_media_presence', {})]. *)
Definition social_data (self : Results.t) : Social.t :=
  get (Results.social_media_presence self) Social.empty.

(** [acc.get('account_age_days', 999)] of line 69, and the filter of the
    list comprehension around it. *)
Definition age_for_recent (acc : account) : Z := get (account_age_days acc) 999.

Definition is_recent (acc : account) : bool := age_for_recent acc <? 30.

Definition _calculate_social_media_score (self : Results.t) : float :=
  let social_data := social_data self in
  let score := of_int 0 in
  let score :=
    if truthy (Social.anomaly_detected social_data) then
      let accounts_found := List.length (get (Social.accounts_found social_data) []) in
      let recent_accounts :=
        filter is_recent (get (Social.accounts_found social_data) []) in
      let score :=
        if (3 <=? List.length recent_accounts)%nat then fadd score (of_int 80)
        else if (2 <=? List.length recent_accounts)%nat then fadd score (of_int 60)
        else if (List.length recent_accounts =? 1)%nat then fadd score (of_int 30)
        else score in
      let score :=
        if (accounts_found =? 0)%nat then fadd score (of_int 20) else score in
      let score :=
        if (5 <? accounts_found)%nat then fadd score (of_int 40) else score in
      score
    else score in
  pymin (of_int 100) score.

Definition _calculate_spam_score (self : Results.t) : float :=
  let spam_count := get (Results.spam_reports_count self) 0 in
  if spam_count =? 0 then of_int 0
  else if spam_count <=? 3 then of_int 30
  else if spam_count <=? 10 then of_int 60
  else if spam_count <=? 20 then of_int 85
  else of_int 100.

Definition _calculate_fraud_score (self : Results.t) : float :=
  let fraud_count := get (Results.fraud_mentions_count self) 0 in
  if fraud_count =? 0 then of_int 0
  else if fraud_count =? 1 then of_int 50
  else if fraud_count <=? 3 then of_int 80
  else of_int 100.

(** [acc.get('account_age_days', 0)] of line 126. *)
Definition age_for_average (acc : account) : Z := get (account_age_days acc) 0.

(** [sum(ages)]. *)
Definition sum_ints (ages : list Z) : Z := fold_left Z.add ages 0.

(** [sum(ages) / len(ages) if ages else 0]. *)
Definition average_age (ages : list Z) : option float :=
  match ages with
  | [] => Some (of_int 0)
  | _ :: _ => int_truediv (sum_ints ages) (Z.of_nat (List.length ages))
  end.

(** [None] is an exception raised by the division. *)
Definition _calculate_account_age_score (self : Results.t) : option float :=
  let accounts := get (Social.accounts_found (social_data self)) [] in
  match accounts with
  | [] => Some (of_int 30)
  | _ :: _ =>
      let ages := map age_for_average accounts in
      match average_age ages with
      | None => None
      | Some avg_age =>
          Some (if flt avg_age (of_int 7) then of_int 90
                else if flt avg_age (of_int 30) then of_int 70
                else if flt avg_age (of_int 90) then of_int 40
                else if flt avg_age (of_int 180) then of_int 20
                else of_int 0)
      end
  end.

Definition _calculate_geographic_score (self : Results.t) : float :=
  let location := get (Results.location self) "Unknown" in
  if String.eqb location "Unknown" then of_int 20 else of_int 0.

Definition _determine_risk_level (score : float) : risk_level :=
  if fge score (of_int 70) then HIGH
  else if fge score (of_int 40) then MEDIUM
  else if fge score (of_int 20) then LOW
  else MINIMAL.

(** The weighted sum of lines 41-47, added left to right. *)
Definition weighted_total (social_score spam_score fraud_score age_score geo_score : float)
  : float :=
  fadd (fadd (fadd (fadd (fmul social_score weight_social_media_anomalies)
                         (fmul spam_score weight_spam_reports))
                   (fmul fraud_score weight_fraud_forum_mentions))
             (fmul age_score weight_account_age))
       (fmul geo_score weight_geographic_anomalies).

(** Lines 49-55 of [calculate]: the total is clamped to [0, 100], the
    level is read off the clamped total, and the score returned is the
    clamped total rounded to 2 decimals. *)
Definition score_and_level (total_score : float) : float * risk_level :=
  let total_score := pymin (of_int 100) (pymax (of_int 0) total_score) in
  let risk_level := _determine_risk_level total_score in
  (py_round total_score 2, risk_level).

(** [calculate]: [(risk_score, risk_level)], or [None] when a sub-scorer
    raises. *)
Definition calculate (self : Results.t) : option (float * risk_level) :=
  let social_score := _calculate_social_media_score self in
  let spam_score := _calculate_spam_score self in
  let fraud_score := _calculate_fraud_score self in
  match _calculate_account_age_score self with
  | None => None
  | Some age_score =>
      let geo_score := _calculate_geographic_score self in
      let total_score :=
        weighted_total social_score spam_score fraud_score age_score geo_score in
      Some (score_and_level total_score)
  end.

(** The dict [severity_scores] of [get_factor_contribution]. *)
Definition severity_scores : list (string * Z) :=
  [("CRITICAL", 100); ("HIGH", 80); ("MEDIUM", 50); ("LOW", 25)].

(** [d.get(key)] on a dict given by its items. *)
Fixpoint dict_get {V : Type} (d : list (string * V)) (key : string) : option V :=
  match d with
  | [] => None
  | (k, v) :: rest => if String.eqb k key then Some v else dict_get rest key
  end.

(** [get_factor_contribution]; the factor's category is read and not
    used. *)
Definition get_factor_contribution (self : Results.t) (factor : Factor.t) : float :=
  let weight := get (Factor.weight factor) (of_int 1) in
  let severity := get (Factor.severity factor) "MEDIUM" in
  let base_score := get (dict_get severity_scores severity) 50 in
  let contribution := fmul (of_int base_score) weight in
  py_round contribution 2.

(** The ['factor_contributions'] entry of [get_detailed_breakdown]:
    [(factor, contribution)] for each risk factor of the result. *)
Definition factor_contributions (self : Results.t) : list (option string * float) :=
  map (fun rf => (Factor.factor_type rf, get_factor_contribution self rf))
      (Results.risk_factors self).

End RiskScorer.

(** ** The scoring rule in the words of the design, in exact arithmetic

    Composite score = sum of category score times category weight, clamped
    to [0, 100], rounded to 2 decimal places; the weights are the decimals
    0.30, 0.25, 0.25, 0.10, 0.10. *)

Module ScoringSpec.

Local Open Scope Q_scope.

Definition category_weights : list Q :=
  [30 # 100; 25 # 100; 25 # 100; 10 # 100; 10 # 100].

Fixpoint weighted_sum (scores weights : list Q) : Q :=
  match scores, weights with
  | s :: scores', w :: weights' => s * w + weighted_sum scores' weights'
  | _, _ => 0
  end.

Definition clamp (lo hi x : Q) : Q := Qmin hi (Qmax lo x).

(** Nearest multiple of 1/100. *)
Definition round2 (x : Q) : Q :=
  Qmake (half_even (Qnum x * 100) (Zpos (Qden x))) 100.

Definition composite (scores : list Q) : Q :=
  round2 (clamp 0 100 (weighted_sum scores category_weights)).

End ScoringSpec.

(** ** Calls that may raise *)

(** The exception classes the code tells apart; [message] is [str(e)]. *)
Inductive exc : Type :=
| NumberParseException (message : string)
| OtherException (message : string).

Definition str (e : exc) : string :=
  match e with
  | NumberParseException m => m
  | OtherException m => m
  end.

Inductive outcome (A : Type) : Type :=
| Returned (value : A)
| Raised (e : exc).
Arguments Returned {A} value.
Arguments Raised {A} e.

(** Decimal rendering of an int, as an f-string prints it. *)
Definition str_of_int (n : Z) : string := NilZero.string_of_int (Z.to_int n).

(** [s or default] on strings. *)
Definition or_else (s default : string) : string :=
  if nonempty s then s else default.

(** [d.get(key) or other] where the entry is a string. *)
Definition get_or (field : option string) (other : string) : string :=
  match field with
  | Some s => or_else s other
  | None => other
  end.

(** [s.lower()] on ASCII letters. *)
Definition lower_ascii (c : ascii) : ascii :=
  let n := nat_of_ascii c in
  if ((65 <=? n) && (n <=? 90))%nat then ascii_of_nat (n + 32) else c.

Fixpoint lower (s : string) : string :=
  match s with
  | EmptyString => EmptyString
  | String c rest => String (lower_ascii c) (lower rest)
  end.

(** [needle in haystack]. *)
Fixpoint contains (needle haystack : string) : bool :=
  if String.prefix needle haystack then true
  else match haystack with
       | EmptyString => false
       | String _ rest => contains needle rest
       end.

(** [x in names] for an optional string [x]. *)
Definition among (x : option string) (names : list string) : bool :=
  match x with
  | Some s => existsb (String.eqb s) names
  | None => false
  end.

(** ** The phonenumbers library *)

Record PhoneNumber : Type := { pn_country_code : Z; pn_national_number : Z }.

(** [parse] may raise; the lookups on a parsed number are table lookups
    and are taken to return. *)
Module phonenumbers.
Record library : Type := {
  parse : string -> outcome PhoneNumber;
  is_valid_number : PhoneNumber -> bool;
  number_type : PhoneNumber -> Z;
  (* carrier.name_for_number(parsed, "en") *)
  name_for_number : PhoneNumber -> string;
  (* geocoder.description_for_number(parsed, "en") *)
  description_for_number : PhoneNumber -> string;
  (* timezone.time_zones_for_number(parsed) *)
  time_zones_for_number : PhoneNumber -> list string
}.
End phonenumbers.

(** ** osint_modules_real.py: the two API clients of the rich-metadata step

    [_make_request] gives the decoded JSON body, or [None] after any
    request error; an empty body is as [None] to both clients, which test
    [data and ...] first. *)

Module NumverifyValidator.
(** The fields read from the API's JSON answer. *)
Record api_response : Type := {
  valid : option bool;
  international_format : option string;
  local_format : option string;
  country_code : option string;
  country_name : option string;
  location : option string;
  carrier : option string;
  line_type : option string;
  (* [error] holds the ['info'] entry of the error dict, when present *)
  error : option (option string)
}.

Definition validate (NUMVERIFY_API_KEY : string)
  (_make_request : string -> option api_response) (phone_number : string)
  : Numverify.t :=
  if negb (nonempty NUMVERIFY_API_KEY) then
    Numverify.Build_t (Some "NUMVERIFY_API_KEY not configured") (Some false)
                      None None None None None None None
  else
    match _make_request phone_number with
    | Some data =>
        if truthy (valid data) then
          Numverify.Build_t None (Some true)
            (Some (get (international_format data) ""))
            (Some (get (local_format data) ""))
            (Some (get (country_code data) ""))
            (Some (get (country_name data) ""))
            (Some (get (location data) ""))
            (Some (get (carrier data) "Unknown"))
            (Some (get (line_type data) "Unknown"))
        else
          Numverify.Build_t
            (Some (get (get (error data) None) "Invalid number")) (Some false)
            None None None None None None None
    | None =>
        Numverify.Build_t (Some "API error") (Some false)
                          None None None None None None None
    end.
End NumverifyValidator.

Module IPQualityScoreChecker.
Record api_response : Type := {
  success : option bool;
  message : option string;
  fraud_score : option Z;
  recent_abuse : option bool;
  VOIP : option bool;
  prepaid : option bool;
  risky : option bool;
  active : option bool;
  carrier : option string;
  line_type : option string;
  country : option string;
  city : option string;
  region : option string;
  spam_score : option Z;
  do_not_call : option bool
}.

Definition failed (reason : string) : Ipqs.t :=
  Ipqs.Build_t (Some reason) (Some 0) None None None None None None None None
               None None None None.

Definition check_fraud (IPQUALITYSCORE_API_KEY : string)
  (_make_request : string -> option api_response) (phone_number : string)
  : Ipqs.t :=
  if negb (nonempty IPQUALITYSCORE_API_KEY) then
    failed "IPQUALITYSCORE_API_KEY not configured"
  else
    match _make_request phone_number with
    | Some data =>
        if truthy (success data) then
          Ipqs.Build_t None
            (Some (get (fraud_score data) 0))
            (Some (get (recent_abuse data) false))
            (Some (get (VOIP data) false))
            (Some (get (prepaid data) false))
            (Some (get (risky data) false))
            (Some (get (active data) false))
            (Some (get (carrier data) "Unknown"))
            (Some (get (line_type data) "Unknown"))
            (Some (get (country data) ""))
            (Some (get (city data) ""))
            (Some (get (region data) ""))
            (Some (get (spam_score data) 0))
            (Some (get (do_not_call data) false))
        else failed (get (message data) "API error")
    | None => failed "Request failed"
    end.
End IPQualityScoreChecker.

(** ** phone_analyzer.py *)

Module PhoneAnalyzer.

(** The external lookups of one analysis run, in class order. *)
Inductive provider : Type :=
| PhonenumbersLibrary
| IPQualityScore
| Numverify
| SocialMediaScanner
| SpamDatabaseChecker
| FraudForumScanner
| TelegramScanner
| WhatsAppChecker.

(** What each lookup answers for a phone number at the time of the run:
    the classes imported from [app.services.osint_modules] and the
    phonenumbers library. *)
Record providers : Type := {
  library : phonenumbers.library;
  check_fraud : string -> outcome Ipqs.t;
  validate : string -> outcome Numverify.t;
  social_scan : string -> outcome Social.t;
  spam_check : string -> outcome Spam.t;
  fraud_scan : string -> outcome Fraud.t;
  telegram_scan : string -> outcome Telegram.t;
  whatsapp_check : string -> outcome json
}.

(** The analyzer object: [self.results], and the lookups made so far
    (latest last), which the code does not store and the model records. *)
Record t : Type := {
  phone_number : string;
  deep_scan : bool;
  results : Results.t;
  calls : list provider
}.

Definition new (phone_number : string) (deep_scan : bool) : t :=
  Build_t phone_number deep_scan (Results.init phone_number) [].

Definition with_results (f : Results.t -> Results.t) (self : t) : t :=
  Build_t (phone_number self) (deep_scan self) (f (results self)) (calls self).

Definition called (p : provider) (self : t) : t :=
  Build_t (phone_number self) (deep_scan self) (results self) (calls self ++ [p]).

(** [self.results['data_sources_used'].extend(names)]. *)
Definition extend_sources (names : list string) (r : Results.t) : Results.t :=
  Results.set_data_sources_used (Results.data_sources_used r ++ names) r.

(** [self.results['risk_factors'].append(factor)]. *)
Definition append_factor (factor : Factor.t) (r : Results.t) : Results.t :=
  Results.set_risk_factors (Results.risk_factors r ++ [factor]) r.

Definition _get_basic_info (env : providers) (self : t) : t :=
  let lib := library env in
  let self := called PhonenumbersLibrary self in
  match phonenumbers.parse lib (phone_number self) with
  | Returned parsed =>
      with_results (fun r =>
        let r := Results.set_country_code ("+" ++ str_of_int (pn_country_code parsed)) r in
        let r := Results.set_carrier
                   (or_else (phonenumbers.name_for_number lib parsed) "Unknown") r in
        let r := Results.set_line_type (phonenumbers.number_type lib parsed) r in
        let r := Results.set_location
                   (or_else (phonenumbers.description_for_number lib parsed) "Unknown") r in
        let r := Results.set_timezones (phonenumbers.time_zones_for_number lib parsed) r in
        extend_sources ["phonenumbers_library"] r) self
  | Raised e => with_results (Results.set_basic_info_error (str e)) self
  end.

(** Lines 84-93. *)
Definition prepaid_status (ipqs_data : Ipqs.t) : option bool :=
  let is_prepaid := Ipqs.prepaid ipqs_data in
  let line_type_value := lower (get (Ipqs.line_type ipqs_data) "") in
  let unknown_or_market :=
    match is_prepaid with
    | None => true
    | Some false => among (Ipqs.country ipqs_data) ["IN"; "PH"; "ID"; "BD"]
    | Some true => false
    end in
  if unknown_or_market then
    if contains "mobile" line_type_value || contains "wireless" line_type_value
    then None else is_prepaid
  else is_prepaid.

(** Lines 96-126: the dict compiled from the two answers. *)
Definition compile_rich_metadata (r : Results.t) (ipqs_data : Ipqs.t)
  (numverify_data : Numverify.t) : RichMetadata.t :=
  RichMetadata.Build_t
    (RichMetadata.Build_CarrierDetails
       (get_or (Ipqs.carrier ipqs_data) (get (Numverify.carrier numverify_data) "Unknown"))
       (get (Numverify.carrier numverify_data) "Unknown")
       false
       (get_or (Ipqs.line_type ipqs_data)
               (get (Numverify.line_type numverify_data) "Unknown"))
       (get (Ipqs.VOIP ipqs_data) false)
       (prepaid_status ipqs_data)
       None)
    (RichMetadata.Build_GeographicData
       (get (Ipqs.country ipqs_data) "")
       (get (Numverify.country_name numverify_data) "")
       (match Ipqs.city ipqs_data with
        | Some city =>
            if String.eqb city "N/A"
            then Some (get (Numverify.location numverify_data) "Unknown")
            else Some city
        | None => None
        end)
       (get (Ipqs.region ipqs_data) "Unknown")
       (get (Numverify.location numverify_data) "")
       (match get (Results.timezones r) [] with
        | tz :: _ => tz
        | [] => "Unknown"
        end)
       (get (Results.timezones r) []))
    (RichMetadata.Build_NumberStatus
       (get (Ipqs.active ipqs_data) true)
       (get (Numverify.valid numverify_data) false)
       (get (Ipqs.risky ipqs_data) false)
       (get (Ipqs.do_not_call ipqs_data) false))
    (RichMetadata.Build_ReputationIndicators
       (get (Ipqs.fraud_score ipqs_data) 0)
       (get (Ipqs.spam_score ipqs_data) 0)
       (get (Ipqs.recent_abuse ipqs_data) false)
       false)
    "".

(** Lines 128-136: porting is flagged when both carriers are known and
    differ. *)
Definition detect_porting (m : RichMetadata.t) : RichMetadata.t :=
  let cd := RichMetadata.carrier_details m in
  let current := RichMetadata.current_carrier cd in
  let original := RichMetadata.original_carrier cd in
  if negb (String.eqb current "Unknown") && negb (String.eqb original "Unknown")
     && negb (String.eqb current original)
  then
    RichMetadata.Build_t
      (RichMetadata.Build_CarrierDetails current original true
         (RichMetadata.line_type cd) (RichMetadata.is_voip cd)
         (RichMetadata.is_prepaid cd)
         (Some [(original, "Original"); (current, "Current")]))
      (RichMetadata.geographic_data m) (RichMetadata.number_status m)
      (RichMetadata.reputation_indicators m) (RichMetadata.estimated_age m)
  else m.

(** Lines 138-147. *)
Definition estimate_age (ipqs_data : Ipqs.t) (m : RichMetadata.t) : RichMetadata.t :=
  RichMetadata.Build_t
    (RichMetadata.carrier_details m) (RichMetadata.geographic_data m)
    (RichMetadata.number_status m) (RichMetadata.reputation_indicators m)
    (if truthy (Ipqs.active ipqs_data) then
       if truthy (Ipqs.VOIP ipqs_data)
       then "Recent (VOIP numbers are typically newer)"
       else if truthy (Ipqs.prepaid ipqs_data)
       then "Variable (Prepaid numbers can be recycled)"
       else "Established (Active traditional line)"
     else "Unknown or Inactive").

Definition voip_factor : Factor.t :=
  Factor.Build_t (Some "carrier") (Some "voip_number") (Some "MEDIUM")
    (Some (decimal 15 100))
    (Some "VOIP numbers are commonly used in fraud schemes")
    (Some (Factor.EvVoip true)) (Some "Carrier Analysis") None.

Definition porting_factor (m : RichMetadata.t) : Factor.t :=
  Factor.Build_t (Some "carrier") (Some "porting_detected") (Some "LOW")
    (Some (decimal 10 100))
    (Some "Number has been ported between carriers")
    (Some (Factor.EvPorting
             (get (RichMetadata.porting_history (RichMetadata.carrier_details m)) [])))
    (Some "Carrier Analysis") None.

Definition do_not_call_factor : Factor.t :=
  Factor.Build_t (Some "compliance") (Some "do_not_call_registry") (Some "LOW")
    (Some (decimal 5 100))
    (Some "Number is on Do Not Call registry")
    (Some (Factor.EvDoNotCall true)) (Some "Compliance Check") None.

(** Lines 149-184: store the metadata, list the two sources, add factors. *)
Definition record_rich_metadata (m : RichMetadata.t) (r : Results.t) : Results.t :=
  let r := Results.set_rich_metadata m r in
  let r := extend_sources ["IPQualityScore"; "Numverify"] r in
  let r := if RichMetadata.is_voip (RichMetadata.carrier_details m)
           then append_factor voip_factor r else r in
  let r := if RichMetadata.porting_detected (RichMetadata.carrier_details m)
           then append_factor (porting_factor m) r else r in
  let r := if RichMetadata.do_not_call (RichMetadata.number_status m)
           then append_factor do_not_call_factor r else r in
  r.

Definition _get_rich_metadata (env : providers) (self : t) : t :=
  let self := called IPQualityScore self in
  match check_fraud env (phone_number self) with
  | Raised e => with_results (Results.set_rich_metadata_error (str e)) self
  | Returned ipqs_data =>
      let self := called Numverify self in
      match validate env (phone_number self) with
      | Raised e => with_results (Results.set_rich_metadata_error (str e)) self
      | Returned numverify_data =>
          with_results (fun r =>
            let rich_metadata := compile_rich_metadata r ipqs_data numverify_data in
            let rich_metadata := detect_porting rich_metadata in
            let rich_metadata := estimate_age ipqs_data rich_metadata in
            record_rich_metadata rich_metadata r) self
      end
  end.

Definition _check_social_media (env : providers) (self : t) : t :=
  let self := called SocialMediaScanner self in
  match social_scan env (phone_number self) with
  | Raised e => with_results (Results.set_social_media_error (str e)) self
  | Returned social_results =>
      with_results (fun r =>
        let r := Results.set_social_media_presence social_results r in
        let r := extend_sources ["social_media_scan"] r in
        if truthy (Social.anomaly_detected social_results) then
          append_factor
            (Factor.Build_t (Some "social_media") (Some "suspicious_activity")
               (Some (get (Social.severity social_results) "MEDIUM"))
               (Some (decimal 30 100))
               (Social.anomaly_description social_results)
               (Some (Factor.EvSocial social_results))
               (Some "Social Media Scan") None) r
        else r) self
  end.

Definition _check_spam_databases (env : providers) (self : t) : t :=
  let self := called SpamDatabaseChecker self in
  match spam_check env (phone_number self) with
  | Raised e => with_results (Results.set_spam_check_error (str e)) self
  | Returned spam_results =>
      with_results (fun r =>
        let total_reports := get (Spam.total_reports spam_results) 0 in
        let r := Results.set_spam_reports_count total_reports r in
        let r := Results.set_spam_details (get (Spam.details spam_results) []) r in
        let r := extend_sources (get (Spam.sources spam_results) []) r in
        if 0 <? total_reports then
          let severity := if 10 <? total_reports then "HIGH" else "MEDIUM" in
          append_factor
            (Factor.Build_t (Some "spam_reports") (Some "reported_spam")
               (Some severity) (Some (decimal 25 100))
               (Some ("Number reported " ++ str_of_int total_reports
                      ++ " times in spam databases"))
               (Some (Factor.EvSpam spam_results))
               (Some "Spam Databases") None) r
        else r) self
  end.

Definition _check_fraud_forums (env : providers) (self : t) : t :=
  let self := called FraudForumScanner self in
  match fraud_scan env (phone_number self) with
  | Raised e => with_results (Results.set_fraud_scan_error (str e)) self
  | Returned fraud_results =>
      with_results (fun r =>
        let mentions_count := get (Fraud.mentions_count fraud_results) 0 in
        let r := Results.set_fraud_mentions_count mentions_count r in
        let r := Results.set_fraud_details (get (Fraud.mentions fraud_results) []) r in
        let r := extend_sources ["fraud_forum_scan"] r in
        if 0 <? mentions_count then
          append_factor
            (Factor.Build_t (Some "fraud_forum") (Some "fraud_mention")
               (Some "HIGH") (Some (decimal 25 100))
               (Some ("Number mentioned in " ++ str_of_int mentions_count
                      ++ " fraud-related discussions"))
               (Some (Factor.EvFraud fraud_results))
               (Some "Fraud Forums") None) r
        else r) self
  end.

Definition _check_messaging_apps (env : providers) (self : t) : t :=
  let self := called TelegramScanner self in
  match telegram_scan env (phone_number self) with
  | Raised e => with_results (Results.set_messaging_apps_error (str e)) self
  | Returned telegram_results =>
      let self := with_results (Results.set_telegram_presence telegram_results) self in
      let self := called WhatsAppChecker self in
      match whatsapp_check env (phone_number self) with
      | Raised e => with_results (Results.set_messaging_apps_error (str e)) self
      | Returned whatsapp_results =>
          with_results (fun r =>
            let r := Results.set_whatsapp_presence whatsapp_results r in
            let r := extend_sources ["telegram_scan"; "whatsapp_check"] r in
            match get (Telegram.suspicious_groups telegram_results) [] with
            | [] => r
            | (_ :: _) as groups =>
                append_factor
                  (Factor.Build_t (Some "messaging_apps")
                     (Some "suspicious_telegram_activity")
                     (Some "MEDIUM") (Some (decimal 10 100))
                     (Some ("Found in " ++ str_of_int (Z.of_nat (List.length groups))
                            ++ " suspicious Telegram groups"))
                     (Some (Factor.EvTelegram telegram_results))
                     (Some "Telegram") None) r
            end) self
      end
  end.

(** Lines 299-304 of [_calculate_risk]: the score and the level are
    stored, then every factor receives its contribution. *)
Definition store_risk (risk_score : float) (risk_level : RiskScorer.risk_level)
  (r : Results.t) : Results.t :=
  let r := Results.set_risk_score risk_score r in
  let r := Results.set_risk_level (RiskScorer.level_name risk_level) r in
  Results.set_risk_factors
    (map (fun factor =>
            Factor.set_score_contribution
              (RiskScorer.get_factor_contribution r factor) factor)
         (Results.risk_factors r)) r.

(** [_calculate_risk]; an exception of the scorer is not caught here. *)
Definition _calculate_risk (r : Results.t) : outcome Results.t :=
  match RiskScorer.calculate r with
  | None => Raised (OtherException "division by zero")
  | Some (risk_score, risk_level) => Returned (store_risk risk_score risk_level r)
  end.

(** Steps 1 to 6 of [analyze]. *)
Definition gather (env : providers) (self : t) : t :=
  let self := _get_basic_info env self in
  let self := _get_rich_metadata env self in
  let self := _check_social_media env self in
  let self := _check_spam_databases env self in
  let self := _check_fraud_forums env self in
  let self := _check_messaging_apps env self in
  self.

(** [analyze]: the results, or the exception raised, and the lookups made. *)
Definition analyze (env : providers) (self : t) : outcome Results.t * list provider :=
  let self := gather env self in
  match _calculate_risk (results self) with
  | Returned r => (Returned r, calls self)
  | Raised e => (Raised (OtherException ("Analysis failed: " ++ str e)), calls self)
  end.

End PhoneAnalyzer.

(** ** models: the stored analysis and its risk factors

    Datetimes are microseconds since the epoch.  A column written with
    [None] takes its declared default, as the ORM inserts it. *)

Module RiskFactor.
Record t : Type := {
  id : Z;
  analysis_id : Z;
  category : option string;
  factor_type : option string;
  severity : option string;
  weight : float;
  score_contribution : float;
  description : option string;
  evidence : option Factor.evidence_t;
  source : option string;
  detected_at : Z;
  created_at : Z
}.
End RiskFactor.

Module PhoneAnalysis.
Record t : Type := {
  id : Z;
  phone_number : string;
  country_code : option string;
  carrier : option string;
  line_type : option Z;
  risk_score : float;
  risk_level : option string;
  social_media_presence : option Social.t;
  spam_reports_count : Z;
  fraud_mentions_count : Z;
  telegram_presence : option Telegram.t;
  whatsapp_presence : option json;
  rich_metadata : option RichMetadata.t;
  analysis_date : Z;
  analysis_duration : float;
  data_sources_used : option (list string);
  risk_factors : list RiskFactor.t;
  created_at : Z;
  updated_at : Z
}.

(** [to_dict]; [isoformat] renders a datetime, [x or {}] is kept as the
    option it tests. *)
Record dict : Type := {
  d_id : Z;
  d_phone_number : string;
  d_country_code : option string;
  d_carrier : option string;
  d_line_type : option Z;
  d_risk_score : float;
  d_risk_level : option string;
  d_social_media_presence : Social.t;
  d_spam_reports_count : Z;
  d_fraud_mentions_count : Z;
  d_telegram_presence : option Telegram.t;
  d_whatsapp_presence : option json;
  d_rich_metadata : option RichMetadata.t;
  d_analysis_date : string;
  d_analysis_duration : float;
  d_data_sources_used : list string;
  d_risk_factors : list RiskFactor.t;
  d_created_at : string;
  d_updated_at : string
}.

Definition to_dict (isoformat : Z -> string) (self : t) : dict :=
  Build_dict (id self) (phone_number self) (country_code self) (carrier self)
    (line_type self) (risk_score self) (risk_level self)
    (get (social_media_presence self) Social.empty)
    (spam_reports_count self) (fraud_mentions_count self)
    (telegram_presence self) (whatsapp_presence self) (rich_metadata self)
    (isoformat (analysis_date self)) (analysis_duration self)
    (get (data_sources_used self) [])
    (risk_factors self)
    (isoformat (created_at self)) (isoformat (updated_at self)).
End PhoneAnalysis.

(** ** utils/validators.py *)

Definition validate_phone_number (lib : phonenumbers.library)
  (phone_number : option string) : bool * option string :=
  match phone_number with
  | None => (false, Some "Phone number is required")
  | Some number =>
      if negb (nonempty number) then (false, Some "Phone number is required")
      else
        match phonenumbers.parse lib number with
        | Returned parsed =>
            if negb (phonenumbers.is_valid_number lib parsed)
            then (false, Some "Invalid phone number format")
            else (true, None)
        | Raised (NumberParseException m) =>
            (false, Some ("Invalid phone number: " ++ m))
        | Raised (OtherException m) =>
            (false, Some ("Validation error: " ++ m))
        end
  end.

(** ** routes/analysis.py: POST /api/analyze *)

Module Routes.

(** The JSON body of the request: [data.get('phone_number')] and the
    truth value of [data.get('deep_scan', False)]. *)
Record request : Type := { phone_number : option string; deep_scan : bool }.

Inductive body : Type :=
| Error (error : string)
| Analysis (message : string) (analysis : PhoneAnalysis.dict).

Record response : Type := { json_body : body; status : Z }.

(** What the handler reads from outside: the providers, the clock
    ([datetime.utcnow()] at the query and at the insert), the measured
    duration, and the rendering of datetimes. *)
Record context : Type := {
  env : PhoneAnalyzer.providers;
  utcnow : Z;
  insert_time : Z;
  duration : float;
  isoformat : Z -> string
}.

(** [timedelta(hours=24)]. *)
Definition hours_24 : Z := 24 * 3600 * 1000000.

(** The query of lines 34-38: the first stored analysis of the number
    dated after [utcnow - 24 h], in table order. *)
Definition recent_analysis (ctx : context) (table : list PhoneAnalysis.t)
  (phone_number : string) : option PhoneAnalysis.t :=
  find (fun row =>
          String.eqb (PhoneAnalysis.phone_number row) phone_number
          && (utcnow ctx - hours_24 <? PhoneAnalysis.analysis_date row))
       table.

Definition next_id (table : list PhoneAnalysis.t) : Z :=
  1 + fold_right Z.max 0 (map PhoneAnalysis.id table).

(** Lines 72-86: one row per risk factor of the result. *)
Fixpoint risk_factor_rows (ctx : context) (analysis_id first_id : Z)
  (factors : list Factor.t) : list RiskFactor.t :=
  match factors with
  | [] => []
  | factor :: rest =>
      RiskFactor.Build_t first_id analysis_id
        (Factor.category factor) (Factor.factor_type factor)
        (Factor.severity factor)
        (get (Factor.weight factor) (of_int 1))
        (get (Factor.score_contribution factor) (of_int 0))
        (Factor.description factor) (Factor.evidence factor)
        (Factor.source factor)
        (insert_time ctx) (insert_time ctx)
      :: risk_factor_rows ctx analysis_id (first_id + 1) rest
  end.

(** Lines 52-68 and the commit. *)
Definition new_row (ctx : context) (table : list PhoneAnalysis.t)
  (phone_number : string) (analysis_result : Results.t) : PhoneAnalysis.t :=
  let id := next_id table in
  let first_factor_id :=
    1 + fold_right Z.max 0
          (map RiskFactor.id (flat_map PhoneAnalysis.risk_factors table)) in
  PhoneAnalysis.Build_t id phone_number
    (Results.country_code analysis_result)
    (Results.carrier analysis_result)
    (Results.line_type analysis_result)
    (get (Results.risk_score analysis_result) (of_int 0))
    (Results.risk_level analysis_result)
    (Results.social_media_presence analysis_result)
    (get (Results.spam_reports_count analysis_result) 0)
    (get (Results.fraud_mentions_count analysis_result) 0)
    (Results.telegram_presence analysis_result)
    (Results.whatsapp_presence analysis_result)
    (Results.rich_metadata analysis_result)
    (insert_time ctx) (duration ctx)
    (Some (Results.data_sources_used analysis_result))
    (risk_factor_rows ctx id first_factor_id (Results.risk_factors analysis_result))
    (insert_time ctx) (insert_time ctx).

(** [analyze_phone]: the response, the table afterwards, and the lookups
    made (the validator's parse first). *)
Definition analyze_phone (ctx : context) (table : list PhoneAnalysis.t)
  (data : request)
  : response * list PhoneAnalysis.t * list PhoneAnalyzer.provider :=
  match validate_phone_number (PhoneAnalyzer.library (env ctx)) (phone_number data) with
  | (false, error_msg) =>
      (Build_response (Error (get error_msg "")) 400, table,
       match phone_number data with
       | Some number =>
           if nonempty number then [PhoneAnalyzer.PhonenumbersLibrary] else []
       | None => []
       end)
  | (true, _) =>
      let number := get (phone_number data) "" in
      match recent_analysis ctx table number, deep_scan data with
      | Some recent, false =>
          (Build_response
             (Analysis "Using cached analysis from last 24 hours"
                       (PhoneAnalysis.to_dict (isoformat ctx) recent)) 200,
           table, [PhoneAnalyzer.PhonenumbersLibrary])
      | _, _ =>
          let analyzer := PhoneAnalyzer.new number (deep_scan data) in
          match PhoneAnalyzer.analyze (env ctx) analyzer with
          | (Returned analysis_result, calls) =>
              let analysis := new_row ctx table number analysis_result in
              (Build_response
                 (Analysis "Analysis completed successfully"
                           (PhoneAnalysis.to_dict (isoformat ctx) analysis)) 201,
               (table ++ [analysis])%list,
               PhoneAnalyzer.PhonenumbersLibrary :: calls)
          | (Raised e, calls) =>
              (Build_response (Error (str e)) 500, table,
               PhoneAnalyzer.PhonenumbersLibrary :: calls)
          end
      end
  end.

End Routes.

(** * The rest of the scorer, the clients, the handlers and the models *)

(** ** risk_scorer.py: [get_detailed_breakdown] *)

Module DetailedBreakdown.
Import RiskScorer.

Record t : Type := {
  total_score : float;
  risk_level : string;
  category_scores : list (string * float);
  weights : list (string * float);
  factor_contributions : list (option string * float)
}.



End DetailedBreakdown.

(** ** osint_modules_real.py: the other scanners *)

(** [int(x)] on a float: truncation toward zero; [None] where [int]
    raises (an infinity or a NaN). *)
Definition int_of_float (x : float) : option Z :=
  match x with
  | S754_zero _ => Some 0
  | S754_finite s m e =>
      let n := match e with
               | Zneg p => Zpos m / 2 ^ Zpos p
               | _ => Zpos m * 2 ^ e
               end in
      Some (if s then - n else n)
  | _ => None
  end.

(** [not fraud_data.get('error')]: the entry is absent or empty. *)
Definition no_error (fraud_data : Ipqs.t) : bool :=
  negb (nonempty (get (Ipqs.error fraud_data) "")).

(** [list(set(l))] for a list of at most two distinct strings: with two
    elements the order is the iteration order of the set, which the
    interpreter fixes ([swapped]: the second element comes first). *)
Definition list_of_set (swapped : bool) (l : list string) : list string :=
  match l with
  | [a; b] => if swapped then [b; a] else [a; b]
  | _ => l
  end.

Module SpamDatabaseChecker.

(** The entry appended to ['details']; [today] is
    [datetime.now().strftime('%Y-%m-%d')]. *)
Definition detail (total_reports spam_score : Z) (today : string) : json :=
  JDict [("source", JStr "IPQualityScore");
         ("report_count", JInt total_reports);
         ("categories",
          JList [JStr (if 50 <? spam_score then "Spam" else "Potential Spam")]);
         ("spam_score", JInt spam_score);
         ("last_reported", JStr today)].

(** [check]; [spam_score / 10] is a float division and [int] truncates
    it.  A quotient beyond the binary64 range raises. *)
Definition check (IPQUALITYSCORE_API_KEY : string)
  (_make_request : string -> option IPQualityScoreChecker.api_response)
  (today : string) (swapped : bool) (phone_number : string) : outcome Spam.t :=
  let untouched := Spam.Build_t (Some 0) (Some []) (Some []) (Some []) in
  if nonempty IPQUALITYSCORE_API_KEY then
    let fraud_data :=
      IPQualityScoreChecker.check_fraud IPQUALITYSCORE_API_KEY _make_request
                                        phone_number in
    if no_error fraud_data then
      let spam_score := get (Ipqs.spam_score fraud_data) 0 in
      if 0 <? spam_score then
        match int_truediv spam_score 10 with
        | None => Raised (OtherException "division by zero")
        | Some quotient =>
            match int_of_float quotient with
            | None =>
                Raised (OtherException "integer division result too large for a float")
            | Some total_reports =>
                let categories :=
                  ((if truthy (Ipqs.recent_abuse fraud_data)
                    then ["Recent Abuse"] else [])
                   ++ (if truthy (Ipqs.VOIP fraud_data) then ["VOIP"] else []))%list in
                Returned
                  (Spam.Build_t (Some total_reports)
                     (Some [detail total_reports spam_score today])
                     (Some ["IPQualityScore"])
                     (Some (list_of_set swapped categories)))
            end
        end
      else Returned untouched
    else Returned untouched
  else Returned untouched.

End SpamDatabaseChecker.

Module SocialMediaScanner.
(** [scan]: no platform is queried; the ['platforms_checked'] and
    ['warning'] entries are not among those the analysis reads. *)
Definition scan (phone_number : string) : Social.t :=
  Social.Build_t (Some false) (Some []) None None.
End SocialMediaScanner.

Module FraudForumScanner.

(** The entry appended to ['mentions']. *)
Definition mention (fraud_data : Ipqs.t) (today : string) : json :=
  JDict [("source", JStr "IPQualityScore Fraud Database");
         ("context", JStr "Phone number flagged for suspicious activity");
         ("date", JStr today);
         ("severity",
          JStr (if truthy (Ipqs.recent_abuse fraud_data) then "HIGH" else "MEDIUM"));
         ("fraud_score", JInt (get (Ipqs.fraud_score fraud_data) 0))].

Definition scan (IPQUALITYSCORE_API_KEY : string)
  (_make_request : string -> option IPQualityScoreChecker.api_response)
  (today : string) (phone_number : string) : Fraud.t :=
  let untouched :=
    Fraud.Build_t (Some 0) (Some []) (Some "LOW") (Some ["IPQualityScore"]) in
  if nonempty IPQUALITYSCORE_API_KEY then
    let fraud_data :=
      IPQualityScoreChecker.check_fraud IPQUALITYSCORE_API_KEY _make_request
                                        phone_number in
    if no_error fraud_data then
      if truthy (Ipqs.recent_abuse fraud_data) || truthy (Ipqs.risky fraud_data) then
        Fraud.Build_t (Some 1) (Some [mention fraud_data today])
          (Some (if 75 <? get (Ipqs.fraud_score fraud_data) 0
                 then "HIGH" else "MEDIUM"))
          (Some ["IPQualityScore"])
      else untouched
    else untouched
  else untouched.

End FraudForumScanner.

Module TelegramScanner.
Definition scan (phone_number : string) : Telegram.t :=
  Telegram.Build_t None
    [("has_telegram_account", JBool false);
     ("public_username", JNull);
     ("warning", JStr "Requires Telegram API credentials and user consent");
     ("setup_instructions",
      JStr "Install telethon: pip install telethon, Get API ID and Hash from https://my.telegram.org/apps")].
End TelegramScanner.

Module WhatsAppChecker.
Definition check (phone_number : string) : json :=
  JDict [("has_whatsapp", JBool false);
         ("business_account", JBool false);
         ("warning", JStr "Requires WhatsApp Business API access");
         ("setup_instructions",
          JStr "Apply for WhatsApp Business API at https://developers.facebook.com/docs/whatsapp")].
End WhatsAppChecker.

(** The analyzer on the scanners of osint_modules_real.py.  The module
    reads its two keys from the environment; each scanner that asks the
    fraud-score API makes a request of its own, so the three answers are
    kept apart. *)
Module RealModules.

Record environment : Type := {
  NUMVERIFY_API_KEY : string;
  IPQUALITYSCORE_API_KEY : string;
  numverify_request : string -> option NumverifyValidator.api_response;
  metadata_request : string -> option IPQualityScoreChecker.api_response;
  spam_request : string -> option IPQualityScoreChecker.api_response;
  fraud_request : string -> option IPQualityScoreChecker.api_response;
  today : string;
  swapped : bool
}.

Definition providers (lib : phonenumbers.library) (e : environment)
  : PhoneAnalyzer.providers :=
  PhoneAnalyzer.Build_providers lib
    (fun phone =>
       Returned (IPQualityScoreChecker.check_fraud (IPQUALITYSCORE_API_KEY e)
                   (metadata_request e) phone))
    (fun phone =>
       Returned (NumverifyValidator.validate (NUMVERIFY_API_KEY e)
                   (numverify_request e) phone))
    (fun phone => Returned (SocialMediaScanner.scan phone))
    (fun phone =>
       SpamDatabaseChecker.check (IPQUALITYSCORE_API_KEY e) (spam_request e)
         (today e) (swapped e) phone)
    (fun phone =>
       Returned (FraudForumScanner.scan (IPQUALITYSCORE_API_KEY e) (fraud_request e)
                   (today e) phone))
    (fun phone => Returned (TelegramScanner.scan phone))
    (fun phone => Returned (WhatsAppChecker.check phone)).

End RealModules.

(** ** models/risk_factor.py: [to_dict] *)

Module RiskFactorDict.

Record t : Type := {
  id : Z;
  category : option string;
  factor_type : option string;
  severity : option string;
  weight : float;
  score_contribution : float;
  description : option string;
  (* [None] is the empty dict of [self.evidence or {}] *)
  evidence : option Factor.evidence_t;
  source : option string;
  detected_at : string
}.

(** [self.evidence or {}]: an absent or empty evidence gives [{}]. *)
Definition evidence_or_empty (evidence : option Factor.evidence_t)
  : option Factor.evidence_t :=
  match evidence with
  | Some (Factor.EvPorting []) => None
  | _ => evidence
  end.

Definition to_dict (isoformat : Z -> string) (self : RiskFactor.t) : t :=
  Build_t (RiskFactor.id self) (RiskFactor.category self)
    (RiskFactor.factor_type self) (RiskFactor.severity self)
    (RiskFactor.weight self) (RiskFactor.score_contribution self)
    (RiskFactor.description self)
    (evidence_or_empty (RiskFactor.evidence self))
    (RiskFactor.source self)
    (isoformat (RiskFactor.detected_at self)).


End RiskFactorDict.

(** ** routes/analysis.py: the report, delete, clear and statistics handlers *)

Module AnalysisRoutes.

Inductive body : Type :=
| Error (error : string)
| Report (analysis : PhoneAnalysis.dict)
| Deleted (message : string) (id : Z)
| Cleared (message : string) (deleted_count : Z)
| Statistics (total_analyses high_risk_count medium_risk_count low_risk_count : Z)
             (* risk_distribution: high, medium, low *)
             (risk_distribution : Z * Z * Z).

Record response : Type := { json_body : body; status : Z }.

(** [PhoneAnalysis.query.get_or_404(analysis_id)]: the row with that
    primary key, or the exception [abort(404)] raises, [not_found]. *)
Definition get_or_404 (not_found : exc) (table : list PhoneAnalysis.t)
  (analysis_id : Z) : outcome PhoneAnalysis.t :=
  match find (fun row => PhoneAnalysis.id row =? analysis_id) table with
  | Some analysis => Returned analysis
  | None => Raised not_found
  end.

(** [get_report]; the exception of [get_or_404] is an [Exception] and is
    caught by the handler's own [except]. *)
Definition get_report (isoformat : Z -> string) (not_found : exc)
  (table : list PhoneAnalysis.t) (analysis_id : Z) : response :=
  match get_or_404 not_found table analysis_id with
  | Returned analysis => Build_response (Report (PhoneAnalysis.to_dict isoformat analysis)) 200
  | Raised e => Build_response (Error (str e)) 500
  end.

(** [RiskFactor.query.filter_by(analysis_id=analysis_id).delete()] on the
    factor rows, which the table holds under their analyses. *)
Definition delete_risk_factors (analysis_id : Z) (row : PhoneAnalysis.t)
  : PhoneAnalysis.t :=
  PhoneAnalysis.Build_t (PhoneAnalysis.id row) (PhoneAnalysis.phone_number row)
    (PhoneAnalysis.country_code row) (PhoneAnalysis.carrier row)
    (PhoneAnalysis.line_type row) (PhoneAnalysis.risk_score row)
    (PhoneAnalysis.risk_level row) (PhoneAnalysis.social_media_presence row)
    (PhoneAnalysis.spam_reports_count row) (PhoneAnalysis.fraud_mentions_count row)
    (PhoneAnalysis.telegram_presence row) (PhoneAnalysis.whatsapp_presence row)
    (PhoneAnalysis.rich_metadata row) (PhoneAnalysis.analysis_date row)
    (PhoneAnalysis.analysis_duration row) (PhoneAnalysis.data_sources_used row)
    (filter (fun rf => negb (RiskFactor.analysis_id rf =? analysis_id))
            (PhoneAnalysis.risk_factors row))
    (PhoneAnalysis.created_at row) (PhoneAnalysis.updated_at row).

(** [delete_analysis]: the response and the table afterwards; on an
    exception the session is rolled back. *)
Definition delete_analysis (not_found : exc) (table : list PhoneAnalysis.t)
  (analysis_id : Z) : response * list PhoneAnalysis.t :=
  match get_or_404 not_found table analysis_id with
  | Returned analysis =>
      let table := map (delete_risk_factors analysis_id) table in
      let table :=
        filter (fun row => negb (PhoneAnalysis.id row =? PhoneAnalysis.id analysis))
               table in
      (Build_response (Deleted "Analysis deleted successfully" analysis_id) 200, table)
  | Raised e => (Build_response (Error (str e)) 500, table)
  end.

(** [clear_all_history]. *)
Definition clear_all_history (table : list PhoneAnalysis.t)
  : response * list PhoneAnalysis.t :=
  let count := Z.of_nat (List.length table) in
  (Build_response (Cleared "All analysis history cleared successfully" count) 200, []).

(** [PhoneAnalysis.query.filter_by(risk_level=level).count()]. *)
Definition count_level (level : string) (table : list PhoneAnalysis.t) : Z :=
  Z.of_nat (List.length
              (filter (fun row =>
                         match PhoneAnalysis.risk_level row with
                         | Some l => String.eqb l level
                         | None => false
                         end) table)).

(** [get_statistics]. *)
Definition get_statistics (table : list PhoneAnalysis.t) : response :=
  let total_analyses := Z.of_nat (List.length table) in
  let high_risk := count_level "HIGH" table in
  let medium_risk := count_level "MEDIUM" table in
  let low_risk := count_level "LOW" table in
  Build_response
    (Statistics total_analyses high_risk medium_risk low_risk
                (high_risk, medium_risk, low_risk)) 200.

End AnalysisRoutes.

(** * Definitions used by the statements and the proofs *)

(** ** Proof automation *)

(** Case analysis on the integer comparisons inside a float comparison. *)
Ltac compare_cases :=
  repeat match goal with
    | H : context [Z.compare ?a ?b] |- _ => destruct (Z.compare_spec a b); subst
    | |- context [Z.compare ?a ?b] => destruct (Z.compare_spec a b); subst
    | H : context [Pos.compare_cont Eq ?a ?b] |- _ =>
        change (Pos.compare_cont Eq a b) with (Pos.compare a b) in H
    | |- context [Pos.compare_cont Eq ?a ?b] =>
        change (Pos.compare_cont Eq a b) with (Pos.compare a b)
    | H : context [Pos.compare ?a ?b] |- _ => destruct (Pos.compare_spec a b); subst
    | |- context [Pos.compare ?a ?b] => destruct (Pos.compare_spec a b); subst
    end;
  simpl in *; try congruence; try lia.

(** Position of a level in the order MINIMAL < LOW < MEDIUM < HIGH < CRITICAL. *)
Definition level_rank (l : RiskScorer.risk_level) : nat :=
  match l with
  | RiskScorer.MINIMAL => 0
  | RiskScorer.LOW => 1
  | RiskScorer.MEDIUM => 2
  | RiskScorer.HIGH => 3
  | RiskScorer.CRITICAL => 4
  end.

(** The values each sub-scorer can return. *)
Module Ranges.
Definition social_values : list float := map of_int [0; 20; 30; 40; 60; 70; 80; 100].
Definition spam_values : list float := map of_int [0; 30; 60; 85; 100].
Definition fraud_values : list float := map of_int [0; 50; 80; 100].
Definition age_values : list float := map of_int [30; 90; 70; 40; 20; 0].
Definition geo_values : list float := map of_int [20; 0].

(** [risk_score] as [calculate] computes it from five sub-scores. *)
Definition risk_score_of (social spam fraud age geo : float) : float :=
  fst (RiskScorer.score_and_level (RiskScorer.weighted_total social spam fraud age geo)).

(** The computed score is the binary64 value nearest to the composite of
    the design, and lies between 0 and 100. *)
Definition agrees (social spam fraud age geo : float) : bool :=
  let score := risk_score_of social spam fraud age geo in
  float_eqb score
            (Q2F (ScoringSpec.composite (map F2Q [social; spam; fraud; age; geo])))
  && fle (of_int 0) score && fle score (of_int 100).

(** [f] holds on every choice of one value from each list. *)
Definition forallb5 {A : Type} (f : A -> A -> A -> A -> A -> bool)
  (l1 l2 l3 l4 l5 : list A) : bool :=
  forallb (fun a => forallb (fun b => forallb (fun c => forallb (fun d =>
    forallb (fun e => f a b c d e) l5) l4) l3) l2) l1.
End Ranges.

(** Membership of a computed value in a list of values. *)
Ltac in_values := vm_compute; repeat (try (left; reflexivity); right); try tauto.

(** The contribution in the words of the design, in exact arithmetic:
    severity base score times weight, rounded to 2 decimals, for a weight
    given in hundredths. *)
Module ContributionSpec.
Definition base_score (severity : string) : Q :=
  if String.eqb severity "CRITICAL" then 100 # 1
  else if String.eqb severity "HIGH" then 80 # 1
  else if String.eqb severity "MEDIUM" then 50 # 1
  else if String.eqb severity "LOW" then 25 # 1
  else 50 # 1.
Definition contribution (severity : string) (weight_hundredths : Z) : Q :=
  ScoringSpec.round2 (base_score severity * (weight_hundredths # 100))%Q.
(** The factor dict with the given severity and the weight literal
    [weight_hundredths / 100]. *)
Definition factor_of (severity : string) (weight_hundredths : Z) : Factor.t :=
  Factor.Build_t None None (Some severity) (Some (decimal weight_hundredths 100))
                 None None None None.
(** On the severities of the data model and the weights the pipeline
    assigns, the contribution computed is the binary64 value nearest to
    the exact one. *)
Definition agrees_on_pipeline_weights (self : Results.t) : bool :=
  forallb (fun severity =>
    forallb (fun w =>
      float_eqb (RiskScorer.get_factor_contribution self (factor_of severity w))
                (Q2F (contribution severity w)))
      [15; 10; 5; 30; 25])
    ["CRITICAL"; "HIGH"; "MEDIUM"; "LOW"].
End ContributionSpec.

(** ** What a run lists and calls, read off the providers' answers *)

Module Run.
Import PhoneAnalyzer.

(** A call returned (did not raise). *)
Definition returned {A : Type} (o : outcome A) : bool :=
  match o with
  | Returned _ => true
  | Raised _ => false
  end.



(** The identity fields written by step 1. *)
Definition identity (r : Results.t)
  : option string * option string * option Z * option string * option (list string) :=
  (Results.country_code r, Results.carrier r, Results.line_type r,
   Results.location r, Results.timezones r).

(** The entries of the spam step. *)
Definition spam_entries (r : Results.t) : option string * option Z :=
  (Results.spam_check_error r, Results.spam_reports_count r).

End Run.

(** Case analysis on the answers of the providers, then on the
    conditions of a step. *)
Ltac break_step :=
  repeat match goal with
    | |- context [phonenumbers.parse ?l ?p] => destruct (phonenumbers.parse l p)
    | |- context [PhoneAnalyzer.check_fraud ?e ?p] => destruct (PhoneAnalyzer.check_fraud e p)
    | |- context [PhoneAnalyzer.validate ?e ?p] => destruct (PhoneAnalyzer.validate e p)
    | |- context [PhoneAnalyzer.social_scan ?e ?p] => destruct (PhoneAnalyzer.social_scan e p)
    | |- context [PhoneAnalyzer.spam_check ?e ?p] => destruct (PhoneAnalyzer.spam_check e p)
    | |- context [PhoneAnalyzer.fraud_scan ?e ?p] => destruct (PhoneAnalyzer.fraud_scan e p)
    | |- context [PhoneAnalyzer.telegram_scan ?e ?p] =>
        destruct (PhoneAnalyzer.telegram_scan e p)
    | |- context [PhoneAnalyzer.whatsapp_check ?e ?p] =>
        destruct (PhoneAnalyzer.whatsapp_check e p)
    end;
  cbn [Run.returned andb];
  repeat match goal with
    | |- context [if ?b then _ else _] => destruct b
    | |- context [match ?l with [] => _ | _ :: _ => _ end] => destruct l
    end.

(** Unfolds the steps down to the record updates. *)
Ltac open_steps :=
  unfold PhoneAnalyzer._get_basic_info, PhoneAnalyzer._get_rich_metadata,
    PhoneAnalyzer._check_social_media, PhoneAnalyzer._check_spam_databases,
    PhoneAnalyzer._check_fraud_forums, PhoneAnalyzer._check_messaging_apps,
    PhoneAnalyzer.record_rich_metadata;
  cbv beta zeta delta [PhoneAnalyzer.with_results PhoneAnalyzer.called
                       PhoneAnalyzer.extend_sources PhoneAnalyzer.append_factor].

(** Reads an entry through the updates made before it. *)
Ltac results_fields :=
  cbn [PhoneAnalyzer.phone_number PhoneAnalyzer.calls PhoneAnalyzer.results
       Run.returned andb Run.identity Run.spam_entries
       Results.data_sources_used Results.risk_factors Results.country_code
       Results.carrier Results.line_type Results.location Results.timezones
       Results.rich_metadata Results.spam_check_error Results.spam_reports_count
       Results.fraud_mentions_count Results.risk_score Results.risk_level
       Results.social_media_presence Results.phone_number
       Results.set_country_code Results.set_carrier Results.set_line_type
       Results.set_location Results.set_timezones Results.set_basic_info_error
       Results.set_rich_metadata Results.set_rich_metadata_error
       Results.set_social_media_presence Results.set_social_media_error
       Results.set_spam_reports_count Results.set_spam_details
       Results.set_spam_check_error Results.set_fraud_mentions_count
       Results.set_fraud_details Results.set_fraud_scan_error
       Results.set_telegram_presence Results.set_whatsapp_presence
       Results.set_messaging_apps_error Results.set_data_sources_used
       Results.set_risk_factors Results.set_risk_score Results.set_risk_level].

(** ** Concrete deployments *)

Module Deployment.
Import PhoneAnalyzer.

(** The number of [test_rich_metadata.py]. *)
Definition test_number : string := "+14158586273".

(** A phonenumbers library that parses every input as that number. *)
Definition library : phonenumbers.library :=
  phonenumbers.Build_library
    (fun _ => Returned (Build_PhoneNumber 1 4158586273))
    (fun _ => true)
    (fun _ => 0)
    (fun _ => "")
    (fun _ => "San Francisco, CA")
    (fun _ => ["America/Los_Angeles"]).

(** No request succeeds. *)
Definition no_network {A : Type} : string -> option A := fun _ => None.

(** [SocialMediaScanner.scan] of osint_modules_real.py (lines 249-263). *)
Definition social_stub : Social.t := Social.Build_t (Some false) (Some []) None None.

(** [SpamDatabaseChecker.check] (lines 193-229) and [FraudForumScanner.scan]
    (lines 273-298) when IPQUALITYSCORE_API_KEY is empty. *)
Definition spam_without_key : Spam.t :=
  Spam.Build_t (Some 0) (Some []) (Some []) (Some []).
Definition fraud_without_key : Fraud.t :=
  Fraud.Build_t (Some 0) (Some []) (Some "LOW") (Some ["IPQualityScore"]).

(** [TelegramScanner.scan] and [WhatsAppChecker.check] (lines 310-331). *)
Definition telegram_stub : Telegram.t :=
  Telegram.Build_t None
    [("has_telegram_account", JBool false); ("public_username", JNull);
     ("warning", JStr "Requires Telegram API credentials and user consent")].
Definition whatsapp_stub : json :=
  JDict [("has_whatsapp", JBool false); ("business_account", JBool false);
         ("warning", JStr "Requires WhatsApp Business API access")].

(** osint_modules_real.py with no API key configured. *)
Definition unconfigured : providers :=
  Build_providers library
    (fun phone => Returned (IPQualityScoreChecker.check_fraud "" no_network phone))
    (fun phone => Returned (NumverifyValidator.validate "" no_network phone))
    (fun _ => Returned social_stub)
    (fun _ => Returned spam_without_key)
    (fun _ => Returned fraud_without_key)
    (fun _ => Returned telegram_stub)
    (fun _ => Returned whatsapp_stub).


(** The scenario of the design: the fraud-score API answers
    fraud_score 80, recent_abuse, VOIP, carrier CarrierB; the validity API
    answers carrier CarrierA. *)
Definition ipqs_answer : IPQualityScoreChecker.api_response :=
  IPQualityScoreChecker.Build_api_response (Some true) None (Some 80) (Some true)
    (Some true) None None (Some true) (Some "CarrierB") (Some "VOIP") (Some "US")
    None None None None.
Definition numverify_answer : NumverifyValidator.api_response :=
  NumverifyValidator.Build_api_response (Some true) None None None None None
    (Some "CarrierA") (Some "mobile") None.
Definition conflicting_carriers : providers :=
  Build_providers library
    (fun phone =>
       Returned (IPQualityScoreChecker.check_fraud "key" (fun _ => Some ipqs_answer) phone))
    (fun phone =>
       Returned (NumverifyValidator.validate "key" (fun _ => Some numverify_answer) phone))
    (social_scan unconfigured) (spam_check unconfigured)
    (fraud_scan unconfigured) (telegram_scan unconfigured)
    (whatsapp_check unconfigured).

End Deployment.

(** ** The sources invariant as the design states it

    [data_sources_used] names a provider only if its call returned at
    least partially usable evidence.  A payload is usable when it carries
    no error marker, or some entry besides the marker and the filler that
    every failure return of the client pairs with it (['valid': False],
    ['fraud_score': 0]). *)

Module SourcesClaim.
Import PhoneAnalyzer.

Definition present {A : Type} (field : option A) : bool :=
  match field with
  | Some _ => true
  | None => false
  end.




End SourcesClaim.

(** ** Two requests to the handler *)

Module Service.
(** A handler context on the unconfigured deployment: the request arrives
    one hour after the stored analysis was written. *)
Definition first_call : Routes.context :=
  Routes.Build_context Deployment.unconfigured
    1700000000000000 1700000002000000 (of_int 2) str_of_int.
Definition second_call : Routes.context :=
  Routes.Build_context Deployment.unconfigured
    1700003600000000 1700003602000000 (of_int 2) str_of_int.
Definition request (deep_scan : bool) : Routes.request :=
  Routes.Build_request (Some Deployment.test_number) deep_scan.
(** The table after a first request on an empty table. *)
Definition stored_table : list PhoneAnalysis.t :=
  snd (fst (Routes.analyze_phone first_call [] (request false))).
End Service.

(** ** Checks over the values of the sub-scorers *)

Module ScoreChecks.
Import RiskScorer.

Definition level_eqb (a b : risk_level) : bool :=
  Nat.eqb (level_rank a) (level_rank b).



(** With a social-media sub-score of 0 the score is at most 61 and the
    level is not HIGH. *)
Definition below_61 (_ spam fraud age geo : float) : bool :=
  let result := score_and_level (weighted_total (of_int 0) spam fraud age geo) in
  fle (fst result) (of_int 61) && negb (level_eqb (snd result) HIGH).


(** A result with 25 spam reports, 5 fraud mentions and one account seen
    today, no anomaly flagged. *)
Definition reports_only : Results.t :=
  Results.set_fraud_mentions_count 5
    (Results.set_spam_reports_count 25
       (Results.set_social_media_presence
          (Social.Build_t (Some false) (Some [Build_account (Some 0)]) None None)
          (Results.init "+14158586273"))).

End ScoreChecks.

(** ** What a run notes, read off the providers' answers *)

(** Reads any entry of the working result through the updates made
    before it. *)
Ltac read_results :=
  cbn [PhoneAnalyzer.phone_number PhoneAnalyzer.calls PhoneAnalyzer.results
       Results.phone_number Results.data_sources_used Results.risk_factors
       Results.country_code Results.carrier Results.line_type Results.location
       Results.timezones Results.basic_info_error Results.rich_metadata
       Results.rich_metadata_error Results.social_media_presence
       Results.social_media_error Results.spam_reports_count Results.spam_details
       Results.spam_check_error Results.fraud_mentions_count Results.fraud_details
       Results.fraud_scan_error Results.telegram_presence Results.whatsapp_presence
       Results.messaging_apps_error Results.risk_score Results.risk_level
       Results.set_country_code Results.set_carrier Results.set_line_type
       Results.set_location Results.set_timezones Results.set_basic_info_error
       Results.set_rich_metadata Results.set_rich_metadata_error
       Results.set_social_media_presence Results.set_social_media_error
       Results.set_spam_reports_count Results.set_spam_details
       Results.set_spam_check_error Results.set_fraud_mentions_count
       Results.set_fraud_details Results.set_fraud_scan_error
       Results.set_telegram_presence Results.set_whatsapp_presence
       Results.set_messaging_apps_error Results.set_data_sources_used
       Results.set_risk_factors Results.set_risk_score Results.set_risk_level].

Module Annotations.
Import PhoneAnalyzer.

(** [str(e)] when the call raised. *)
Definition message {A : Type} (o : outcome A) : option string :=
  match o with
  | Raised e => Some (str e)
  | Returned _ => None
  end.




End Annotations.

(** ** The factors a run appends, read off the providers' answers *)

Module FactorsListed.
Import PhoneAnalyzer.

(** Lines 98-99 and 129-131 on the two answers: both carriers are known
    and they differ. *)
Definition ported (ipqs_data : Ipqs.t) (numverify_data : Numverify.t) : bool :=
  let original := get (Numverify.carrier numverify_data) "Unknown" in
  let current := get_or (Ipqs.carrier ipqs_data) original in
  negb (String.eqb current "Unknown") && negb (String.eqb original "Unknown")
  && negb (String.eqb current original).

(** The factor types each step appends. *)
Definition rich_types (env : providers) (phone : string) : list string :=
  match check_fraud env phone, validate env phone with
  | Returned ipqs_data, Returned numverify_data =>
      (if get (Ipqs.VOIP ipqs_data) false then ["voip_number"] else [])
      ++ (if ported ipqs_data numverify_data then ["porting_detected"] else [])
      ++ (if get (Ipqs.do_not_call ipqs_data) false
          then ["do_not_call_registry"] else [])
  | _, _ => []
  end.

Definition social_types (env : providers) (phone : string) : list string :=
  match social_scan env phone with
  | Returned social_results =>
      if truthy (Social.anomaly_detected social_results)
      then ["suspicious_activity"] else []
  | Raised _ => []
  end.

Definition spam_types (env : providers) (phone : string) : list string :=
  match spam_check env phone with
  | Returned spam_results =>
      if 0 <? get (Spam.total_reports spam_results) 0
      then ["reported_spam"] else []
  | Raised _ => []
  end.

Definition fraud_types (env : providers) (phone : string) : list string :=
  match fraud_scan env phone with
  | Returned fraud_results =>
      if 0 <? get (Fraud.mentions_count fraud_results) 0
      then ["fraud_mention"] else []
  | Raised _ => []
  end.

Definition messaging_types (env : providers) (phone : string) : list string :=
  match telegram_scan env phone, whatsapp_check env phone with
  | Returned telegram_results, Returned _ =>
      match get (Telegram.suspicious_groups telegram_results) [] with
      | [] => []
      | _ :: _ => ["suspicious_telegram_activity"]
      end
  | _, _ => []
  end.

(** The factor types of a run, in the order the steps append them. *)
Definition types_listed (env : providers) (phone : string) : list string :=
  (rich_types env phone ++ social_types env phone ++ spam_types env phone
   ++ fraud_types env phone ++ messaging_types env phone)%list.





End FactorsListed.

(** ** The scanners of osint_modules_real.py under the analyzer *)

Module RealChecks.
Import RiskScorer ScoreChecks.

(** [int(spam_score / 10)] is the integer quotient. *)
Definition tens (spam_score : Z) : bool :=
  match int_truediv spam_score 10 with
  | Some quotient =>
      match int_of_float quotient with
      | Some total_reports => total_reports =? spam_score / 10
      | None => false
      end
  | None => false
  end.

(** The spam scores 1 to 100. *)
Definition api_scores : list Z := map Z.of_nat (seq 1 100).

(** What the scorer reads from a result. *)
Definition scorer_inputs (r : Results.t)
  : option Social.t * option Z * option Z * option string :=
  (Results.social_media_presence r, Results.spam_reports_count r,
   Results.fraud_mentions_count r, Results.location r).

(** The score is at most 42.5 and the level is not HIGH. *)
Definition at_most_medium (social spam fraud age geo : float) : bool :=
  let result := score_and_level (weighted_total social spam fraud age geo) in
  fle (fst result) (decimal 425 10) && negb (level_eqb (snd result) HIGH).

(** The score is at most 32.5 and the level is MINIMAL or LOW. *)
Definition at_most_low (social spam fraud age geo : float) : bool :=
  let result := score_and_level (weighted_total social spam fraud age geo) in
  fle (fst result) (decimal 325 10)
  && (level_eqb (snd result) MINIMAL || level_eqb (snd result) LOW).

(** The score is 3.0 or 5.0 and the level is MINIMAL. *)
Definition three_or_five (social spam fraud age geo : float) : bool :=
  let result := score_and_level (weighted_total social spam fraud age geo) in
  (float_eqb (fst result) (of_int 3) || float_eqb (fst result) (of_int 5))
  && level_eqb (snd result) MINIMAL.

(** An answer of the fraud-score API with spam score 87 and recent
    abuse, and an environment without keys. *)
Definition spam_answer : IPQualityScoreChecker.api_response :=
  IPQualityScoreChecker.Build_api_response (Some true) None (Some 90) (Some true)
    None None None None None None None None None (Some 87) None.

Definition without_keys : RealModules.environment :=
  RealModules.Build_environment "" "" (fun _ => None) (fun _ => None)
    (fun _ => Some spam_answer) (fun _ => Some spam_answer) "2024-01-01" false.

End RealChecks.

(** ** The stored analyses *)

Module Stored.

(** The level names the scorer returns. *)
Definition level_names : list (option string) :=
  [Some "MINIMAL"; Some "LOW"; Some "MEDIUM"; Some "HIGH"].

(** A row as the analyze handler stores it. *)
Definition row_ok (row : PhoneAnalysis.t) : Prop :=
  0 < PhoneAnalysis.id row /\
  nonempty (PhoneAnalysis.phone_number row) = true /\
  In (PhoneAnalysis.risk_level row) level_names /\
  fle (of_int 0) (PhoneAnalysis.risk_score row) = true /\
  fle (PhoneAnalysis.risk_score row) (of_int 100) = true /\
  (exists sources, PhoneAnalysis.data_sources_used row = Some sources) /\
  Forall (fun rf => RiskFactor.analysis_id rf = PhoneAnalysis.id row)
         (PhoneAnalysis.risk_factors row).

(** Primary keys are distinct and every row is as the handler stores
    them. *)
Definition table_ok (table : list PhoneAnalysis.t) : Prop :=
  NoDup (map PhoneAnalysis.id table) /\ Forall row_ok table.

(** The tables the handlers produce from the empty one. *)
Inductive reachable : list PhoneAnalysis.t -> Prop :=
| reach_empty : reachable []
| reach_analyze (ctx : Routes.context) (table : list PhoneAnalysis.t)
    (data : Routes.request) :
    reachable table -> reachable (snd (fst (Routes.analyze_phone ctx table data)))
| reach_delete (not_found : exc) (table : list PhoneAnalysis.t) (analysis_id : Z) :
    reachable table ->
    reachable (snd (AnalysisRoutes.delete_analysis not_found table analysis_id))
| reach_clear (table : list PhoneAnalysis.t) :
    reachable table -> reachable (snd (AnalysisRoutes.clear_all_history table)).



(** The exception of [abort(404)]. *)
Definition not_found : exc :=
  OtherException "404 Not Found: The requested URL was not found on the server.".


(** The table after a first request and a forced re-scan one hour later. *)
Definition rescanned_table : list PhoneAnalysis.t :=
  snd (fst (Routes.analyze_phone Service.second_call Service.stored_table
              (Service.request true))).

End Stored.

(** ** The score as a function of one sub-score *)

Module Monotone.
Import RiskScorer Ranges.



End Monotone.

(** ** Two analyzers that differ in the deep-scan flag *)

Module DeepScan.
Import PhoneAnalyzer.

(** The same number, results and lookups. *)
Definition alike (s s' : t) : Prop :=
  phone_number s = phone_number s' /\ results s = results s' /\ calls s = calls s'.

End DeepScan.

(** * Theorems *)

(** ** Facts about float comparison *)

Section FloatOrder.

Lemma float_eqb_eq (a b : float) : float_eqb a b = true -> a = b.
Proof.
  destruct a as [s|s| |s m e], b as [s'|s'| |s' m' e']; simpl; try discriminate;
    try reflexivity.
  - intros H. apply Bool.eqb_prop in H. now subst.
  - intros H. apply Bool.eqb_prop in H. now subst.
  - intros H. apply andb_prop in H as [H He]. apply andb_prop in H as [Hs Hm].
    apply Bool.eqb_prop in Hs. apply Pos.eqb_eq in Hm. apply Z.eqb_eq in He.
    now subst.
Qed.

(** [<=] on floats is transitive. *)
Lemma fle_trans (a b c : float) :
  fle a b = true -> fle b c = true -> fle a c = true.
Proof.
  unfold fle, SFleb, SFcompare.
  destruct a as [sa|sa| |sa ma ea], b as [sb|sb| |sb mb eb], c as [sc|sc| |sc mc ec];
    try destruct sa; try destruct sb; try destruct sc; simpl;
    try congruence; compare_cases.
Qed.

(** [a < b] excludes [b <= a]. *)
Lemma flt_not_fge (a b : float) : flt a b = true -> fge a b = false.
Proof.
  unfold flt, fge, SFltb, SFleb, SFcompare.
  destruct a as [sa|sa| |sa ma ea], b as [sb|sb| |sb mb eb];
    try destruct sa; try destruct sb; simpl; try congruence; compare_cases.
Qed.

End FloatOrder.

(** ** The risk level *)

Section RiskLevel.
Import RiskScorer.

Lemma level_high (s : float) :
  fge s (of_int 70) = true -> _determine_risk_level s = HIGH.
Proof. unfold _determine_risk_level. now intros ->. Qed.

Lemma level_medium (s : float) :
  fge s (of_int 40) = true -> flt s (of_int 70) = true ->
  _determine_risk_level s = MEDIUM.
Proof.
  intros H40 H70. unfold _determine_risk_level.
  now rewrite (flt_not_fge _ _ H70), H40.
Qed.

Lemma level_low (s : float) :
  fge s (of_int 20) = true -> flt s (of_int 40) = true ->
  _determine_risk_level s = LOW.
Proof.
  intros H20 H40. unfold _determine_risk_level.
  assert (H70 : fge s (of_int 70) = false).
  { destruct (fge s (of_int 70)) eqn:E; [|reflexivity].
    assert (fge s (of_int 40) = true)
      by (unfold fge in *; apply fle_trans with (b := of_int 70); [reflexivity | exact E]).
    rewrite (flt_not_fge _ _ H40) in H. discriminate. }
  now rewrite H70, (flt_not_fge _ _ H40), H20.
Qed.

Lemma level_minimal (s : float) :
  flt s (of_int 20) = true -> _determine_risk_level s = MINIMAL.
Proof.
  intros H20. unfold _determine_risk_level.
  pose proof (flt_not_fge _ _ H20) as N20.
  assert (N40 : fge s (of_int 40) = false).
  { destruct (fge s (of_int 40)) eqn:E; [|reflexivity].
    assert (fge s (of_int 20) = true)
      by (unfold fge in *; apply fle_trans with (b := of_int 40); [reflexivity | exact E]).
    congruence. }
  assert (N70 : fge s (of_int 70) = false).
  { destruct (fge s (of_int 70)) eqn:E; [|reflexivity].
    assert (fge s (of_int 20) = true)
      by (unfold fge in *; apply fle_trans with (b := of_int 70); [reflexivity | exact E]).
    congruence. }
  now rewrite N70, N40, N20.
Qed.

Lemma level_monotone (s1 s2 : float) :
  fle s1 s2 = true ->
  (level_rank (_determine_risk_level s1) <= level_rank (_determine_risk_level s2))%nat.
Proof.
  intros Hle.
  assert (up : forall c, fge s1 c = true -> fge s2 c = true).
  { intros c Hc. unfold fge in *. now apply fle_trans with (b := s1). }
  unfold _determine_risk_level.
  destruct (fge s1 (of_int 70)) eqn:E70.
  { now rewrite (up _ E70). }
  destruct (fge s1 (of_int 40)) eqn:E40.
  { rewrite (up _ E40). destruct (fge s2 (of_int 70)); simpl; lia. }
  destruct (fge s1 (of_int 20)) eqn:E20.
  { rewrite (up _ E20).
    destruct (fge s2 (of_int 70)), (fge s2 (of_int 40)); simpl; lia. }
  destruct (fge s2 (of_int 70)), (fge s2 (of_int 40)), (fge s2 (of_int 20));
    simpl; lia.
Qed.

(** C2.  The risk level is a function of the composite score with
    boundary-inclusive thresholds: a score of at least 70 is HIGH, one in
    [40, 70) is MEDIUM (70 itself is HIGH, 69.99 is MEDIUM), one in
    [20, 40) is LOW, one below 20 is MINIMAL; the level never decreases
    when the score grows, and CRITICAL is never returned. *)
Theorem risk_level_thresholds :
  (forall s, fge s (of_int 70) = true -> _determine_risk_level s = HIGH) /\
  (forall s, fge s (of_int 40) = true -> flt s (of_int 70) = true ->
             _determine_risk_level s = MEDIUM) /\
  (forall s, fge s (of_int 20) = true -> flt s (of_int 40) = true ->
             _determine_risk_level s = LOW) /\
  (forall s, flt s (of_int 20) = true -> _determine_risk_level s = MINIMAL) /\
  _determine_risk_level (of_int 70) = HIGH /\
  _determine_risk_level (decimal 6999 100) = MEDIUM /\
  _determine_risk_level (of_int 40) = MEDIUM /\
  _determine_risk_level (decimal 3999 100) = LOW /\
  _determine_risk_level (of_int 20) = LOW /\
  _determine_risk_level (decimal 1999 100) = MINIMAL /\
  (forall s1 s2, fle s1 s2 = true ->
     (level_rank (_determine_risk_level s1)
      <= level_rank (_determine_risk_level s2))%nat) /\
  (forall s, _determine_risk_level s <> CRITICAL).
Proof.
  split; [exact level_high|].
  split; [exact level_medium|].
  split; [exact level_low|].
  split; [exact level_minimal|].
  do 6 (split; [vm_compute; reflexivity|]).
  split; [exact level_monotone|].
  intros s. unfold _determine_risk_level.
  destruct (fge s (of_int 70)), (fge s (of_int 40)), (fge s (of_int 20));
    discriminate.
Qed.

End RiskLevel.

(** ** The spam sub-score *)

Section SpamScore.
Import RiskScorer.

Lemma spam_score_of_count (self : Results.t) (n : Z) :
  Results.spam_reports_count self = Some n ->
  _calculate_spam_score self =
    if n =? 0 then of_int 0
    else if n <=? 3 then of_int 30
    else if n <=? 10 then of_int 60
    else if n <=? 20 then of_int 85
    else of_int 100.
Proof. unfold _calculate_spam_score. now intros ->. Qed.

(** C3.  For a report count [n >= 0] the spam sub-score is 0 at 0, 30 on
    1..3, 60 on 4..10, 85 on 11..20 and 100 above 20, and it does not
    decrease when the count grows. *)
Theorem spam_score_bands (self self' : Results.t) (n n' : Z) :
  Results.spam_reports_count self = Some n ->
  Results.spam_reports_count self' = Some n' ->
  0 <= n -> n <= n' ->
  (n = 0 -> _calculate_spam_score self = of_int 0) /\
  (1 <= n <= 3 -> _calculate_spam_score self = of_int 30) /\
  (4 <= n <= 10 -> _calculate_spam_score self = of_int 60) /\
  (11 <= n <= 20 -> _calculate_spam_score self = of_int 85) /\
  (20 < n -> _calculate_spam_score self = of_int 100) /\
  fle (_calculate_spam_score self) (_calculate_spam_score self') = true.
Proof.
  intros Hn Hn' H0 Hle.
  rewrite (spam_score_of_count _ _ Hn), (spam_score_of_count _ _ Hn').
  repeat split; intros;
    repeat match goal with
      | |- context [?a =? ?b] => destruct (Z.eqb_spec a b)
      | |- context [?a <=? ?b] => destruct (Z.leb_spec a b)
      end; try lia; try reflexivity.
Qed.

Lemma spam_score_bands_witness :
  _calculate_spam_score (Results.set_spam_reports_count 3 (Results.init "+14158586273"))
    = of_int 30 /\
  _calculate_spam_score (Results.set_spam_reports_count 4 (Results.init "+14158586273"))
    = of_int 60 /\
  fle (_calculate_spam_score (Results.set_spam_reports_count 3 (Results.init "+14158586273")))
      (_calculate_spam_score (Results.set_spam_reports_count 4 (Results.init "+14158586273")))
    = true.
Proof.
  pose proof (spam_score_bands
                (Results.set_spam_reports_count 3 (Results.init "+14158586273"))
                (Results.set_spam_reports_count 4 (Results.init "+14158586273"))
                3 4 eq_refl eq_refl ltac:(lia) ltac:(lia)) as H.
  pose proof (spam_score_bands
                (Results.set_spam_reports_count 4 (Results.init "+14158586273"))
                (Results.set_spam_reports_count 4 (Results.init "+14158586273"))
                4 4 eq_refl eq_refl ltac:(lia) ltac:(lia)) as H'.
  split; [apply H; lia|]. split; [apply H'; lia|]. apply H.
Defined.

End SpamScore.

(** ** The values of the sub-scorers *)

Section SubScores.
Import RiskScorer Ranges.

Lemma social_score_range (self : Results.t) :
  In (_calculate_social_media_score self) social_values.
Proof.
  unfold _calculate_social_media_score.
  destruct (truthy _); [|in_values].
  destruct (get _ _) as [|acc accounts]; [in_values|].
  set (recent := List.length (filter _ _)).
  change (List.length (acc :: accounts) =? 0)%nat with false.
  destruct (3 <=? recent)%nat, (2 <=? recent)%nat, (recent =? 1)%nat,
    (5 <? List.length (acc :: accounts))%nat; in_values.
Qed.

Lemma spam_score_range (self : Results.t) :
  In (_calculate_spam_score self) spam_values.
Proof.
  unfold _calculate_spam_score.
  destruct (_ =? 0); [in_values|].
  destruct (_ <=? 3); [in_values|].
  destruct (_ <=? 10); [in_values|].
  destruct (_ <=? 20); in_values.
Qed.

Lemma fraud_score_range (self : Results.t) :
  In (_calculate_fraud_score self) fraud_values.
Proof.
  unfold _calculate_fraud_score.
  destruct (_ =? 0); [in_values|].
  destruct (_ =? 1); [in_values|].
  destruct (_ <=? 3); in_values.
Qed.

Lemma geo_score_range (self : Results.t) :
  In (_calculate_geographic_score self) geo_values.
Proof.
  unfold _calculate_geographic_score. destruct (String.eqb _ _); in_values.
Qed.

(** The average is only taken over a non-empty list, where the divisor
    [len(ages)] is positive: the division never fails. *)
Lemma average_age_defined (ages : list Z) : exists avg, average_age ages = Some avg.
Proof.
  destruct ages as [|a ages]; [now exists (of_int 0)|].
  unfold average_age, int_truediv.
  destruct (Z.eqb_spec (Z.of_nat (List.length (a :: ages))) 0) as [E|_].
  - cbn [List.length] in E. lia.
  - eauto.
Qed.

Lemma age_score_range (self : Results.t) :
  exists age_score,
    _calculate_account_age_score self = Some age_score /\ In age_score age_values.
Proof.
  unfold _calculate_account_age_score.
  destruct (get _ _) as [|acc accounts]; [eexists; split; [reflexivity|in_values]|].
  destruct (average_age_defined (map age_for_average (acc :: accounts))) as [avg ->].
  eexists; split; [reflexivity|].
  destruct (flt avg (of_int 7)); [in_values|].
  destruct (flt avg (of_int 30)); [in_values|].
  destruct (flt avg (of_int 90)); [in_values|].
  destruct (flt avg (of_int 180)); in_values.
Qed.

Lemma forallb5_sound {A : Type} (f : A -> A -> A -> A -> A -> bool)
  (l1 l2 l3 l4 l5 : list A) :
  forallb5 f l1 l2 l3 l4 l5 = true ->
  forall a b c d e, In a l1 -> In b l2 -> In c l3 -> In d l4 -> In e l5 ->
    f a b c d e = true.
Proof.
  unfold forallb5. intros H a b c d e Ha Hb Hc Hd He.
  rewrite forallb_forall in H. specialize (H a Ha). cbv beta in H.
  rewrite forallb_forall in H. specialize (H b Hb). cbv beta in H.
  rewrite forallb_forall in H. specialize (H c Hc). cbv beta in H.
  rewrite forallb_forall in H. specialize (H d Hd). cbv beta in H.
  rewrite forallb_forall in H. exact (H e He).
Qed.

Lemma agrees_in_range (a b c d e : float) :
  In a social_values -> In b spam_values -> In c fraud_values ->
  In d age_values -> In e geo_values -> agrees a b c d e = true.
Proof.
  refine (forallb5_sound agrees social_values spam_values fraud_values
            age_values geo_values _ a b c d e).
  vm_compute. reflexivity.
Qed.

End SubScores.

(** ** The composite score *)

Section Composite.
Import RiskScorer Ranges.

Lemma agrees_spec (a b c d e : float) :
  agrees a b c d e = true ->
  risk_score_of a b c d e = Q2F (ScoringSpec.composite (map F2Q [a; b; c; d; e])) /\
  fle (of_int 0) (risk_score_of a b c d e) = true /\
  fle (risk_score_of a b c d e) (of_int 100) = true.
Proof.
  unfold agrees. cbv zeta. intros H.
  apply andb_prop in H as [H Hhi].
  apply andb_prop in H as [Heq Hlo].
  apply float_eqb_eq in Heq. auto.
Qed.

Lemma calculate_unfold (self : Results.t) (age_score : float) :
  _calculate_account_age_score self = Some age_score ->
  calculate self =
    Some (score_and_level
            (weighted_total (_calculate_social_media_score self)
               (_calculate_spam_score self) (_calculate_fraud_score self)
               age_score (_calculate_geographic_score self))).
Proof. unfold calculate. intros ->. reflexivity. Qed.

Lemma calculate_score (self : Results.t) (age_score score : float) (l : risk_level) :
  _calculate_account_age_score self = Some age_score ->
  calculate self = Some (score, l) ->
  score = risk_score_of (_calculate_social_media_score self) (_calculate_spam_score self)
            (_calculate_fraud_score self) age_score (_calculate_geographic_score self).
Proof.
  intros Hage Hc. rewrite (calculate_unfold _ _ Hage) in Hc.
  unfold risk_score_of.
  replace (score_and_level _) with (score, l) by congruence.
  reflexivity.
Qed.




End Composite.

(** ** Missing evidence *)

Section MissingEvidence.
Import RiskScorer Ranges.





(** C10.  A found account without [account_age_days] is given age 0 by
    the account-age sub-scorer and age 999 by the recent-account filter of
    the social-media sub-scorer: it is never counted as recent, although
    an account of the age the average uses would be; alone in the
    payload it yields account-age sub-score 90 and adds nothing to the
    recent-accounts tier. *)
Theorem missing_age_defaults_disagree (acc : account) :
  account_age_days acc = None ->
  age_for_average acc = 0 /\
  age_for_recent acc = 999 /\
  is_recent acc = false /\
  is_recent {| account_age_days := Some (age_for_average acc) |} = true /\
  (forall accounts, ~ In acc (filter is_recent accounts)) /\
  (forall accounts, In acc accounts -> In 0 (map age_for_average accounts)) /\
  (forall self sd,
     Results.social_media_presence self = Some sd ->
     Social.accounts_found sd = Some [acc] ->
     _calculate_account_age_score self = Some (of_int 90) /\
     filter is_recent [acc] = [] /\
     _calculate_social_media_score self = of_int 0).
Proof.
  intros Hnone.
  assert (Havg : age_for_average acc = 0) by (unfold age_for_average; now rewrite Hnone).
  assert (Hrec : is_recent acc = false)
    by (unfold is_recent, age_for_recent; now rewrite Hnone).
  split; [exact Havg|].
  split; [unfold age_for_recent; now rewrite Hnone|].
  split; [exact Hrec|].
  split; [rewrite Havg; reflexivity|].
  split.
  { intros accounts Hin. apply filter_In in Hin as [_ Hin]. congruence. }
  split.
  { intros accounts Hin. rewrite <- Havg. now apply in_map. }
  intros self sd Hsd Hacc.
  assert (Hf : filter is_recent [acc] = []) by (simpl; now rewrite Hrec).
  split; [|split; [exact Hf|]].
  - unfold _calculate_account_age_score, social_data. rewrite Hsd. simpl get.
    rewrite Hacc. simpl. rewrite Havg. vm_compute. reflexivity.
  - unfold _calculate_social_media_score, social_data. rewrite Hsd. simpl get.
    rewrite Hacc. simpl get. cbv beta zeta. rewrite Hf.
    destruct (truthy _); vm_compute; reflexivity.
Qed.

Lemma missing_age_defaults_disagree_witness :
  age_for_average {| account_age_days := None |} = 0 /\
  age_for_recent {| account_age_days := None |} = 999 /\
  _calculate_account_age_score
    (Results.set_social_media_presence
       (Social.Build_t (Some true) (Some [{| account_age_days := None |}]) None None)
       (Results.init "+14158586273")) = Some (of_int 90) /\
  _calculate_social_media_score
    (Results.set_social_media_presence
       (Social.Build_t (Some true) (Some [{| account_age_days := None |}]) None None)
       (Results.init "+14158586273")) = of_int 0.
Proof.
  pose proof (missing_age_defaults_disagree {| account_age_days := None |} eq_refl)
    as (H0 & H999 & _ & _ & _ & _ & Hone).
  destruct (Hone (Results.set_social_media_presence
                    (Social.Build_t (Some true) (Some [{| account_age_days := None |}])
                       None None)
                    (Results.init "+14158586273"))
                 _ eq_refl eq_refl) as (Hage & _ & Hsoc).
  exact (conj H0 (conj H999 (conj Hage Hsoc))).
Defined.

End MissingEvidence.

(** ** The contribution of a factor *)

Section Contribution.
Import RiskScorer.

Lemma contribution_formula (self : Results.t) (f : Factor.t) :
  get_factor_contribution self f =
    py_round (fmul (of_int (get (dict_get severity_scores
                                   (get (Factor.severity f) "MEDIUM")) 50))
                   (get (Factor.weight f) (of_int 1)))
             2.
Proof. reflexivity. Qed.

Lemma factor_contributions_permutation (self self' : Results.t) :
  Permutation (Results.risk_factors self) (Results.risk_factors self') ->
  Permutation (map snd (factor_contributions self))
              (map snd (factor_contributions self')).
Proof.
  intros HP. unfold factor_contributions. rewrite !map_map. cbn [snd].
  induction HP as [|x l l' HP IH|x y l|l l' l'' HP1 IH1 HP2 IH2]; simpl.
  - constructor.
  - constructor. exact IH.
  - apply perm_swap.
  - eapply perm_trans; eassumption.
Qed.

(** C4.  The contribution of a factor depends on its severity and weight
    only: it is the severity base score (CRITICAL 100, HIGH 80, MEDIUM 50,
    LOW 25) times the weight, rounded to 2 decimals, whatever working
    result the scorer holds (other factors, their order, the composite
    score); reordering the factors reorders the contributions. *)
Theorem factor_contribution_pure :
  (forall (self self' : Results.t) (f f' : Factor.t),
     Factor.severity f = Factor.severity f' ->
     Factor.weight f = Factor.weight f' ->
     get_factor_contribution self f = get_factor_contribution self' f') /\
  (forall (self : Results.t) (f : Factor.t) (w : float),
     Factor.weight f = Some w ->
     (Factor.severity f = Some "CRITICAL" ->
        get_factor_contribution self f = py_round (fmul (of_int 100) w) 2) /\
     (Factor.severity f = Some "HIGH" ->
        get_factor_contribution self f = py_round (fmul (of_int 80) w) 2) /\
     (Factor.severity f = Some "MEDIUM" ->
        get_factor_contribution self f = py_round (fmul (of_int 50) w) 2) /\
     (Factor.severity f = Some "LOW" ->
        get_factor_contribution self f = py_round (fmul (of_int 25) w) 2)) /\
  (forall (self : Results.t) (f : Factor.t) (score : float) (level : string),
     get_factor_contribution
       (Results.set_risk_level level (Results.set_risk_score score self)) f
     = get_factor_contribution self f) /\
  (forall self self' : Results.t,
     Permutation (Results.risk_factors self) (Results.risk_factors self') ->
     Permutation (map snd (factor_contributions self))
                 (map snd (factor_contributions self'))) /\
  (forall self : Results.t, ContributionSpec.agrees_on_pipeline_weights self = true).
Proof.
  split.
  { intros self self' f f' Hs Hw. rewrite !contribution_formula. now rewrite Hs, Hw. }
  split.
  { intros self f w Hw. rewrite contribution_formula, Hw.
    repeat split; intros ->; reflexivity. }
  split; [reflexivity|].
  split; [exact factor_contributions_permutation|].
  intros self. vm_compute. reflexivity.
Qed.

End Contribution.

(** ** The pipeline, step by step *)

Section Steps.
Import PhoneAnalyzer Run.
Variable env : providers.

(** Each step keeps the number under analysis. *)
Lemma steps_keep_phone_number (self : t) :
  phone_number (_get_basic_info env self) = phone_number self /\
  phone_number (_get_rich_metadata env self) = phone_number self /\
  phone_number (_check_social_media env self) = phone_number self /\
  phone_number (_check_spam_databases env self) = phone_number self /\
  phone_number (_check_fraud_forums env self) = phone_number self /\
  phone_number (_check_messaging_apps env self) = phone_number self.
Proof.
  open_steps. repeat split; cbn [phone_number]; break_step; reflexivity.
Qed.



End Steps.

Section Frames.
Import PhoneAnalyzer Run.
Variable env : providers.



(** Steps 3 to 6 leave the rich metadata as it is. *)
Lemma later_steps_keep_rich_metadata (self : t) :
  Results.rich_metadata (results (_check_social_media env self))
  = Results.rich_metadata (results self) /\
  Results.rich_metadata (results (_check_spam_databases env self))
  = Results.rich_metadata (results self) /\
  Results.rich_metadata (results (_check_fraud_forums env self))
  = Results.rich_metadata (results self) /\
  Results.rich_metadata (results (_check_messaging_apps env self))
  = Results.rich_metadata (results self).
Proof.
  open_steps. repeat split; results_fields; break_step; reflexivity.
Qed.

(** Risk factors are only ever appended. *)
Lemma steps_append_factors (self : t) :
  let factors s := Results.risk_factors (results s) in
  (exists more, factors (_get_basic_info env self) = (factors self ++ more)%list) /\
  (exists more, factors (_get_rich_metadata env self) = (factors self ++ more)%list) /\
  (exists more, factors (_check_social_media env self) = (factors self ++ more)%list) /\
  (exists more, factors (_check_spam_databases env self) = (factors self ++ more)%list) /\
  (exists more, factors (_check_fraud_forums env self) = (factors self ++ more)%list) /\
  (exists more, factors (_check_messaging_apps env self) = (factors self ++ more)%list).
Proof.
  cbv zeta. open_steps.
  repeat split; results_fields; break_step; results_fields;
    rewrite <- ?app_assoc;
    solve [eexists; reflexivity | exists []; now rewrite app_nil_r].
Qed.




End Frames.

(** ** Steps 1 to 6 together *)

Section Gather.
Import PhoneAnalyzer Run.
Variable env : providers.

(** The states after steps 1 to 5 of [gather], all on the same number. *)
Lemma gather_phone_numbers (self : t) :
  let s1 := _get_basic_info env self in
  let s2 := _get_rich_metadata env s1 in
  let s3 := _check_social_media env s2 in
  let s4 := _check_spam_databases env s3 in
  let s5 := _check_fraud_forums env s4 in
  phone_number s1 = phone_number self /\ phone_number s2 = phone_number self /\
  phone_number s3 = phone_number self /\ phone_number s4 = phone_number self /\
  phone_number s5 = phone_number self.
Proof.
  cbv zeta.
  pose proof (steps_keep_phone_number env) as K.
  repeat split;
    repeat match goal with
      | |- phone_number (?step env ?s) = _ =>
          first [ rewrite (proj1 (K s))
                | rewrite (proj1 (proj2 (K s)))
                | rewrite (proj1 (proj2 (proj2 (K s))))
                | rewrite (proj1 (proj2 (proj2 (proj2 (K s)))))
                | rewrite (proj1 (proj2 (proj2 (proj2 (proj2 (K s)))))) ]
      end; reflexivity.
Qed.






End Gather.

(** ** The terminal step *)

Section Scoring.
Import RiskScorer Ranges.

(** [calculate] returns a score between 0 and 100 on every working result. *)
Lemma calculate_returns_in_range (self : Results.t) :
  exists score level,
    calculate self = Some (score, level) /\
    fle (of_int 0) score = true /\ fle score (of_int 100) = true.
Proof.
  destruct (age_score_range self) as (age_score & Hage & Hin).
  destruct (agrees_spec _ _ _ _ _
              (agrees_in_range _ _ _ _ _ (social_score_range self)
                 (spam_score_range self) (fraud_score_range self) Hin
                 (geo_score_range self))) as (_ & Hlo & Hhi).
  destruct (calculate self) as [[score level]|] eqn:Hc.
  2:{ rewrite (calculate_unfold _ _ Hage) in Hc. discriminate. }
  exists score, level. rewrite (calculate_score _ _ _ _ Hage Hc). auto.
Qed.

Lemma level_never_critical (s : float) : _determine_risk_level s <> CRITICAL.
Proof.
  unfold _determine_risk_level.
  destruct (fge s (of_int 70)), (fge s (of_int 40)), (fge s (of_int 20));
    discriminate.
Qed.

Lemma calculate_level_not_critical (self : Results.t) (score : float) (level : risk_level) :
  calculate self = Some (score, level) -> level <> CRITICAL.
Proof.
  unfold calculate. destruct (_calculate_account_age_score self); [|discriminate].
  unfold score_and_level. cbv zeta. intros H.
  replace level with
    (_determine_risk_level
       (pymin (of_int 100)
          (pymax (of_int 0)
             (weighted_total (_calculate_social_media_score self)
                (_calculate_spam_score self) (_calculate_fraud_score self) f
                (_calculate_geographic_score self))))) by congruence.
  apply level_never_critical.
Qed.

End Scoring.

Section Analyze.
Import PhoneAnalyzer Run.
Variable env : providers.

(** The terminal step always returns: the run ends with a score in
    [0, 100] and one of the four levels. *)
Lemma analyze_returns (self : t) :
  exists score level,
    RiskScorer.calculate (results (gather env self)) = Some (score, level) /\
    fle (of_int 0) score = true /\ fle score (of_int 100) = true /\
    level <> RiskScorer.CRITICAL /\
    analyze env self
    = (Returned (PhoneAnalyzer.store_risk score level (results (gather env self))),
       calls (gather env self)).
Proof.
  destruct (calculate_returns_in_range (results (gather env self)))
    as (score & level & Hc & Hlo & Hhi).
  exists score, level.
  split; [exact Hc|]. split; [exact Hlo|]. split; [exact Hhi|].
  split; [exact (calculate_level_not_critical _ _ _ Hc)|].
  unfold analyze, _calculate_risk. cbv zeta. rewrite Hc. reflexivity.
Qed.

(** What the terminal step changes: the score, the level, and the
    contribution of each factor. *)
Lemma scored_fields (score : float) (level : RiskScorer.risk_level) (r : Results.t) :
  Results.risk_score (PhoneAnalyzer.store_risk score level r) = Some score /\
  Results.risk_level (PhoneAnalyzer.store_risk score level r) = Some (RiskScorer.level_name level) /\
  Results.phone_number (PhoneAnalyzer.store_risk score level r) = Results.phone_number r /\
  Results.data_sources_used (PhoneAnalyzer.store_risk score level r) = Results.data_sources_used r /\
  identity (PhoneAnalyzer.store_risk score level r) = identity r /\
  spam_entries (PhoneAnalyzer.store_risk score level r) = spam_entries r /\
  Results.rich_metadata (PhoneAnalyzer.store_risk score level r) = Results.rich_metadata r /\
  Results.fraud_mentions_count (PhoneAnalyzer.store_risk score level r)
  = Results.fraud_mentions_count r /\
  (forall f, In f (Results.risk_factors r) ->
     exists f', In f' (Results.risk_factors (PhoneAnalyzer.store_risk score level r)) /\
                Factor.category f' = Factor.category f /\
                Factor.factor_type f' = Factor.factor_type f /\
                Factor.severity f' = Factor.severity f /\
                Factor.weight f' = Factor.weight f).
Proof.
  unfold store_risk. cbv zeta.
  repeat split; try reflexivity.
  intros f Hin. results_fields.
  eexists. split; [apply in_map; exact Hin|]. repeat split.
Qed.

End Analyze.

(** ** The sources listed *)

Section Sources.
Import PhoneAnalyzer Run.



End Sources.

(** ** A failing spam provider *)

Section FailureIsolation.
Import PhoneAnalyzer Run.
Variable env : providers.



End FailureIsolation.

Section FailureIsolationWitness.
Import PhoneAnalyzer Run.


End FailureIsolationWitness.

(** ** The rich-metadata merge *)

Section Merge.
Import PhoneAnalyzer Run.
Variable env : providers.


End Merge.

Section MergeRun.
Import PhoneAnalyzer Run.
Variable env : providers.

Lemma gather_keeps_rich_step (self : t) :
  Results.rich_metadata (results (gather env self))
  = Results.rich_metadata
      (results (_get_rich_metadata env (_get_basic_info env self))) /\
  exists more,
    Results.risk_factors (results (gather env self))
    = (Results.risk_factors
         (results (_get_rich_metadata env (_get_basic_info env self))) ++ more)%list.
Proof.
  unfold gather. cbv zeta.
  set (s2 := _get_rich_metadata env (_get_basic_info env self)).
  set (s3 := _check_social_media env s2).
  set (s4 := _check_spam_databases env s3).
  set (s5 := _check_fraud_forums env s4).
  split.
  - destruct (later_steps_keep_rich_metadata env s5) as (_ & _ & _ & ->). subst s5.
    destruct (later_steps_keep_rich_metadata env s4) as (_ & _ & -> & _). subst s4.
    destruct (later_steps_keep_rich_metadata env s3) as (_ & -> & _ & _). subst s3.
    destruct (later_steps_keep_rich_metadata env s2) as (-> & _ & _ & _).
    reflexivity.
  - pose proof (steps_append_factors env) as A. cbv zeta in A.
    destruct (A s5) as (_ & _ & _ & _ & _ & m6 & ->). subst s5.
    destruct (A s4) as (_ & _ & _ & _ & (m5 & ->) & _). subst s4.
    destruct (A s3) as (_ & _ & _ & (m4 & ->) & _ & _). subst s3.
    destruct (A s2) as (_ & _ & (m3 & ->) & _ & _ & _).
    exists (m3 ++ m4 ++ m5 ++ m6)%list. now rewrite <- !app_assoc.
Qed.


End MergeRun.

Section MergeWitness.
Import PhoneAnalyzer Run.


End MergeWitness.

(** ** The freshness cache *)

Section Cache.
Import Routes.





End Cache.

(** ** Runs of the model *)

Section Runs.
Import PhoneAnalyzer.

(** The literal [0.30] is the double 0x3FD3333333333333. *)
Example weight_literal :
  RiskScorer.weight_social_media_anomalies = S754_finite false 5404319552844595 (-54).
Proof. vm_compute. reflexivity. Qed.

(** [round(2.675, 2) == 2.67], [round(0.125, 2) == 0.12] and
    [round(0.375, 2) == 0.38], as in CPython. *)
Example py_round_examples :
  py_round (decimal 2675 1000) 2 = decimal 267 100 /\
  py_round (decimal 125 1000) 2 = decimal 12 100 /\
  py_round (decimal 375 1000) 2 = decimal 38 100.
Proof. vm_compute. repeat split. Qed.

(** Spam at 25 reports, two fraud mentions, no social evidence, unknown
    location: 100 * 0.25 + 80 * 0.25 + 30 * 0.10 + 20 * 0.10 = 50.0, MEDIUM. *)
Example calculate_example :
  RiskScorer.calculate
    (Results.set_fraud_mentions_count 2
       (Results.set_spam_reports_count 25 (Results.init Deployment.test_number)))
  = Some (of_int 50, RiskScorer.MEDIUM).
Proof. vm_compute. reflexivity. Qed.

(** The unconfigured deployment: seven sources listed, score 3.0, MINIMAL,
    no risk factor. *)
Example unconfigured_run :
  exists res,
    analyze Deployment.unconfigured (new Deployment.test_number false)
    = (Returned res,
       [PhonenumbersLibrary; IPQualityScore; Numverify; SocialMediaScanner;
        SpamDatabaseChecker; FraudForumScanner; TelegramScanner; WhatsAppChecker]) /\
    Results.data_sources_used res
    = ["phonenumbers_library"; "IPQualityScore"; "Numverify"; "social_media_scan";
       "fraud_forum_scan"; "telegram_scan"; "whatsapp_check"] /\
    Results.risk_score res = Some (of_int 3) /\
    Results.risk_level res = Some "MINIMAL" /\
    Results.risk_factors res = [] /\
    Results.location res = Some "San Francisco, CA".
Proof. eexists. vm_compute. repeat split. Qed.

(** The scenario of the design: VOIP and porting factors with
    contributions 50 * 0.15 = 7.5 and 25 * 0.10 = 2.5. *)
Example conflicting_carriers_run :
  exists res,
    fst (analyze Deployment.conflicting_carriers (new Deployment.test_number false))
    = Returned res /\
    map (fun f => (Factor.factor_type f, Factor.severity f, Factor.score_contribution f))
        (Results.risk_factors res)
    = [(Some "voip_number", Some "MEDIUM", Some (decimal 75 10));
       (Some "porting_detected", Some "LOW", Some (decimal 25 10))].
Proof. eexists. vm_compute. repeat split. Qed.

End Runs.

(** ** More on the sub-scorers and the composite *)

Section ScoreFacts.
Import RiskScorer Ranges ScoreChecks.

Lemma level_eqb_eq (a b : risk_level) : level_eqb a b = true -> a = b.
Proof. destruct a, b; simpl; intros H; try reflexivity; discriminate. Qed.

(** The score and the level of [calculate], from the five sub-scores. *)
Lemma calculate_from_subscores (self : Results.t) :
  exists age_score,
    _calculate_account_age_score self = Some age_score /\
    In age_score age_values /\
    calculate self =
      Some (score_and_level
              (weighted_total (_calculate_social_media_score self)
                 (_calculate_spam_score self) (_calculate_fraud_score self)
                 age_score (_calculate_geographic_score self))).
Proof.
  destruct (age_score_range self) as (age_score & Hage & Hin).
  exists age_score. split; [exact Hage|]. split; [exact Hin|].
  exact (calculate_unfold _ _ Hage).
Qed.



Lemma below_61_in_range (a b c d e : float) :
  In a social_values -> In b spam_values -> In c fraud_values ->
  In d age_values -> In e geo_values -> below_61 a b c d e = true.
Proof.
  refine (forallb5_sound below_61 social_values spam_values fraud_values
            age_values geo_values _ a b c d e).
  vm_compute. reflexivity.
Qed.



Lemma below_61_spec (a b c d e : float) :
  below_61 a b c d e = true ->
  exists score level,
    score_and_level (weighted_total (of_int 0) b c d e) = (score, level) /\
    fle score (of_int 61) = true /\ level <> HIGH.
Proof.
  unfold below_61. cbv zeta.
  generalize (score_and_level (weighted_total (of_int 0) b c d e)).
  intros [score level] H. cbn [fst snd] in H.
  apply andb_prop in H as [Hle Hlevel].
  exists score, level. split; [reflexivity|]. split; [exact Hle|].
  intros ->. discriminate.
Qed.

(** X1.  The fraud sub-score by the number of mentions: 0 for none (or a
    missing entry), 50 for one, 80 for two or three, 100 beyond; it never
    decreases as the count grows from 0; a count below zero falls into
    the [<= 3] branch and scores 80. *)
Theorem fraud_score_bands (self self' : Results.t) :
  let n := get (Results.fraud_mentions_count self) 0 in
  let n' := get (Results.fraud_mentions_count self') 0 in
  (Results.fraud_mentions_count self = None ->
   _calculate_fraud_score self = of_int 0) /\
  (n = 0 -> _calculate_fraud_score self = of_int 0) /\
  (n = 1 -> _calculate_fraud_score self = of_int 50) /\
  (2 <= n <= 3 -> _calculate_fraud_score self = of_int 80) /\
  (3 < n -> _calculate_fraud_score self = of_int 100) /\
  (n < 0 -> _calculate_fraud_score self = of_int 80) /\
  (0 <= n <= n' ->
   fle (_calculate_fraud_score self) (_calculate_fraud_score self') = true).
Proof.
  cbv zeta. unfold _calculate_fraud_score.
  set (n := get (Results.fraud_mentions_count self) 0).
  set (n' := get (Results.fraud_mentions_count self') 0).
  split.
  { intros H. subst n. rewrite H. reflexivity. }
  repeat split; intros H;
    repeat match goal with
      | |- context [?a =? ?b] => destruct (Z.eqb_spec a b)
      | |- context [?a <=? ?b] => destruct (Z.leb_spec a b)
      end; try lia; try reflexivity.
Qed.

(** The social-media sub-score under the anomaly flag, by the number
    of accounts found and the number of recent ones. *)
Lemma flagged_social_score (self : Results.t) :
  let accounts := get (Social.accounts_found (social_data self)) [] in
  let found := List.length accounts in
  let recent := List.length (filter is_recent accounts) in
  truthy (Social.anomaly_detected (social_data self)) = true ->
  _calculate_social_media_score self
  = of_int (Z.min 100
              ((if (3 <=? recent)%nat then 80
                else if (2 <=? recent)%nat then 60
                else if (recent =? 1)%nat then 30 else 0)
               + (if (found =? 0)%nat then 20 else 0)
               + (if (5 <? found)%nat then 40 else 0))).
Proof.
  cbv zeta. intros Hflag.
  unfold _calculate_social_media_score. cbv zeta. rewrite Hflag.
  set (accounts := get (Social.accounts_found (social_data self)) []).
  set (recent := List.length (filter is_recent accounts)).
  set (found := List.length accounts).
  destruct (3 <=? recent)%nat, (2 <=? recent)%nat, (recent =? 1)%nat,
    (found =? 0)%nat, (5 <? found)%nat; vm_compute; reflexivity.
Qed.

(** X2.  The social-media sub-score: 0 unless the scan flags an anomaly;
    under the flag, 20 when no account was found, 0 when one to five
    accounts were found and none is recent, and 100 (the cap) exactly
    when more than five accounts were found and at least two are recent;
    it never exceeds 100. *)
Theorem social_media_score_cases (self : Results.t) :
  let social := social_data self in
  let accounts := get (Social.accounts_found social) [] in
  let found := List.length accounts in
  let recent := List.length (filter is_recent accounts) in
  (truthy (Social.anomaly_detected social) = false ->
   _calculate_social_media_score self = of_int 0) /\
  (truthy (Social.anomaly_detected social) = true ->
   (found = 0%nat -> _calculate_social_media_score self = of_int 20) /\
   ((1 <= found <= 5)%nat -> recent = 0%nat ->
    _calculate_social_media_score self = of_int 0) /\
   (_calculate_social_media_score self = of_int 100 <->
    (5 < found)%nat /\ (2 <= recent)%nat)) /\
  fle (_calculate_social_media_score self) (of_int 100) = true.
Proof.
  cbv zeta.
  pose proof (flagged_social_score self) as Hflagged. cbv zeta in Hflagged.
  set (accounts := get (Social.accounts_found (social_data self)) []) in *.
  assert (Hle : (List.length (filter is_recent accounts) <= List.length accounts)%nat)
    by apply filter_length_le.
  set (recent := List.length (filter is_recent accounts)) in *.
  set (found := List.length accounts) in *.
  split; [|split].
  - intros Hflag. unfold _calculate_social_media_score. cbv zeta.
    rewrite Hflag. reflexivity.
  - intros Hflag. rewrite (Hflagged Hflag).
    destruct (Nat.leb_spec 3 recent), (Nat.leb_spec 2 recent),
      (Nat.eqb_spec recent 1), (Nat.eqb_spec found 0), (Nat.ltb_spec 5 found);
      try lia;
      (split; [intros; try lia; reflexivity|]);
      (split; [intros; try lia; reflexivity|]);
      (split; [intros E; try (vm_compute in E; discriminate); lia
              | intros [? ?]; try lia; reflexivity]).
  - destruct (truthy (Social.anomaly_detected (social_data self))) eqn:Hflag.
    + rewrite (Hflagged eq_refl).
      destruct (found =? 0)%nat, (3 <=? recent)%nat, (2 <=? recent)%nat,
        (recent =? 1)%nat, (5 <? found)%nat; vm_compute; reflexivity.
    + unfold _calculate_social_media_score. cbv zeta. rewrite Hflag.
      vm_compute. reflexivity.
Qed.



(** X5.  Without an anomaly flagged by the social-media scan the score is
    at most 61 and the level is never HIGH, however many spam reports and
    fraud mentions there are. *)
Theorem high_needs_social_anomaly (self : Results.t) (score : float)
  (level : risk_level) :
  truthy (Social.anomaly_detected (social_data self)) = false ->
  calculate self = Some (score, level) ->
  fle score (of_int 61) = true /\ level <> HIGH.
Proof.
  intros Hflag Hcalc.
  destruct (calculate_from_subscores self) as (age_score & _ & Hin & Hc).
  assert (Hsocial : _calculate_social_media_score self = of_int 0).
  { unfold _calculate_social_media_score. cbv zeta. rewrite Hflag. reflexivity. }
  destruct (below_61_spec _ _ _ _ _
              (below_61_in_range _ _ _ _ _ (social_score_range self)
                 (spam_score_range self) (fraud_score_range self) Hin
                 (geo_score_range self))) as (score' & level' & E & Hle & Hlevel).
  rewrite Hc, Hsocial, E in Hcalc.
  replace score with score' by congruence.
  replace level with level' by congruence.
  split; [exact Hle | exact Hlevel].
Qed.

Lemma high_needs_social_anomaly_witness :
  fle (of_int 61) (of_int 61) = true /\ MEDIUM <> HIGH.
Proof.
  exact (high_needs_social_anomaly reports_only (of_int 61) MEDIUM
           eq_refl ltac:(vm_compute; reflexivity)).
Defined.

End ScoreFacts.

(** ** The detailed breakdown *)

Section BreakdownFacts.
Import RiskScorer Ranges DetailedBreakdown.



End BreakdownFacts.

(** ** A fact about every run, step by step *)

Section GatherView.
Import PhoneAnalyzer.
Variable env : providers.
Variable V : Type.
Variable view : Results.t -> V.
Variables R1 R2 R3 R4 R5 R6 : string -> V -> V -> Prop.
Hypothesis H1 : forall s,
  R1 (phone_number s) (view (results s)) (view (results (_get_basic_info env s))).
Hypothesis H2 : forall s,
  R2 (phone_number s) (view (results s)) (view (results (_get_rich_metadata env s))).
Hypothesis H3 : forall s,
  R3 (phone_number s) (view (results s)) (view (results (_check_social_media env s))).
Hypothesis H4 : forall s,
  R4 (phone_number s) (view (results s)) (view (results (_check_spam_databases env s))).
Hypothesis H5 : forall s,
  R5 (phone_number s) (view (results s)) (view (results (_check_fraud_forums env s))).
Hypothesis H6 : forall s,
  R6 (phone_number s) (view (results s)) (view (results (_check_messaging_apps env s))).

(** What relates the views before and after each step relates, in a
    chain, the views before and after steps 1 to 6. *)
Lemma gather_chain (self : t) :
  let p := phone_number self in
  exists v1 v2 v3 v4 v5,
    R1 p (view (results self)) v1 /\ R2 p v1 v2 /\ R3 p v2 v3 /\ R4 p v3 v4 /\
    R5 p v4 v5 /\ R6 p v5 (view (results (gather env self))).
Proof.
  cbv zeta. unfold gather. cbv zeta.
  destruct (gather_phone_numbers env self) as (P1 & P2 & P3 & P4 & P5).
  cbv zeta in *.
  set (s1 := _get_basic_info env self) in *.
  set (s2 := _get_rich_metadata env s1) in *.
  set (s3 := _check_social_media env s2) in *.
  set (s4 := _check_spam_databases env s3) in *.
  set (s5 := _check_fraud_forums env s4) in *.
  exists (view (results s1)), (view (results s2)), (view (results s3)),
    (view (results s4)), (view (results s5)).
  repeat split.
  - apply H1.
  - rewrite <- P1. apply H2.
  - rewrite <- P2. apply H3.
  - rewrite <- P3. apply H4.
  - rewrite <- P4. apply H5.
  - rewrite <- P5. apply H6.
Qed.

End GatherView.

Section GatherFunction.
Import PhoneAnalyzer.
Variable env : providers.
Variable V : Type.
Variable view : Results.t -> V.
Variables f1 f2 f3 f4 f5 f6 : string -> V -> V.
Hypothesis H1 : forall s,
  view (results (_get_basic_info env s)) = f1 (phone_number s) (view (results s)).
Hypothesis H2 : forall s,
  view (results (_get_rich_metadata env s)) = f2 (phone_number s) (view (results s)).
Hypothesis H3 : forall s,
  view (results (_check_social_media env s)) = f3 (phone_number s) (view (results s)).
Hypothesis H4 : forall s,
  view (results (_check_spam_databases env s)) = f4 (phone_number s) (view (results s)).
Hypothesis H5 : forall s,
  view (results (_check_fraud_forums env s)) = f5 (phone_number s) (view (results s)).
Hypothesis H6 : forall s,
  view (results (_check_messaging_apps env s)) = f6 (phone_number s) (view (results s)).

(** When each step changes the view by a function of the number, steps
    1 to 6 change it by the composition. *)
Lemma gather_function (self : t) :
  let p := phone_number self in
  view (results (gather env self))
  = f6 p (f5 p (f4 p (f3 p (f2 p (f1 p (view (results self))))))).
Proof.
  cbv zeta.
  destruct (gather_chain env V view
              (fun p v v' => v' = f1 p v) (fun p v v' => v' = f2 p v)
              (fun p v v' => v' = f3 p v) (fun p v v' => v' = f4 p v)
              (fun p v v' => v' = f5 p v) (fun p v v' => v' = f6 p v)
              H1 H2 H3 H4 H5 H6 self)
    as (v1 & v2 & v3 & v4 & v5 & E1 & E2 & E3 & E4 & E5 & E6).
  cbv zeta in *. congruence.
Qed.

End GatherFunction.

(** ** Error annotations *)

Section ErrorAnnotations.
Import PhoneAnalyzer Annotations.
Variable env : providers.



End ErrorAnnotations.

(** ** The factors of a run *)

Section RunFactors.
Import PhoneAnalyzer FactorsListed.
Variable env : providers.

(** What the rich-metadata step reads back from the dict it compiled. *)
Lemma compiled_flags (r : Results.t) (ipqs_data : Ipqs.t) (numverify_data : Numverify.t) :
  let m := estimate_age ipqs_data
             (detect_porting (compile_rich_metadata r ipqs_data numverify_data)) in
  RichMetadata.is_voip (RichMetadata.carrier_details m) = get (Ipqs.VOIP ipqs_data) false /\
  RichMetadata.porting_detected (RichMetadata.carrier_details m)
  = ported ipqs_data numverify_data /\
  RichMetadata.do_not_call (RichMetadata.number_status m)
  = get (Ipqs.do_not_call ipqs_data) false.
Proof.
  cbv zeta. unfold estimate_age, detect_porting, ported. cbv zeta.
  cbn [RichMetadata.carrier_details RichMetadata.number_status
       compile_rich_metadata RichMetadata.current_carrier
       RichMetadata.original_carrier].
  destruct (negb _ && negb _ && negb _);
    cbn [RichMetadata.carrier_details RichMetadata.number_status
         RichMetadata.is_voip RichMetadata.porting_detected RichMetadata.do_not_call];
    repeat split; reflexivity.
Qed.

(** The factor types each step appends. *)
Lemma steps_factor_types (s : t) :
  let p := phone_number s in
  let types x := map Factor.factor_type (Results.risk_factors (results x)) in
  types (_get_basic_info env s) = types s /\
  types (_get_rich_metadata env s) = (types s ++ map Some (rich_types env p))%list /\
  types (_check_social_media env s) = (types s ++ map Some (social_types env p))%list /\
  types (_check_spam_databases env s) = (types s ++ map Some (spam_types env p))%list /\
  types (_check_fraud_forums env s) = (types s ++ map Some (fraud_types env p))%list /\
  types (_check_messaging_apps env s)
  = (types s ++ map Some (messaging_types env p))%list.
Proof.
  cbv zeta.
  unfold rich_types, social_types, spam_types, fraud_types, messaging_types.
  split; [open_steps; read_results; break_step; read_results;
          rewrite ?app_nil_r; reflexivity|].
  split.
  { unfold _get_rich_metadata. cbv zeta.
    cbv beta delta [called with_results]. cbn [phone_number results].
    destruct (check_fraud env (phone_number s)) as [ipqs_data|e];
      [|read_results; now rewrite app_nil_r].
    destruct (validate env (phone_number s)) as [numverify_data|e];
      [|read_results; now rewrite app_nil_r].
    cbn [results]. unfold record_rich_metadata. cbv zeta.
    destruct (compiled_flags (results s) ipqs_data numverify_data)
      as (-> & -> & ->).
    cbv beta delta [extend_sources append_factor].
    destruct (get (Ipqs.VOIP ipqs_data) false), (ported ipqs_data numverify_data),
      (get (Ipqs.do_not_call ipqs_data) false);
      read_results; rewrite ?map_app, <- ?app_assoc, ?app_nil_r; reflexivity. }
  repeat split; open_steps; read_results; break_step; read_results;
    rewrite ?map_app, ?app_nil_r; reflexivity.
Qed.

Lemma gather_factor_types (self : t) :
  map Factor.factor_type (Results.risk_factors (results (gather env self)))
  = (map Factor.factor_type (Results.risk_factors (results self))
     ++ map Some (types_listed env (phone_number self)))%list.
Proof.
  pose proof steps_factor_types as S. cbv zeta in S.
  rewrite (gather_function env _
             (fun r => map Factor.factor_type (Results.risk_factors r))
             (fun _ l => l)
             (fun p l => (l ++ map Some (rich_types env p))%list)
             (fun p l => (l ++ map Some (social_types env p))%list)
             (fun p l => (l ++ map Some (spam_types env p))%list)
             (fun p l => (l ++ map Some (fraud_types env p))%list)
             (fun p l => (l ++ map Some (messaging_types env p))%list)
             (fun s => proj1 (S s))
             (fun s => proj1 (proj2 (S s)))
             (fun s => proj1 (proj2 (proj2 (S s))))
             (fun s => proj1 (proj2 (proj2 (proj2 (S s)))))
             (fun s => proj1 (proj2 (proj2 (proj2 (proj2 (S s))))))
             (fun s => proj2 (proj2 (proj2 (proj2 (proj2 (S s))))))).
  cbv zeta. unfold types_listed. rewrite !map_app, <- !app_assoc. reflexivity.
Qed.

(** The terminal step keeps the factors and their types, and gives each
    its contribution. *)
Lemma store_risk_factors (score : float) (level : RiskScorer.risk_level) (r : Results.t) :
  Results.risk_factors (store_risk score level r)
  = map (fun f =>
           Factor.set_score_contribution
             (RiskScorer.get_factor_contribution
                (Results.set_risk_level (RiskScorer.level_name level)
                   (Results.set_risk_score score r)) f) f)
        (Results.risk_factors r).
Proof. reflexivity. Qed.



End RunFactors.

(** ** Contributions *)

Section Contributions.
Import PhoneAnalyzer FactorsListed.
Variable env : providers.






End Contributions.

(** ** The messaging step, half done *)

Section Messaging.
Import PhoneAnalyzer FactorsListed Annotations.
Variable env : providers.




End Messaging.

Section MessagingWitness.
Import PhoneAnalyzer.


End MessagingWitness.

(** ** The geographic category of a run *)

Section Geography.
Import PhoneAnalyzer Run.
Variable env : providers.



End Geography.

(** ** The rich metadata of a run *)

Section RichMetadataFacts.
Import PhoneAnalyzer FactorsListed.
Variable env : providers.

(** The dict the rich-metadata step stores when both lookups return. *)
Lemma rich_step_stores (self : t) (ipqs_data : Ipqs.t) (numverify_data : Numverify.t) :
  check_fraud env (phone_number self) = Returned ipqs_data ->
  validate env (phone_number self) = Returned numverify_data ->
  Results.rich_metadata (results (_get_rich_metadata env self))
  = Some (estimate_age ipqs_data
            (detect_porting
               (compile_rich_metadata (results self) ipqs_data numverify_data))).
Proof.
  intros Hi Hn. unfold _get_rich_metadata. cbv zeta.
  cbv beta delta [called with_results]. cbn [phone_number results].
  rewrite Hi, Hn. cbn [results]. unfold record_rich_metadata. cbv zeta.
  cbv beta delta [extend_sources append_factor].
  repeat match goal with
    | |- context [if ?b then _ else _] => destruct b
    end; reflexivity.
Qed.

Lemma run_rich_metadata (phone : string) (deep : bool)
  (ipqs_data : Ipqs.t) (numverify_data : Numverify.t) :
  check_fraud env phone = Returned ipqs_data ->
  validate env phone = Returned numverify_data ->
  exists res,
    fst (analyze env (new phone deep)) = Returned res /\
    map Factor.factor_type (Results.risk_factors res)
    = map Some (types_listed env phone) /\
    Results.rich_metadata res
    = Some (estimate_age ipqs_data
              (detect_porting
                 (compile_rich_metadata
                    (results (_get_basic_info env (new phone deep)))
                    ipqs_data numverify_data))).
Proof.
  intros Hi Hn.
  destruct (analyze_returns env (new phone deep))
    as (score & level & _ & _ & _ & _ & Hrun).
  eexists. split; [rewrite Hrun; reflexivity|].
  split.
  { rewrite store_risk_factors, map_map.
    cbn [Factor.factor_type Factor.set_score_contribution].
    change (map (fun x : Factor.t => Factor.factor_type x)) with (map Factor.factor_type).
    rewrite gather_factor_types. reflexivity. }
  destruct (scored_fields score level (results (gather env (new phone deep))))
    as (_ & _ & _ & _ & _ & _ & -> & _).
  rewrite (proj1 (gather_keeps_rich_step env (new phone deep))).
  apply rich_step_stores;
    rewrite (proj1 (steps_keep_phone_number env (new phone deep))); assumption.
Qed.




End RichMetadataFacts.

Section RichMetadataWitnesses.
Import PhoneAnalyzer.



End RichMetadataWitnesses.

(** ** The prepaid status *)

Section Prepaid.
Import PhoneAnalyzer.

(** X14.  The prepaid status of the rich metadata is the fraud-score
    provider's answer, except that a [False] is turned into unknown for a
    mobile or wireless line (in any letter case) of India, the
    Philippines, Indonesia or Bangladesh; a [True] is always kept, and an
    unknown stays unknown. *)
Theorem prepaid_status_cases (ipqs_data : Ipqs.t) :
  let line := lower (get (Ipqs.line_type ipqs_data) "") in
  let mobile := contains "mobile" line || contains "wireless" line in
  let market := among (Ipqs.country ipqs_data) ["IN"; "PH"; "ID"; "BD"] in
  (Ipqs.prepaid ipqs_data = Some true -> prepaid_status ipqs_data = Some true) /\
  (Ipqs.prepaid ipqs_data = None -> prepaid_status ipqs_data = None) /\
  (Ipqs.prepaid ipqs_data = Some false ->
   prepaid_status ipqs_data = if market && mobile then None else Some false) /\
  (forall b, prepaid_status ipqs_data = Some b -> Ipqs.prepaid ipqs_data = Some b) /\
  prepaid_status
    (Ipqs.Build_t None None None None (Some false) None None None
                  (Some "Wireless") (Some "IN") None None None None) = None /\
  prepaid_status
    (Ipqs.Build_t None None None None (Some false) None None None
                  (Some "Wireless") (Some "US") None None None None) = Some false.
Proof.
  cbv zeta. unfold prepaid_status. cbv zeta.
  destruct (Ipqs.prepaid ipqs_data) as [[|]|];
    destruct (among (Ipqs.country ipqs_data) ["IN"; "PH"; "ID"; "BD"]);
    destruct (contains "mobile" (lower (get (Ipqs.line_type ipqs_data) ""))
              || contains "wireless" (lower (get (Ipqs.line_type ipqs_data) "")));
    cbn [andb];
    repeat split; try discriminate; try reflexivity;
    intros b H; try discriminate; exact H.
Qed.

End Prepaid.

(** ** What the scorer reads from a run *)

Section ScorerInputs.
Import PhoneAnalyzer RealChecks.
Variable env : providers.

Lemma gather_scorer_inputs (phone : string) (deep : bool) :
  scorer_inputs (results (gather env (new phone deep)))
  = (match social_scan env phone with
     | Returned social_results => Some social_results
     | Raised _ => None
     end,
     match spam_check env phone with
     | Returned spam_results => Some (get (Spam.total_reports spam_results) 0)
     | Raised _ => None
     end,
     match fraud_scan env phone with
     | Returned fraud_results => Some (get (Fraud.mentions_count fraud_results) 0)
     | Raised _ => None
     end,
     match phonenumbers.parse (library env) phone with
     | Returned parsed =>
         Some (or_else (phonenumbers.description_for_number (library env) parsed)
                       "Unknown")
     | Raised _ => None
     end).
Proof.
  etransitivity.
  apply (gather_function env _ scorer_inputs
           (fun p '(a, b, c, d) =>
              (a, b, c,
               match phonenumbers.parse (library env) p with
               | Returned parsed =>
                   Some (or_else (phonenumbers.description_for_number (library env)
                                    parsed) "Unknown")
               | Raised _ => d
               end))
           (fun _ v => v)
           (fun p '(a, b, c, d) =>
              (match social_scan env p with
               | Returned social_results => Some social_results
               | Raised _ => a
               end, b, c, d))
           (fun p '(a, b, c, d) =>
              (a,
               match spam_check env p with
               | Returned spam_results => Some (get (Spam.total_reports spam_results) 0)
               | Raised _ => b
               end, c, d))
           (fun p '(a, b, c, d) =>
              (a, b,
               match fraud_scan env p with
               | Returned fraud_results =>
                   Some (get (Fraud.mentions_count fraud_results) 0)
               | Raised _ => c
               end, d))
           (fun _ v => v)).
  7:{ cbn [phone_number new results scorer_inputs Results.init
           Results.social_media_presence Results.spam_reports_count
           Results.fraud_mentions_count Results.location].
      destruct (phonenumbers.parse _ _), (social_scan env _), (spam_check env _),
        (fraud_scan env _); reflexivity. }
  all: intros s; unfold scorer_inputs; open_steps; read_results;
    break_step; reflexivity.
Qed.

End ScorerInputs.

(** ** The spam and fraud scanners *)

Section Scanners.
Import RealChecks.

Lemma tens_of_api_scores (spam_score : Z) :
  0 < spam_score <= 100 -> tens spam_score = true.
Proof.
  intros H.
  assert (Hall : forallb tens api_scores = true) by (vm_compute; reflexivity).
  rewrite forallb_forall in Hall. apply Hall.
  unfold api_scores. apply in_map_iff. exists (Z.to_nat spam_score).
  split; [lia|]. apply in_seq. lia.
Qed.

(** The fraud-score client answers with an error and nothing else but
    [fraud_score = 0], or with every entry and no error. *)
Lemma check_fraud_answers (key : string)
  (request : string -> option IPQualityScoreChecker.api_response) (phone : string) :
  (exists reason,
     IPQualityScoreChecker.check_fraud key request phone
     = IPQualityScoreChecker.failed reason) \/
  (exists data,
     nonempty key = true /\ request phone = Some data /\
     truthy (IPQualityScoreChecker.success data) = true /\
     Ipqs.error (IPQualityScoreChecker.check_fraud key request phone) = None /\
     Ipqs.spam_score (IPQualityScoreChecker.check_fraud key request phone)
     = Some (get (IPQualityScoreChecker.spam_score data) 0) /\
     Ipqs.recent_abuse (IPQualityScoreChecker.check_fraud key request phone)
     = Some (get (IPQualityScoreChecker.recent_abuse data) false) /\
     Ipqs.risky (IPQualityScoreChecker.check_fraud key request phone)
     = Some (get (IPQualityScoreChecker.risky data) false) /\
     Ipqs.fraud_score (IPQualityScoreChecker.check_fraud key request phone)
     = Some (get (IPQualityScoreChecker.fraud_score data) 0)).
Proof.
  unfold IPQualityScoreChecker.check_fraud.
  destruct (nonempty key); cbn [negb]; [|left; eauto].
  destruct (request phone) as [data|]; [|left; eauto].
  destruct (truthy (IPQualityScoreChecker.success data)) eqn:Hs; [|left; eauto].
  right. exists data. repeat split; try reflexivity; exact Hs.
Qed.

(** X28.  Each API client answers all or nothing.  [validate] returns
    [valid = True] with all seven data entries and no error, and only
    when a key is configured and the API's answer is marked valid; in
    every other case it returns [valid = False] with an error text and no
    data.  [check_fraud] returns every entry and no error, or an error
    text with [fraud_score = 0] and nothing else.  Without a key neither
    consults the network. *)
Theorem clients_answer_all_or_error (key phone : string)
  (numverify_request : string -> option NumverifyValidator.api_response)
  (ipqs_request : string -> option IPQualityScoreChecker.api_response) :
  let v := NumverifyValidator.validate key numverify_request phone in
  let f := IPQualityScoreChecker.check_fraud key ipqs_request phone in
  ((Numverify.valid v = Some true /\ Numverify.error v = None /\
    (exists number local_format country_code country_name location carrier line_type,
       v = Numverify.Build_t None (Some true) (Some number) (Some local_format)
             (Some country_code) (Some country_name) (Some location)
             (Some carrier) (Some line_type)) /\
    nonempty key = true /\
    exists data, numverify_request phone = Some data /\
                 NumverifyValidator.valid data = Some true) \/
   (exists reason,
      v = Numverify.Build_t (Some reason) (Some false)
            None None None None None None None)) /\
  ((Ipqs.error f = None /\
    SourcesClaim.present (Ipqs.fraud_score f) && SourcesClaim.present (Ipqs.recent_abuse f)
    && SourcesClaim.present (Ipqs.VOIP f) && SourcesClaim.present (Ipqs.prepaid f)
    && SourcesClaim.present (Ipqs.risky f) && SourcesClaim.present (Ipqs.active f)
    && SourcesClaim.present (Ipqs.carrier f) && SourcesClaim.present (Ipqs.line_type f)
    && SourcesClaim.present (Ipqs.country f) && SourcesClaim.present (Ipqs.city f)
    && SourcesClaim.present (Ipqs.region f) && SourcesClaim.present (Ipqs.spam_score f)
    && SourcesClaim.present (Ipqs.do_not_call f) = true /\
    nonempty key = true /\
    exists data, ipqs_request phone = Some data /\
                 IPQualityScoreChecker.success data = Some true) \/
   (exists reason, f = IPQualityScoreChecker.failed reason)) /\
  (nonempty key = false ->
   v = Numverify.Build_t (Some "NUMVERIFY_API_KEY not configured") (Some false)
         None None None None None None None /\
   f = IPQualityScoreChecker.failed "IPQUALITYSCORE_API_KEY not configured").
Proof.
  cbv zeta.
  unfold NumverifyValidator.validate, IPQualityScoreChecker.check_fraud.
  destruct (nonempty key); cbn [negb].
  2:{ split; [right; eauto|]. split; [right; eauto|]. intros _. split; reflexivity. }
  split; [|split; [|discriminate]].
  - destruct (numverify_request phone) as [data|]; [|right; eauto].
    destruct (NumverifyValidator.valid data) as [[|]|] eqn:Hvalid;
      cbn [truthy get]; [|right; eauto ..].
    left. split; [reflexivity|]. split; [reflexivity|].
    split; [do 7 eexists; reflexivity|].
    split; [reflexivity|]. exists data. split; [reflexivity | exact Hvalid].
  - destruct (ipqs_request phone) as [data|]; [|right; eauto].
    destruct (IPQualityScoreChecker.success data) as [[|]|] eqn:Hsuccess;
      cbn [truthy get]; [|right; eauto ..].
    left. split; [reflexivity|]. split; [reflexivity|].
    split; [reflexivity|]. exists data. split; [reflexivity | exact Hsuccess].
Qed.

(** X15.  The spam scanner asks the fraud-score API only when a key is
    configured, and reports only on an answer without error whose spam
    score is positive: otherwise it returns no report, no detail and no
    source.  For a spam score from 1 to 100 the report count is the
    integer quotient of the score by 10, hence at most 10, and
    IPQualityScore is the one source listed, even when the count is 0
    (scores 1 to 9). *)
Theorem spam_scanner_counts_tens (key : string)
  (request : string -> option IPQualityScoreChecker.api_response)
  (today : string) (swapped : bool) (phone : string) :
  let fraud_data := IPQualityScoreChecker.check_fraud key request phone in
  let spam_score := get (Ipqs.spam_score fraud_data) 0 in
  let nothing := Spam.Build_t (Some 0) (Some []) (Some []) (Some []) in
  (nonempty key = false ->
   SpamDatabaseChecker.check key request today swapped phone = Returned nothing) /\
  (Ipqs.error fraud_data <> None -> Ipqs.error fraud_data <> Some "" ->
   SpamDatabaseChecker.check key request today swapped phone = Returned nothing) /\
  (spam_score <= 0 ->
   SpamDatabaseChecker.check key request today swapped phone = Returned nothing) /\
  (nonempty key = true -> Ipqs.error fraud_data = None -> 0 < spam_score <= 100 ->
   exists spam_results,
     SpamDatabaseChecker.check key request today swapped phone = Returned spam_results /\
     Spam.total_reports spam_results = Some (spam_score / 10) /\
     0 <= spam_score / 10 <= 10 /\
     Spam.sources spam_results = Some ["IPQualityScore"] /\
     Spam.details spam_results
     = Some [SpamDatabaseChecker.detail (spam_score / 10) spam_score today]).
Proof.
  cbv zeta. unfold SpamDatabaseChecker.check. cbv zeta.
  set (fraud_data := IPQualityScoreChecker.check_fraud key request phone).
  split; [intros ->; reflexivity|].
  split.
  { intros Hsome Hnonempty. destruct (nonempty key); [|reflexivity].
    unfold no_error. destruct (Ipqs.error fraud_data) as [[|c m]|];
      [congruence | reflexivity | congruence]. }
  split.
  { intros Hle. destruct (nonempty key); [|reflexivity].
    destruct (no_error fraud_data); [|reflexivity].
    destruct (Z.ltb_spec 0 (get (Ipqs.spam_score fraud_data) 0)); [lia|reflexivity]. }
  intros -> Herr Hrange. unfold no_error. rewrite Herr. cbn [get nonempty negb].
  destruct (Z.ltb_spec 0 (get (Ipqs.spam_score fraud_data) 0)); [|lia].
  pose proof (tens_of_api_scores _ Hrange) as Htens. unfold tens in Htens.
  destruct (int_truediv (get (Ipqs.spam_score fraud_data) 0) 10) as [quotient|];
    [|discriminate].
  destruct (int_of_float quotient) as [total_reports|]; [|discriminate].
  apply Z.eqb_eq in Htens. subst total_reports.
  eexists. split; [reflexivity|].
  cbn [Spam.total_reports Spam.sources Spam.details].
  split; [reflexivity|].
  split; [split; [apply Z.div_pos; lia | apply Z.div_le_upper_bound; lia]|].
  split; reflexivity.
Qed.

Lemma spam_scanner_counts_tens_witness :
  exists spam_results,
    SpamDatabaseChecker.check "key" (fun _ => Some spam_answer) "2024-01-01" false
                              "+14158586273" = Returned spam_results /\
    Spam.total_reports spam_results = Some 8 /\
    Spam.sources spam_results = Some ["IPQualityScore"].
Proof.
  destruct (spam_scanner_counts_tens "key" (fun _ => Some spam_answer) "2024-01-01"
              false "+14158586273") as (_ & _ & _ & H).
  destruct (H eq_refl eq_refl ltac:(vm_compute; split; [reflexivity | discriminate]))
    as (spam_results & Hrun & Htotal & _ & Hsources & _).
  exists spam_results. split; [exact Hrun|]. split; [exact Htotal | exact Hsources].
Defined.

(** The report count of the spam scanner when the API's spam score is at
    most 100. *)
Lemma spam_scanner_total (key : string)
  (request : string -> option IPQualityScoreChecker.api_response)
  (today : string) (swapped : bool) (phone : string) (spam_results : Spam.t) :
  (forall data, request phone = Some data ->
                get (IPQualityScoreChecker.spam_score data) 0 <= 100) ->
  SpamDatabaseChecker.check key request today swapped phone = Returned spam_results ->
  0 <= get (Spam.total_reports spam_results) 0 <= 10.
Proof.
  intros Hbound Hcheck.
  destruct (spam_scanner_counts_tens key request today swapped phone)
    as (Hkey & Herr & Hzero & Hpos).
  cbv zeta in *.
  destruct (nonempty key) eqn:Hk.
  2:{ rewrite (Hkey eq_refl) in Hcheck. injection Hcheck as <-. cbn. lia. }
  destruct (check_fraud_answers key request phone)
    as [[reason Hfailed] | (data & _ & Hreq & _ & Herror & Hscore & _)].
  - rewrite Hzero in Hcheck; [injection Hcheck as <-; cbn; lia|].
    rewrite Hfailed. cbn. lia.
  - destruct (Z.ltb_spec 0 (get (Ipqs.spam_score
                (IPQualityScoreChecker.check_fraud key request phone)) 0)) as [Hp|Hn].
    + destruct (Hpos eq_refl Herror) as (spam_results' & Hrun & Htotal & Hrange & _).
      { split; [exact Hp|]. rewrite Hscore. cbn [get]. apply Hbound. exact Hreq. }
      rewrite Hrun in Hcheck. injection Hcheck as <-. rewrite Htotal. exact Hrange.
    + rewrite (Hzero Hn) in Hcheck. injection Hcheck as <-. cbn. lia.
Qed.

(** X16.  The fraud-forum scanner reports no mention or exactly one: one
    when a key is configured and the API's answer carries no error and
    flags recent abuse or a risky number, with level HIGH when the fraud
    score exceeds 75 and MEDIUM otherwise; none in every other case, with
    level LOW.  [sources_checked] names IPQualityScore in every case,
    also when no key is configured and nothing was asked. *)
Theorem fraud_scanner_mentions_at_most_once (key : string)
  (request : string -> option IPQualityScoreChecker.api_response)
  (today : string) (phone : string) :
  let fraud_data := IPQualityScoreChecker.check_fraud key request phone in
  let flagged :=
    nonempty key && no_error fraud_data
    && (truthy (Ipqs.recent_abuse fraud_data) || truthy (Ipqs.risky fraud_data)) in
  let fraud_results := FraudForumScanner.scan key request today phone in
  Fraud.sources_checked fraud_results = Some ["IPQualityScore"] /\
  Fraud.mentions_count fraud_results = Some (if flagged then 1 else 0) /\
  Fraud.mentions fraud_results
  = Some (if flagged then [FraudForumScanner.mention fraud_data today] else []) /\
  Fraud.risk_level fraud_results
  = Some (if flagged
          then if 75 <? get (Ipqs.fraud_score fraud_data) 0 then "HIGH" else "MEDIUM"
          else "LOW") /\
  (nonempty key = false -> flagged = false).
Proof.
  cbv zeta. unfold FraudForumScanner.scan. cbv zeta.
  destruct (nonempty key); cbn [andb]; [|repeat split; reflexivity].
  destruct (no_error _); cbn [andb]; [|repeat split; try reflexivity; discriminate].
  destruct (truthy _ || truthy _);
    repeat split; try reflexivity; discriminate.
Qed.

End Scanners.

(** ** The analyzer on the scanners of osint_modules_real.py *)

Section RealDeployment.
Import PhoneAnalyzer RiskScorer Ranges ScoreChecks RealChecks.
Variable lib : phonenumbers.library.
Variable e : RealModules.environment.

Lemma at_most_medium_in_range (a b c d g : float) :
  In a [of_int 0] -> In b spam_values -> In c [of_int 0; of_int 50] ->
  In d [of_int 30] -> In g geo_values -> at_most_medium a b c d g = true.
Proof.
  refine (forallb5_sound at_most_medium [of_int 0] spam_values [of_int 0; of_int 50]
            [of_int 30] geo_values _ a b c d g).
  vm_compute. reflexivity.
Qed.

Lemma at_most_low_in_range (a b c d g : float) :
  In a [of_int 0] -> In b [of_int 0; of_int 30; of_int 60] ->
  In c [of_int 0; of_int 50] ->
  In d [of_int 30] -> In g geo_values -> at_most_low a b c d g = true.
Proof.
  refine (forallb5_sound at_most_low [of_int 0] [of_int 0; of_int 30; of_int 60]
            [of_int 0; of_int 50] [of_int 30] geo_values _ a b c d g).
  vm_compute. reflexivity.
Qed.

Lemma three_or_five_in_range (a b c d g : float) :
  In a [of_int 0] -> In b [of_int 0] -> In c [of_int 0] ->
  In d [of_int 30] -> In g geo_values -> three_or_five a b c d g = true.
Proof.
  refine (forallb5_sound three_or_five [of_int 0] [of_int 0] [of_int 0]
            [of_int 30] geo_values _ a b c d g).
  vm_compute. reflexivity.
Qed.

Lemma at_most_medium_spec (a b c d g score : float) (level : risk_level) :
  at_most_medium a b c d g = true ->
  score_and_level (weighted_total a b c d g) = (score, level) ->
  fle score (decimal 425 10) = true /\ level <> HIGH.
Proof.
  unfold at_most_medium. cbv zeta. intros H E. rewrite E in H. cbn [fst snd] in H.
  apply andb_prop in H as [Hle Hnot].
  split; [exact Hle|]. intros ->. discriminate.
Qed.

Lemma at_most_low_spec (a b c d g score : float) (level : risk_level) :
  at_most_low a b c d g = true ->
  score_and_level (weighted_total a b c d g) = (score, level) ->
  fle score (decimal 325 10) = true /\ (level = MINIMAL \/ level = LOW).
Proof.
  unfold at_most_low. cbv zeta. intros H E. rewrite E in H. cbn [fst snd] in H.
  apply andb_prop in H as [Hle Hlow].
  split; [exact Hle|].
  apply orb_prop in Hlow as [H|H]; apply level_eqb_eq in H; auto.
Qed.

Lemma three_or_five_spec (a b c d g score : float) (level : risk_level) :
  three_or_five a b c d g = true ->
  score_and_level (weighted_total a b c d g) = (score, level) ->
  (score = of_int 3 \/ score = of_int 5) /\ level = MINIMAL.
Proof.
  unfold three_or_five. cbv zeta. intros H E. rewrite E in H. cbn [fst snd] in H.
  apply andb_prop in H as [Hscore Hlevel].
  split; [|apply level_eqb_eq; exact Hlevel].
  apply orb_prop in Hscore as [H|H]; apply float_eqb_eq in H; auto.
Qed.

(** The sub-scores of a run on these scanners. *)
Lemma real_subscores (phone : string) (deep : bool) :
  let r := results (gather (RealModules.providers lib e) (new phone deep)) in
  _calculate_social_media_score r = of_int 0 /\
  _calculate_account_age_score r = Some (of_int 30) /\
  In (_calculate_fraud_score r) [of_int 0; of_int 50] /\
  In (_calculate_spam_score r) spam_values /\
  In (_calculate_geographic_score r) geo_values /\
  ((forall data, RealModules.spam_request e phone = Some data ->
                 get (IPQualityScoreChecker.spam_score data) 0 <= 100) ->
   In (_calculate_spam_score r) [of_int 0; of_int 30; of_int 60]) /\
  (RealModules.IPQUALITYSCORE_API_KEY e = "" ->
   _calculate_spam_score r = of_int 0 /\ _calculate_fraud_score r = of_int 0).
Proof.
  cbv zeta.
  set (r := results (gather (RealModules.providers lib e) (new phone deep))).
  pose proof (gather_scorer_inputs (RealModules.providers lib e) phone deep) as Hin.
  fold r in Hin. unfold scorer_inputs in Hin.
  cbn [social_scan spam_check fraud_scan RealModules.providers] in Hin.
  pose proof (f_equal (fun v => fst (fst (fst v))) Hin) as Hsocial.
  pose proof (f_equal (fun v => snd (fst (fst v))) Hin) as Hspam.
  pose proof (f_equal (fun v => snd (fst v)) Hin) as Hfraud.
  cbn [fst snd] in Hsocial, Hspam, Hfraud. clear Hin.
  split.
  { unfold _calculate_social_media_score, social_data. rewrite Hsocial. reflexivity. }
  split.
  { unfold _calculate_account_age_score, social_data. rewrite Hsocial. reflexivity. }
  split.
  { unfold _calculate_fraud_score. rewrite Hfraud.
    destruct (fraud_scanner_mentions_at_most_once
                (RealModules.IPQUALITYSCORE_API_KEY e) (RealModules.fraud_request e)
                (RealModules.today e) phone) as (_ & -> & _).
    cbn [get]. destruct (_ && _ && _); cbn; tauto. }
  split; [apply spam_score_range|].
  split; [apply geo_score_range|].
  split.
  { intros Hbound. unfold _calculate_spam_score. rewrite Hspam.
    destruct (SpamDatabaseChecker.check _ _ _ _ _) as [spam_results|] eqn:Hcheck;
      [|cbn; tauto].
    pose proof (spam_scanner_total _ _ _ _ _ _ Hbound Hcheck) as Hrange.
    cbn [get].
    repeat match goal with
      | |- context [?a =? ?b] => destruct (Z.eqb_spec a b)
      | |- context [?a <=? ?b] => destruct (Z.leb_spec a b)
      end; try lia; cbn; tauto. }
  intros Hkey. split.
  - unfold _calculate_spam_score. rewrite Hspam.
    pose proof (proj1 (spam_scanner_counts_tens
                         (RealModules.IPQUALITYSCORE_API_KEY e)
                         (RealModules.spam_request e) (RealModules.today e)
                         (RealModules.swapped e) phone)) as Hnothing.
    cbv zeta in Hnothing.
    rewrite Hnothing by (rewrite Hkey; reflexivity). reflexivity.
  - unfold _calculate_fraud_score. rewrite Hfraud.
    destruct (fraud_scanner_mentions_at_most_once
                (RealModules.IPQUALITYSCORE_API_KEY e) (RealModules.fraud_request e)
                (RealModules.today e) phone) as (_ & -> & _ & _ & Hflag).
    rewrite Hflag by (rewrite Hkey; reflexivity). reflexivity.
Qed.

(** The score and level [calculate] returns on such a run. *)
Lemma real_calculate (phone : string) (deep : bool) :
  let r := results (gather (RealModules.providers lib e) (new phone deep)) in
  calculate r
  = Some (score_and_level
            (weighted_total (_calculate_social_media_score r) (_calculate_spam_score r)
               (_calculate_fraud_score r) (of_int 30) (_calculate_geographic_score r))).
Proof.
  cbv zeta. apply calculate_unfold. apply (real_subscores phone deep).
Qed.

(** X17.  On the scanners of osint_modules_real.py a run never ends with
    level HIGH, whatever the APIs answer: the social scanner never flags
    an anomaly and finds no account, and the fraud scanner reports at
    most one mention, so the score is at most 42.5.  When moreover the
    spam score the API gives is at most 100, the score is at most 32.5
    and the level is MINIMAL or LOW. *)
Theorem real_scanners_never_rate_high (phone : string) (deep : bool) :
  exists res score level,
    fst (analyze (RealModules.providers lib e) (new phone deep)) = Returned res /\
    Results.risk_score res = Some score /\
    Results.risk_level res = Some (level_name level) /\
    fle score (decimal 425 10) = true /\
    level <> HIGH /\ level <> CRITICAL /\
    ((forall data, RealModules.spam_request e phone = Some data ->
                   get (IPQualityScoreChecker.spam_score data) 0 <= 100) ->
     fle score (decimal 325 10) = true /\ (level = MINIMAL \/ level = LOW)).
Proof.
  destruct (analyze_returns (RealModules.providers lib e) (new phone deep))
    as (score & level & Hc & _ & _ & Hcritical & Hrun).
  exists (store_risk score level
            (results (gather (RealModules.providers lib e) (new phone deep)))),
    score, level.
  split; [rewrite Hrun; reflexivity|].
  split; [reflexivity|]. split; [reflexivity|].
  pose proof (real_subscores phone deep) as S. cbv zeta in S.
  destruct S as (Hsocial & _ & Hfraud & Hspam & Hgeo & Hspam' & _).
  rewrite (real_calculate phone deep) in Hc.
  assert (E : score_and_level
                (weighted_total
                   (_calculate_social_media_score
                      (results (gather (RealModules.providers lib e) (new phone deep))))
                   (_calculate_spam_score
                      (results (gather (RealModules.providers lib e) (new phone deep))))
                   (_calculate_fraud_score
                      (results (gather (RealModules.providers lib e) (new phone deep))))
                   (of_int 30)
                   (_calculate_geographic_score
                      (results (gather (RealModules.providers lib e) (new phone deep)))))
              = (score, level)) by congruence.
  clear Hc.
  assert (Ha : In (_calculate_social_media_score
                     (results (gather (RealModules.providers lib e) (new phone deep))))
                  [of_int 0]) by (left; congruence).
  assert (Hd : In (of_int 30) [of_int 30]) by (left; reflexivity).
  destruct (at_most_medium_spec _ _ _ _ _ _ _
              (at_most_medium_in_range _ _ _ _ _ Ha Hspam Hfraud Hd Hgeo) E)
    as [Hle Hnot].
  split; [exact Hle|]. split; [exact Hnot|]. split; [exact Hcritical|].
  intros Hbound.
  exact (at_most_low_spec _ _ _ _ _ _ _
           (at_most_low_in_range _ _ _ _ _ Ha (Hspam' Hbound) Hfraud Hd Hgeo) E).
Qed.

(** X18.  With no API key configured, every run on the scanners of
    osint_modules_real.py ends with no risk factor, level MINIMAL and
    score 3.0 (or 5.0 when step 1 found no location), whatever the
    number and whatever the network would answer; the rich metadata
    names the carrier Unknown. *)
Theorem unconfigured_scanners_rate_minimal (phone : string) (deep : bool) :
  RealModules.NUMVERIFY_API_KEY e = "" ->
  RealModules.IPQUALITYSCORE_API_KEY e = "" ->
  exists res score m,
    fst (analyze (RealModules.providers lib e) (new phone deep)) = Returned res /\
    Results.risk_factors res = [] /\
    Results.risk_level res = Some "MINIMAL" /\
    Results.risk_score res = Some score /\
    (score = of_int 3 \/ score = of_int 5) /\
    Results.rich_metadata res = Some m /\
    RichMetadata.current_carrier (RichMetadata.carrier_details m) = "Unknown".
Proof.
  intros Hnv Hipqs.
  destruct (analyze_returns (RealModules.providers lib e) (new phone deep))
    as (score & level & Hc & _ & _ & _ & Hrun).
  pose proof (real_subscores phone deep) as S. cbv zeta in S.
  destruct S as (Hsocial & _ & _ & _ & Hgeo & _ & Hkey).
  destruct (Hkey Hipqs) as [Hspam Hfraud].
  rewrite (real_calculate phone deep) in Hc.
  rewrite Hsocial, Hspam, Hfraud in Hc.
  assert (E : score_and_level
                (weighted_total (of_int 0) (of_int 0) (of_int 0) (of_int 30)
                   (_calculate_geographic_score
                      (results (gather (RealModules.providers lib e) (new phone deep)))))
              = (score, level)) by congruence.
  clear Hc.
  destruct (three_or_five_spec _ _ _ _ _ _ _
              (three_or_five_in_range _ _ _ _ _
                 (or_introl eq_refl) (or_introl eq_refl) (or_introl eq_refl)
                 (or_introl eq_refl) Hgeo) E) as [Hscore Hlevel].
  assert (Hi : check_fraud (RealModules.providers lib e) phone
               = Returned (IPQualityScoreChecker.failed
                             "IPQUALITYSCORE_API_KEY not configured")).
  { cbn [check_fraud RealModules.providers].
    unfold IPQualityScoreChecker.check_fraud. rewrite Hipqs. reflexivity. }
  assert (Hn : validate (RealModules.providers lib e) phone
               = Returned (Numverify.Build_t (Some "NUMVERIFY_API_KEY not configured")
                             (Some false) None None None None None None None)).
  { cbn [validate RealModules.providers].
    unfold NumverifyValidator.validate. rewrite Hnv. reflexivity. }
  destruct (run_rich_metadata (RealModules.providers lib e) phone deep _ _ Hi Hn)
    as (res & Hres & Htypes & Hm).
  exists res, score. eexists.
  split; [exact Hres|].
  assert (Hres' : res = store_risk score level
                          (results (gather (RealModules.providers lib e)
                                      (new phone deep)))).
  { rewrite Hrun in Hres. cbn [fst] in Hres. congruence. }
  split.
  { assert (Hnone : FactorsListed.types_listed (RealModules.providers lib e) phone = []).
    { unfold FactorsListed.types_listed, FactorsListed.rich_types,
        FactorsListed.social_types, FactorsListed.spam_types,
        FactorsListed.fraud_types, FactorsListed.messaging_types.
      rewrite Hi, Hn.
      cbn [social_scan spam_check fraud_scan telegram_scan whatsapp_check
           RealModules.providers].
      unfold SpamDatabaseChecker.check, FraudForumScanner.scan. rewrite Hipqs.
      reflexivity. }
    rewrite Hnone in Htypes. destruct (Results.risk_factors res); [reflexivity|].
    discriminate. }
  split; [rewrite Hres', Hlevel; reflexivity|].
  split; [rewrite Hres'; reflexivity|].
  split; [exact Hscore|].
  split; [exact Hm|]. reflexivity.
Qed.

End RealDeployment.

Section RealDeploymentWitness.
Import PhoneAnalyzer RealChecks.

Lemma unconfigured_scanners_rate_minimal_witness :
  exists res,
    fst (analyze (RealModules.providers Deployment.library without_keys)
           (new Deployment.test_number false)) = Returned res /\
    Results.risk_factors res = [] /\
    Results.risk_level res = Some "MINIMAL".
Proof.
  destruct (unconfigured_scanners_rate_minimal Deployment.library without_keys
              Deployment.test_number false eq_refl eq_refl)
    as (res & score & m & Hrun & Hfactors & Hlevel & _).
  exists res. split; [exact Hrun|]. split; [exact Hfactors | exact Hlevel].
Defined.

End RealDeploymentWitness.

(** ** The analyze handler, case by case *)

Section Handler.
Import Routes Stored.

Lemma next_id_above (table : list PhoneAnalysis.t) (row : PhoneAnalysis.t) :
  In row table -> PhoneAnalysis.id row < next_id table.
Proof.
  unfold next_id. induction table as [|r table IH]; [intros []|].
  cbn [map fold_right]. intros [-> | Hin]; [lia|].
  specialize (IH Hin). lia.
Qed.

Lemma next_id_positive (table : list PhoneAnalysis.t) : 0 < next_id table.
Proof.
  unfold next_id. induction table as [|r table IH]; cbn [map fold_right]; lia.
Qed.

(** A validated request names a non-empty number. *)
Lemma validated_number (lib : phonenumbers.library) (phone_number : option string)
  (message : option string) :
  validate_phone_number lib phone_number = (true, message) ->
  exists number, phone_number = Some number /\ nonempty number = true /\ message = None.
Proof.
  unfold validate_phone_number.
  destruct phone_number as [number|]; [|discriminate].
  destruct (nonempty number) eqn:Hne; cbn [negb]; [|discriminate].
  destruct (phonenumbers.parse lib number) as [parsed|[m|m]]; try discriminate.
  destruct (phonenumbers.is_valid_number lib parsed); cbn [negb]; [|discriminate].
  intros H. exists number. repeat split; congruence.
Qed.

(** What a run returns. *)
Lemma run_result (env : PhoneAnalyzer.providers) (self : PhoneAnalyzer.t) :
  exists score level,
    PhoneAnalyzer.analyze env self
    = (Returned (PhoneAnalyzer.store_risk score level
                   (PhoneAnalyzer.results (PhoneAnalyzer.gather env self))),
       PhoneAnalyzer.calls (PhoneAnalyzer.gather env self)) /\
    fle (of_int 0) score = true /\ fle score (of_int 100) = true /\
    level <> RiskScorer.CRITICAL.
Proof.
  destruct (analyze_returns env self) as (score & level & _ & Hlo & Hhi & Hc & Hrun).
  exists score, level. auto.
Qed.

(** The handler answers 400, 200 or 201, and only a 201 changes the
    table, by one row at its end. *)
Lemma analyze_phone_cases (ctx : context) (table : list PhoneAnalysis.t)
  (data : request) :
  (exists message calls,
     analyze_phone ctx table data = (Build_response (Error message) 400, table, calls) /\
     fst (validate_phone_number (PhoneAnalyzer.library (env ctx)) (phone_number data))
     = false) \/
  (exists number recent,
     phone_number data = Some number /\ nonempty number = true /\
     validate_phone_number (PhoneAnalyzer.library (env ctx)) (Some number)
     = (true, None) /\
     deep_scan data = false /\
     recent_analysis ctx table number = Some recent /\
     analyze_phone ctx table data
     = (Build_response
          (Analysis "Using cached analysis from last 24 hours"
                    (PhoneAnalysis.to_dict (isoformat ctx) recent)) 200,
        table, [PhoneAnalyzer.PhonenumbersLibrary])) \/
  (exists number score level,
     phone_number data = Some number /\ nonempty number = true /\
     validate_phone_number (PhoneAnalyzer.library (env ctx)) (Some number)
     = (true, None) /\
     (deep_scan data = true \/ recent_analysis ctx table number = None) /\
     fle (of_int 0) score = true /\ fle score (of_int 100) = true /\
     level <> RiskScorer.CRITICAL /\
     let self := PhoneAnalyzer.new number (deep_scan data) in
     let res := PhoneAnalyzer.store_risk score level
                  (PhoneAnalyzer.results (PhoneAnalyzer.gather (env ctx) self)) in
     fst (PhoneAnalyzer.analyze (env ctx) self) = Returned res /\
     analyze_phone ctx table data
     = (Build_response
          (Analysis "Analysis completed successfully"
                    (PhoneAnalysis.to_dict (isoformat ctx)
                       (new_row ctx table number res))) 201,
        (table ++ [new_row ctx table number res])%list,
        PhoneAnalyzer.PhonenumbersLibrary
          :: PhoneAnalyzer.calls (PhoneAnalyzer.gather (env ctx) self))).
Proof.
  unfold analyze_phone.
  destruct (validate_phone_number (PhoneAnalyzer.library (env ctx)) (phone_number data))
    as [[|] message] eqn:Hvalid.
  2:{ left. eexists. eexists. split; reflexivity. }
  right.
  destruct (validated_number _ _ _ Hvalid) as (number & Hnumber & Hne & ->).
  rewrite Hnumber in Hvalid |- *. cbn [get].
  destruct (run_result (env ctx) (PhoneAnalyzer.new number (deep_scan data)))
    as (score & level & Hrun & Hlo & Hhi & Hc).
  destruct (recent_analysis ctx table number) as [recent|] eqn:Hrecent.
  - destruct (deep_scan data) eqn:Hdeep.
    + right. exists number, score, level.
      split; [reflexivity|]. split; [exact Hne|]. split; [exact Hvalid|].
      split; [left; first [exact Hdeep | reflexivity]|].
      split; [exact Hlo|]. split; [exact Hhi|]. split; [exact Hc|].
      cbv zeta. rewrite Hrun. split; reflexivity.
    + left. exists number, recent.
      split; [reflexivity|]. split; [exact Hne|]. split; [exact Hvalid|].
      split; [first [exact Hdeep | reflexivity]|].
      split; [first [exact Hrecent | reflexivity]|]. reflexivity.
  - right. exists number, score, level.
    split; [reflexivity|]. split; [exact Hne|]. split; [exact Hvalid|].
    split; [right; first [exact Hrecent | reflexivity]|].
    split; [exact Hlo|]. split; [exact Hhi|]. split; [exact Hc|].
    cbv zeta. rewrite Hrun. destruct (deep_scan data); split; reflexivity.
Qed.

Lemma risk_factor_rows_parent (ctx : context) (analysis_id first_id : Z)
  (factors : list Factor.t) :
  Forall (fun rf => RiskFactor.analysis_id rf = analysis_id)
         (risk_factor_rows ctx analysis_id first_id factors).
Proof.
  revert first_id. induction factors as [|f factors IH]; intros first_id;
    cbn [risk_factor_rows]; constructor; [reflexivity | apply IH].
Qed.

Lemma new_row_ok (ctx : context) (table : list PhoneAnalysis.t) (number : string)
  (score : float) (level : RiskScorer.risk_level) (r : Results.t) :
  nonempty number = true ->
  fle (of_int 0) score = true -> fle score (of_int 100) = true ->
  level <> RiskScorer.CRITICAL ->
  row_ok (new_row ctx table number (PhoneAnalyzer.store_risk score level r)).
Proof.
  intros Hne Hlo Hhi Hc. unfold row_ok, new_row. cbv zeta.
  cbn [PhoneAnalysis.id PhoneAnalysis.phone_number PhoneAnalysis.risk_level
       PhoneAnalysis.risk_score PhoneAnalysis.data_sources_used
       PhoneAnalysis.risk_factors].
  split; [apply next_id_positive|]. split; [exact Hne|].
  split.
  { unfold PhoneAnalyzer.store_risk. cbv zeta. read_results.
    unfold level_names. destruct level; cbn; tauto. }
  split; [exact Hlo|]. split; [exact Hhi|].
  split; [eexists; reflexivity|].
  apply risk_factor_rows_parent.
Qed.

End Handler.

(** ** The report, delete, clear and statistics handlers *)

Section Tables.
Import Stored AnalysisRoutes.

Lemma find_by_id_none (table : list PhoneAnalysis.t) (analysis_id : Z) :
  ~ In analysis_id (map PhoneAnalysis.id table) ->
  find (fun row => PhoneAnalysis.id row =? analysis_id) table = None.
Proof.
  intros Hnot. destruct (find _ table) as [row|] eqn:Hfind; [|reflexivity].
  apply find_some in Hfind as [Hin Heq]. apply Z.eqb_eq in Heq.
  exfalso. apply Hnot. rewrite <- Heq. apply in_map. exact Hin.
Qed.

Lemma find_app_first {A : Type} (p : A -> bool) (l l' : list A) :
  find p (l ++ l') = match find p l with
                     | Some x => Some x
                     | None => find p l'
                     end.
Proof.
  induction l as [|a l IH]; [reflexivity|].
  cbn [app find]. destruct (p a); [reflexivity | exact IH].
Qed.

(** X19.  A report or a delete for an id that no stored analysis has is
    answered 500, not 404: the exception [get_or_404] raises is caught by
    the handler's own [except Exception]; the body carries its text and
    the table is left as it is. *)
Theorem missing_analysis_is_answered_500 (isoformat : Z -> string)
  (not_found : exc) (table : list PhoneAnalysis.t) (analysis_id : Z) :
  ~ In analysis_id (map PhoneAnalysis.id table) ->
  get_report isoformat not_found table analysis_id
  = Build_response (Error (str not_found)) 500 /\
  delete_analysis not_found table analysis_id
  = (Build_response (Error (str not_found)) 500, table) /\
  status (get_report isoformat not_found table analysis_id) <> 404.
Proof.
  intros Hnot. unfold get_report, delete_analysis, get_or_404.
  rewrite (find_by_id_none _ _ Hnot). repeat split. discriminate.
Qed.

Lemma missing_analysis_is_answered_500_witness :
  get_report str_of_int Stored.not_found Service.stored_table 7
  = Build_response (Error (str Stored.not_found)) 500.
Proof.
  apply (missing_analysis_is_answered_500 str_of_int Stored.not_found
           Service.stored_table 7).
  vm_compute. intros [H|[]]. discriminate.
Defined.

(** X20.  An analysis the analyze handler answers with 201 is stored
    under a new id and can be read back: the report handler, asked for
    the id in the answer, returns the same analysis with 200; the table
    has grown by that one row. *)
Theorem stored_analysis_is_reported (ctx : Routes.context)
  (table : list PhoneAnalysis.t) (data : Routes.request) (not_found : exc) :
  Routes.status (fst (fst (Routes.analyze_phone ctx table data))) = 201 ->
  exists analysis,
    Routes.json_body (fst (fst (Routes.analyze_phone ctx table data)))
    = Routes.Analysis "Analysis completed successfully" analysis /\
    ~ In (PhoneAnalysis.d_id analysis) (map PhoneAnalysis.id table) /\
    List.length (snd (fst (Routes.analyze_phone ctx table data)))
    = S (List.length table) /\
    get_report (Routes.isoformat ctx) not_found
      (snd (fst (Routes.analyze_phone ctx table data))) (PhoneAnalysis.d_id analysis)
    = Build_response (Report analysis) 200.
Proof.
  intros Hstatus.
  destruct (analyze_phone_cases ctx table data)
    as [(message & calls & Hrun & _)
       | [(number & recent & _ & _ & _ & _ & _ & Hrun)
         | (number & score & level & _ & _ & _ & _ & _ & _ & _ & H)]].
  - rewrite Hrun in Hstatus. discriminate.
  - rewrite Hrun in Hstatus. discriminate.
  - cbv zeta in H. destruct H as [_ Hrun]. rewrite Hrun.
    cbn [fst snd Routes.json_body].
    set (row := Routes.new_row ctx table number _).
    assert (Hid : PhoneAnalysis.id row = Routes.next_id table) by reflexivity.
    assert (Hfresh : ~ In (PhoneAnalysis.id row) (map PhoneAnalysis.id table)).
    { rewrite Hid. intros Hin. apply in_map_iff in Hin as (r & Heq & Hin).
      pose proof (next_id_above table r Hin). lia. }
    eexists. split; [reflexivity|].
    cbn [PhoneAnalysis.d_id PhoneAnalysis.to_dict].
    split; [exact Hfresh|].
    split; [rewrite length_app; cbn [List.length]; lia|].
    unfold get_report, get_or_404. rewrite find_app_first.
    rewrite (find_by_id_none _ _ Hfresh). cbn [find].
    rewrite Z.eqb_refl. reflexivity.
Qed.

Lemma stored_analysis_is_reported_witness :
  exists analysis,
    get_report str_of_int Stored.not_found Service.stored_table
               (PhoneAnalysis.d_id analysis)
    = Build_response (Report analysis) 200.
Proof.
  destruct (stored_analysis_is_reported Service.first_call [] (Service.request false)
              Stored.not_found ltac:(vm_compute; reflexivity))
    as (analysis & _ & _ & _ & H).
  exists analysis. exact H.
Defined.

(** Deleting the factor rows of another analysis leaves a row as it is. *)
Lemma delete_risk_factors_other (analysis_id : Z) (row : PhoneAnalysis.t) :
  Forall (fun rf => RiskFactor.analysis_id rf = PhoneAnalysis.id row)
         (PhoneAnalysis.risk_factors row) ->
  PhoneAnalysis.id row <> analysis_id ->
  delete_risk_factors analysis_id row = row.
Proof.
  intros Hall Hne. unfold delete_risk_factors.
  assert (Hfilter :
    filter (fun rf => negb (RiskFactor.analysis_id rf =? analysis_id))
           (PhoneAnalysis.risk_factors row) = PhoneAnalysis.risk_factors row).
  { induction Hall as [|rf l Hrf _ IH]; [reflexivity|].
    cbn [filter]. rewrite Hrf.
    destruct (Z.eqb_spec (PhoneAnalysis.id row) analysis_id); [contradiction|].
    cbn [negb]. now rewrite IH. }
  rewrite Hfilter. destruct row; reflexivity.
Qed.

(** The table a delete leaves, on a table with distinct ids whose
    factor rows sit under their own analysis. *)
Lemma delete_leaves (table : list PhoneAnalysis.t) (analysis_id : Z) :
  Forall row_ok table ->
  filter (fun row => negb (PhoneAnalysis.id row =? analysis_id))
         (map (delete_risk_factors analysis_id) table)
  = filter (fun row => negb (PhoneAnalysis.id row =? analysis_id)) table.
Proof.
  induction 1 as [|row table Hrow _ IH]; [reflexivity|].
  cbn [map filter]. rewrite IH.
  change (PhoneAnalysis.id (delete_risk_factors analysis_id row))
    with (PhoneAnalysis.id row).
  destruct (Z.eqb_spec (PhoneAnalysis.id row) analysis_id) as [|Hne];
    cbn [negb]; [reflexivity|].
  rewrite delete_risk_factors_other; [reflexivity | apply Hrow | exact Hne].
Qed.

Lemma filter_ids_length (table : list PhoneAnalysis.t) (analysis_id : Z) :
  NoDup (map PhoneAnalysis.id table) ->
  In analysis_id (map PhoneAnalysis.id table) ->
  S (List.length (filter (fun row => negb (PhoneAnalysis.id row =? analysis_id)) table))
  = List.length table.
Proof.
  induction table as [|row table IH]; [intros _ []|].
  cbn [map]. intros Hnodup Hin. apply NoDup_cons_iff in Hnodup as [Hnotin Hnodup].
  cbn [filter List.length].
  destruct (Z.eqb_spec (PhoneAnalysis.id row) analysis_id) as [Heq|Hne]; cbn [negb].
  - f_equal. rewrite <- Heq in *. clear IH Hin.
    induction table as [|r table IH]; [reflexivity|].
    cbn [filter map] in *.
    destruct (Z.eqb_spec (PhoneAnalysis.id r) (PhoneAnalysis.id row)) as [E|_];
      [exfalso; apply Hnotin; left; exact E|].
    cbn [negb List.length]. f_equal. apply IH.
    + intros H. apply Hnotin. right. exact H.
    + now apply NoDup_cons_iff in Hnodup.
  - cbn [List.length]. f_equal. apply IH; [exact Hnodup|].
    destruct Hin as [Heq|Hin]; [contradiction | exact Hin].
Qed.

Lemma find_filter_other (table : list PhoneAnalysis.t) (analysis_id other : Z) :
  other <> analysis_id ->
  find (fun row => PhoneAnalysis.id row =? other)
       (filter (fun row => negb (PhoneAnalysis.id row =? analysis_id)) table)
  = find (fun row => PhoneAnalysis.id row =? other) table.
Proof.
  intros Hne. induction table as [|row table IH]; [reflexivity|].
  cbn [filter find].
  destruct (Z.eqb_spec (PhoneAnalysis.id row) analysis_id) as [Heq|Hneq]; cbn [negb].
  - destruct (Z.eqb_spec (PhoneAnalysis.id row) other); [lia | exact IH].
  - cbn [find]. destruct (PhoneAnalysis.id row =? other); [reflexivity | exact IH].
Qed.

Lemma table_ok_filter (table : list PhoneAnalysis.t) (p : PhoneAnalysis.t -> bool) :
  table_ok table -> table_ok (filter p table).
Proof.
  intros [Hnodup Hall]. split.
  - clear Hall. induction table as [|row table IH]; [constructor|].
    cbn [map] in Hnodup. apply NoDup_cons_iff in Hnodup as [Hnotin Hnodup].
    cbn [filter]. destruct (p row); [|exact (IH Hnodup)].
    cbn [map]. constructor; [|exact (IH Hnodup)].
    intros Hin. apply Hnotin. apply in_map_iff in Hin as (r & Heq & Hin).
    apply filter_In in Hin as [Hin _]. rewrite <- Heq. apply in_map. exact Hin.
  - rewrite Forall_forall in *. intros row Hin.
    apply filter_In in Hin as [Hin _]. exact (Hall row Hin).
Qed.

(** X21.  On a table whose ids are distinct and whose factor rows sit
    under their own analysis, deleting a stored analysis answers 200 and
    removes that row and nothing else: one row fewer, a report for the
    deleted id is then answered 500, and the report for every other id
    is what it was. *)
Theorem delete_removes_one_analysis (isoformat : Z -> string) (not_found : exc)
  (table : list PhoneAnalysis.t) (analysis_id : Z) :
  table_ok table ->
  In analysis_id (map PhoneAnalysis.id table) ->
  let table' := snd (delete_analysis not_found table analysis_id) in
  fst (delete_analysis not_found table analysis_id)
  = Build_response (Deleted "Analysis deleted successfully" analysis_id) 200 /\
  table' = filter (fun row => negb (PhoneAnalysis.id row =? analysis_id)) table /\
  S (List.length table') = List.length table /\
  get_report isoformat not_found table' analysis_id
  = Build_response (Error (str not_found)) 500 /\
  (forall other, other <> analysis_id ->
     get_report isoformat not_found table' other
     = get_report isoformat not_found table other) /\
  table_ok table'.
Proof.
  intros [Hnodup Hall] Hin. cbv zeta.
  unfold delete_analysis, get_or_404.
  destruct (find (fun row => PhoneAnalysis.id row =? analysis_id) table)
    as [analysis|] eqn:Hfind.
  2:{ exfalso. apply in_map_iff in Hin as (row & Heq & Hrow).
      pose proof (find_none _ _ Hfind row Hrow) as H. cbv beta in H.
      rewrite Heq, Z.eqb_refl in H. discriminate. }
  apply find_some in Hfind as [_ Heq]. apply Z.eqb_eq in Heq.
  cbn [fst snd]. rewrite Heq, (delete_leaves _ _ Hall).
  split; [reflexivity|]. split; [reflexivity|].
  split; [exact (filter_ids_length _ _ Hnodup Hin)|].
  split.
  { unfold get_report, get_or_404. rewrite find_by_id_none; [reflexivity|].
    intros H. apply in_map_iff in H as (row & Hid & Hrow).
    apply filter_In in Hrow as [_ Hrow]. rewrite Hid, Z.eqb_refl in Hrow.
    discriminate. }
  split.
  { intros other Hne. unfold get_report, get_or_404.
    rewrite (find_filter_other _ _ _ Hne). reflexivity. }
  apply table_ok_filter. split; assumption.
Qed.

End Tables.

(** ** What the handlers keep *)

Section Invariant.
Import Stored.

Lemma analyze_phone_keeps_ok (ctx : Routes.context) (table : list PhoneAnalysis.t)
  (data : Routes.request) :
  table_ok table -> table_ok (snd (fst (Routes.analyze_phone ctx table data))).
Proof.
  intros [Hnodup Hall].
  destruct (analyze_phone_cases ctx table data)
    as [(message & calls & Hrun & _)
       | [(number & recent & _ & _ & _ & _ & _ & Hrun)
         | (number & score & level & _ & Hne & _ & _ & Hlo & Hhi & Hc & H)]].
  - rewrite Hrun. split; assumption.
  - rewrite Hrun. split; assumption.
  - cbv zeta in H. destruct H as [_ Hrun]. rewrite Hrun. cbn [fst snd].
    split.
    + rewrite map_app. cbn [map]. apply NoDup_app; [exact Hnodup | |].
      * constructor; [intros []|constructor].
      * intros a Hin [<-|[]]. apply in_map_iff in Hin as (r & Heq & Hin).
        pose proof (next_id_above table r Hin) as Hlt.
        change (PhoneAnalysis.id (Routes.new_row ctx table number
                  (PhoneAnalyzer.store_risk score level
                     (PhoneAnalyzer.results
                        (PhoneAnalyzer.gather (Routes.env ctx)
                           (PhoneAnalyzer.new number (Routes.deep_scan data)))))))
          with (Routes.next_id table) in Heq.
        lia.
    + apply Forall_app. split; [exact Hall|].
      constructor; [|constructor].
      apply new_row_ok; assumption.
Qed.

Lemma delete_risk_factors_ok (analysis_id : Z) (row : PhoneAnalysis.t) :
  row_ok row -> row_ok (AnalysisRoutes.delete_risk_factors analysis_id row).
Proof.
  unfold row_ok, AnalysisRoutes.delete_risk_factors.
  cbn [PhoneAnalysis.id PhoneAnalysis.phone_number PhoneAnalysis.risk_level
       PhoneAnalysis.risk_score PhoneAnalysis.data_sources_used
       PhoneAnalysis.risk_factors].
  intros (H1 & H2 & H3 & H4 & H5 & H6 & H7).
  repeat (split; [assumption|]).
  rewrite Forall_forall in *. intros rf Hin.
  apply filter_In in Hin as [Hin _]. exact (H7 rf Hin).
Qed.

Lemma delete_keeps_ok (not_found : exc) (table : list PhoneAnalysis.t)
  (analysis_id : Z) :
  table_ok table ->
  table_ok (snd (AnalysisRoutes.delete_analysis not_found table analysis_id)).
Proof.
  intros Hok. unfold AnalysisRoutes.delete_analysis.
  destruct (AnalysisRoutes.get_or_404 not_found table analysis_id) as [analysis|e];
    [|exact Hok].
  cbn [snd]. apply table_ok_filter.
  destruct Hok as [Hnodup Hall]. split.
  - rewrite map_map.
    change (map (fun x => PhoneAnalysis.id (AnalysisRoutes.delete_risk_factors
                                              analysis_id x)) table)
      with (map PhoneAnalysis.id table).
    exact Hnodup.
  - rewrite Forall_forall in *. intros row Hin.
    apply in_map_iff in Hin as (r & <- & Hin).
    apply delete_risk_factors_ok. exact (Hall r Hin).
Qed.

Lemma reachable_ok (table : list PhoneAnalysis.t) : reachable table -> table_ok table.
Proof.
  induction 1 as [|ctx table data _ IH|not_found table analysis_id _ IH|table _ IH].
  - split; constructor.
  - apply analyze_phone_keeps_ok. exact IH.
  - apply delete_keeps_ok. exact IH.
  - split; constructor.
Qed.

(** X22.  Whatever sequence of analyze, delete and clear requests led to
    it, a table has distinct ids, and every row in it has a positive id,
    a non-empty number, one of the levels MINIMAL, LOW, MEDIUM, HIGH, a
    score in [0, 100], a list of sources, and factor rows that point to
    the row itself. *)
Theorem stored_tables_are_wellformed (table : list PhoneAnalysis.t) :
  reachable table ->
  NoDup (map PhoneAnalysis.id table) /\
  forall row, In row table ->
    0 < PhoneAnalysis.id row /\
    nonempty (PhoneAnalysis.phone_number row) = true /\
    In (PhoneAnalysis.risk_level row) level_names /\
    fle (of_int 0) (PhoneAnalysis.risk_score row) = true /\
    fle (PhoneAnalysis.risk_score row) (of_int 100) = true /\
    (exists sources, PhoneAnalysis.data_sources_used row = Some sources) /\
    forall rf, In rf (PhoneAnalysis.risk_factors row) ->
      RiskFactor.analysis_id rf = PhoneAnalysis.id row.
Proof.
  intros Hreach. destruct (reachable_ok table Hreach) as [Hnodup Hall].
  split; [exact Hnodup|].
  rewrite Forall_forall in Hall. intros row Hin.
  destruct (Hall row Hin) as (H1 & H2 & H3 & H4 & H5 & H6 & H7).
  repeat (split; [assumption|]).
  rewrite Forall_forall in H7. exact H7.
Qed.

Lemma rescanned_table_reachable : reachable Stored.rescanned_table.
Proof.
  exact (reach_analyze Service.second_call Service.stored_table (Service.request true)
           (reach_analyze Service.first_call [] (Service.request false) reach_empty)).
Defined.

Lemma stored_tables_are_wellformed_witness :
  NoDup (map PhoneAnalysis.id Stored.rescanned_table) /\
  List.length Stored.rescanned_table = 2%nat.
Proof.
  split; [|vm_compute; reflexivity].
  exact (proj1 (stored_tables_are_wellformed Stored.rescanned_table
                  rescanned_table_reachable)).
Defined.

Lemma delete_removes_one_analysis_witness :
  fst (AnalysisRoutes.delete_analysis Stored.not_found Stored.rescanned_table 1)
  = AnalysisRoutes.Build_response
      (AnalysisRoutes.Deleted "Analysis deleted successfully" 1) 200 /\
  List.length (snd (AnalysisRoutes.delete_analysis Stored.not_found
                      Stored.rescanned_table 1)) = 1%nat.
Proof.
  destruct (delete_removes_one_analysis str_of_int Stored.not_found
              Stored.rescanned_table 1
              (reachable_ok _ rescanned_table_reachable)
              ltac:(vm_compute; left; reflexivity))
    as (Hresp & _ & Hlen & _).
  split; [exact Hresp|].
  cbv zeta in Hlen.
  assert (Htwo : List.length Stored.rescanned_table = 2%nat)
    by (vm_compute; reflexivity).
  rewrite Htwo in Hlen. exact (eq_add_S _ _ Hlen).
Defined.

(** Each row with one of the four levels is counted once. *)
Lemma levels_partition (table : list PhoneAnalysis.t) :
  Forall row_ok table ->
  Z.of_nat (List.length table)
  = AnalysisRoutes.count_level "HIGH" table + AnalysisRoutes.count_level "MEDIUM" table
    + AnalysisRoutes.count_level "LOW" table
    + AnalysisRoutes.count_level "MINIMAL" table.
Proof.
  unfold AnalysisRoutes.count_level.
  induction 1 as [|row table Hrow _ IH]; [reflexivity|].
  destruct Hrow as (_ & _ & Hlevel & _).
  cbn [filter List.length]. unfold level_names in Hlevel. cbn [In] in Hlevel.
  destruct Hlevel as [<-|[<-|[<-|[<-|[]]]]]; cbn [String.eqb Ascii.eqb Bool.eqb];
    cbn [List.length]; lia.
Qed.

(** X23.  The statistics count every stored analysis in
    [total_analyses] but only the HIGH, MEDIUM and LOW ones in the
    distribution: on any table the handlers produced, the total exceeds
    the sum of the three by the number of MINIMAL rows. *)
Theorem statistics_leave_out_minimal (table : list PhoneAnalysis.t) :
  reachable table ->
  exists total high medium low,
    AnalysisRoutes.get_statistics table
    = AnalysisRoutes.Build_response
        (AnalysisRoutes.Statistics total high medium low (high, medium, low)) 200 /\
    total = Z.of_nat (List.length table) /\
    total = high + medium + low + AnalysisRoutes.count_level "MINIMAL" table.
Proof.
  intros Hreach. destruct (reachable_ok table Hreach) as [_ Hall].
  do 4 eexists. unfold AnalysisRoutes.get_statistics. cbv zeta.
  split; [reflexivity|]. split; [reflexivity|].
  exact (levels_partition table Hall).
Qed.

Lemma statistics_leave_out_minimal_witness :
  exists total high medium low,
    AnalysisRoutes.get_statistics Stored.rescanned_table
    = AnalysisRoutes.Build_response
        (AnalysisRoutes.Statistics total high medium low (high, medium, low)) 200 /\
    total = 2 /\
    total = high + medium + low
            + AnalysisRoutes.count_level "MINIMAL" Stored.rescanned_table.
Proof.
  destruct (statistics_leave_out_minimal Stored.rescanned_table
              rescanned_table_reachable)
    as (total & high & medium & low & Hstats & Htotal & Hsum).
  exists total, high, medium, low.
  split; [exact Hstats|]. split; [|exact Hsum].
  rewrite Htotal. vm_compute. reflexivity.
Defined.

End Invariant.

(** ** The cache, over two requests *)

Section CacheRounds.
Import Routes Stored.


Lemma find_stricter_none {A : Type} (p q : A -> bool) (l : list A) :
  (forall y, q y = true -> p y = true) -> find p l = None -> find q l = None.
Proof.
  intros Hqp. induction l as [|a l IH]; [reflexivity|].
  cbn [find]. destruct (p a) eqn:Hp; [discriminate|].
  intros H. destruct (q a) eqn:Hqa; [|exact (IH H)].
  apply Hqp in Hqa. congruence.
Qed.

(** A later query accepts no row an earlier one refused. *)
Lemma later_query (ctx ctx2 : context) (number : string) (row : PhoneAnalysis.t) :
  utcnow ctx <= utcnow ctx2 ->
  String.eqb (PhoneAnalysis.phone_number row) number
  && (utcnow ctx2 - hours_24 <? PhoneAnalysis.analysis_date row) = true ->
  String.eqb (PhoneAnalysis.phone_number row) number
  && (utcnow ctx - hours_24 <? PhoneAnalysis.analysis_date row) = true.
Proof.
  intros Hle H. apply andb_prop in H as [Hn Hd]. rewrite Hn. cbn [andb].
  apply Z.ltb_lt in Hd. apply Z.ltb_lt. lia.
Qed.



(** X25.  An analysis just made is what the cache serves next.  After a
    plain request answered 201, the same request repeated within 24
    hours of the insert (same library, same rendering of datetimes) is
    answered 200 with the analysis of the first answer, the table is
    left as it is, and no provider is asked. *)
Theorem fresh_analysis_is_served_from_cache (ctx ctx2 : context)
  (table : list PhoneAnalysis.t) (data : request) :
  status (fst (fst (analyze_phone ctx table data))) = 201 ->
  deep_scan data = false ->
  PhoneAnalyzer.library (env ctx2) = PhoneAnalyzer.library (env ctx) ->
  isoformat ctx2 = isoformat ctx ->
  utcnow ctx <= utcnow ctx2 ->
  utcnow ctx2 - insert_time ctx < hours_24 ->
  exists analysis,
    json_body (fst (fst (analyze_phone ctx table data)))
    = Analysis "Analysis completed successfully" analysis /\
    let table' := snd (fst (analyze_phone ctx table data)) in
    analyze_phone ctx2 table' data
    = (Build_response (Analysis "Using cached analysis from last 24 hours" analysis) 200,
       table', [PhoneAnalyzer.PhonenumbersLibrary]).
Proof.
  intros Hstatus Hdeep Hlib Hiso Hle Hfresh.
  destruct (analyze_phone_cases ctx table data)
    as [(message & calls & Hrun & _)
       | [(number & recent & _ & _ & _ & _ & _ & Hrun)
         | (number & score & level & Hnumber & _ & Hvalid & Hwhy & _ & _ & _ & H)]].
  - rewrite Hrun in Hstatus. discriminate.
  - rewrite Hrun in Hstatus. discriminate.
  - cbv zeta in H. destruct H as [_ Hrun]. rewrite Hrun. cbn [fst snd json_body].
    destruct Hwhy as [Hwhy|Hnone]; [congruence|].
    eexists. split; [reflexivity|]. cbv zeta.
    set (row := new_row ctx table number _).
    unfold analyze_phone. rewrite Hnumber, Hlib, Hvalid, Hdeep. cbn [get].
    assert (Hfirst : recent_analysis ctx2 (table ++ [row]) number = Some row).
    { unfold recent_analysis. rewrite find_app_first.
      rewrite (find_stricter_none _ _ table (fun row => later_query ctx ctx2 number row Hle) Hnone).
      cbn [find]. subst row. cbn [new_row PhoneAnalysis.phone_number
                                  PhoneAnalysis.analysis_date].
      rewrite String.eqb_refl. cbn [andb].
      destruct (Z.ltb_spec (utcnow ctx2 - hours_24) (insert_time ctx));
        [reflexivity | lia]. }
    rewrite Hfirst, Hiso. reflexivity.
Qed.

Lemma fresh_analysis_is_served_from_cache_witness :
  exists analysis,
    analyze_phone Service.second_call Service.stored_table (Service.request false)
    = (Build_response (Analysis "Using cached analysis from last 24 hours" analysis) 200,
       Service.stored_table, [PhoneAnalyzer.PhonenumbersLibrary]).
Proof.
  destruct (fresh_analysis_is_served_from_cache Service.first_call Service.second_call
              [] (Service.request false)
              ltac:(vm_compute; reflexivity) eq_refl eq_refl eq_refl
              ltac:(vm_compute; discriminate) ltac:(vm_compute; reflexivity))
    as (analysis & _ & H).
  exists analysis. exact H.
Defined.

(** X26.  A request whose number the validator rejects (missing, empty,
    unparsable or not a valid number) is answered 400 with the
    validator's message, which is never empty; the table is left as it
    is and no provider is asked beyond the validator's own parse. *)
Theorem rejected_request_changes_nothing (ctx : context)
  (table : list PhoneAnalysis.t) (data : request) :
  fst (validate_phone_number (PhoneAnalyzer.library (env ctx)) (phone_number data))
  = false ->
  exists message calls,
    analyze_phone ctx table data = (Build_response (Error message) 400, table, calls) /\
    snd (validate_phone_number (PhoneAnalyzer.library (env ctx)) (phone_number data))
    = Some message /\
    message <> "" /\
    (calls = [] \/ calls = [PhoneAnalyzer.PhonenumbersLibrary]).
Proof.
  intros Hinvalid. unfold analyze_phone.
  destruct (validate_phone_number (PhoneAnalyzer.library (env ctx)) (phone_number data))
    as [valid message] eqn:Hvalid.
  cbn [fst] in Hinvalid. subst valid.
  assert (Hmessage : exists m, message = Some m /\ m <> "").
  { revert Hvalid. unfold validate_phone_number.
    destruct (phone_number data) as [number|];
      [|intros H; injection H as <-; eexists; split; [reflexivity|discriminate]].
    destruct (nonempty number); cbn [negb];
      [|intros H; injection H as <-; eexists; split; [reflexivity|discriminate]].
    destruct (phonenumbers.parse _ number) as [parsed|[m|m]].
    - destruct (phonenumbers.is_valid_number _ parsed); cbn [negb]; [discriminate|].
      intros H; injection H as <-; eexists; split; [reflexivity|discriminate].
    - intros H; injection H as <-; eexists; split; [reflexivity|discriminate].
    - intros H; injection H as <-; eexists; split; [reflexivity|discriminate]. }
  destruct Hmessage as (m & -> & Hm).
  exists m. eexists. split; [reflexivity|].
  split; [reflexivity|]. split; [exact Hm|].
  destruct (phone_number data) as [number|]; [|left; reflexivity].
  destruct (nonempty number); [right | left]; reflexivity.
Qed.

Lemma rejected_request_changes_nothing_witness :
  analyze_phone Service.first_call Service.stored_table (Build_request None false)
  = (Build_response (Error "Phone number is required") 400, Service.stored_table, []).
Proof.
  destruct (rejected_request_changes_nothing Service.first_call Service.stored_table
              (Build_request None false) eq_refl)
    as (message & calls & Hrun & Hmessage & _ & _).
  rewrite Hrun. cbn in Hmessage. injection Hmessage as <-.
  vm_compute in Hrun. injection Hrun as <-. reflexivity.
Defined.

End CacheRounds.

(** ** Risk factors, from the analyzer to the API *)

Section StoredFactors.
Import Routes Stored FactorsListed.



End StoredFactors.

(** ** Monotonicity of the score *)

Section MonotoneScore.
Import RiskScorer Ranges Monotone.














End MonotoneScore.

(** ** The deep-scan flag *)

Section DeepScanFlag.
Import PhoneAnalyzer DeepScan.
Variable env : providers.

Lemma steps_keep_alike (s s' : t) :
  alike s s' ->
  alike (_get_basic_info env s) (_get_basic_info env s') /\
  alike (_get_rich_metadata env s) (_get_rich_metadata env s') /\
  alike (_check_social_media env s) (_check_social_media env s') /\
  alike (_check_spam_databases env s) (_check_spam_databases env s') /\
  alike (_check_fraud_forums env s) (_check_fraud_forums env s') /\
  alike (_check_messaging_apps env s) (_check_messaging_apps env s').
Proof.
  destruct s as [p d r c], s' as [p' d' r' c']. unfold alike.
  cbn [phone_number results calls]. intros (-> & -> & ->).
  open_steps. cbn [phone_number results calls].
  repeat split;
    repeat match goal with
      | |- context [phonenumbers.parse ?l ?x] => destruct (phonenumbers.parse l x)
      | |- context [check_fraud ?e ?x] => destruct (check_fraud e x)
      | |- context [validate ?e ?x] => destruct (validate e x)
      | |- context [social_scan ?e ?x] => destruct (social_scan e x)
      | |- context [spam_check ?e ?x] => destruct (spam_check e x)
      | |- context [fraud_scan ?e ?x] => destruct (fraud_scan e x)
      | |- context [telegram_scan ?e ?x] => destruct (telegram_scan e x)
      | |- context [whatsapp_check ?e ?x] => destruct (whatsapp_check e x)
      end; reflexivity.
Qed.

Lemma gather_keeps_alike (s s' : t) : alike s s' -> alike (gather env s) (gather env s').
Proof.
  intros H. unfold gather. cbv zeta.
  apply steps_keep_alike, steps_keep_alike, steps_keep_alike, steps_keep_alike,
    steps_keep_alike, steps_keep_alike. exact H.
Qed.

(** X30.  The analyzer never reads its [deep_scan] flag: a deep scan
    makes the same lookups and returns the same result as a plain one.
    In the analyze handler the flag only decides whether a stored
    analysis may be served: when the table holds no analysis of the
    number from the last 24 hours, the answer, the row stored and the
    lookups are the same with and without it. *)
Theorem deep_scan_runs_the_same_analysis (phone : string) :
  analyze env (new phone true) = analyze env (new phone false) /\
  forall (ctx : Routes.context) (table : list PhoneAnalysis.t),
    Routes.env ctx = env ->
    Routes.recent_analysis ctx table phone = None ->
    Routes.analyze_phone ctx table (Routes.Build_request (Some phone) true)
    = Routes.analyze_phone ctx table (Routes.Build_request (Some phone) false).
Proof.
  assert (Hsame : analyze env (new phone true) = analyze env (new phone false)).
  { unfold analyze. cbv zeta.
    destruct (gather_keeps_alike (new phone true) (new phone false))
      as (_ & Hr & Hc); [repeat split|].
    rewrite Hr, Hc. reflexivity. }
  split; [exact Hsame|].
  intros ctx table Henv Hnone. unfold Routes.analyze_phone.
  cbn [Routes.phone_number Routes.deep_scan].
  destruct (validate_phone_number _ _) as [[|] message]; [|reflexivity].
  cbn [get]. rewrite Hnone, Henv, Hsame. reflexivity.
Qed.

End DeepScanFlag.
